(** * write_outnc: schema-driven NetCDF writer

    A shallow embedding of [sail_hp_src/write_outnc.py]: the attribute
    value parser, the global-attribute resolver, the time normalizer and
    the two passes of the dataset writer, with the properties the
    specification states about them. *)

From Stdlib Require Import ZArith QArith Qround Lia Bool List String Ascii.
From Stdlib Require Import DecimalString SpecFloat.
From stdpp Require Import base option strings gmap.
Import ListNotations.

Local Open Scope string_scope.
Local Open Scope Z_scope.

(** ** Python exceptions and fallible results *)

Module Py.

(** An exception: its class and its message. The text of a message that a
    library produces is not modelled and left empty. *)
Inductive exn : Type :=
| TypeError (msg : string)
| ValueError (msg : string)
| IndexError (msg : string)
| KeyError (msg : string)
| AttributeError (msg : string)
| OverflowError (msg : string).

Definition lib_msg : string := EmptyString.

Inductive result (A : Type) : Type :=
| Ok (a : A)
| Raise (e : exn).

Arguments Ok {A} a.
Arguments Raise {A} e.

Definition bind {A B : Type} (r : result A) (k : A -> result B) : result B :=
  match r with
  | Ok a => k a
  | Raise e => Raise e
  end.

(** [try_all f l]: a comprehension [f(x) for x in l] that stops at the first
    exception. *)
Fixpoint try_all {A B : Type} (f : A -> result B) (l : list A) : result (list B) :=
  match l with
  | [] => Ok []
  | x :: xs =>
      match f x with
      | Raise e => Raise e
      | Ok y => match try_all f xs with
                | Raise e => Raise e
                | Ok ys => Ok (y :: ys)
                end
      end
  end.

End Py.

Import Py.

Notation "'try' x <- r ; k" := (Py.bind r (fun x => k))
  (at level 10, x name, r at level 100, k at level 200).

(** ** Python string primitives *)

Module PyStr.

(** Characters that [str.strip()] removes, a character standing for the
    code point of its number: the white space of ASCII, the next-line
    control 133 and the no-break space 160. *)
Definition is_space (c : ascii) : bool :=
  let n := Z.of_nat (nat_of_ascii c) in
  ((9 <=? n) && (n <=? 13)) || ((28 <=? n) && (n <=? 32))
  || (n =? 133) || (n =? 160).

Fixpoint lstrip_by (p : ascii -> bool) (s : string) : string :=
  match s with
  | EmptyString => EmptyString
  | String c r => if p c then lstrip_by p r else s
  end.

Fixpoint rstrip_by (p : ascii -> bool) (s : string) : string :=
  match s with
  | EmptyString => EmptyString
  | String c r =>
      match rstrip_by p r with
      | EmptyString => if p c then EmptyString else String c EmptyString
      | r' => String c r'
      end
  end.

Definition strip_by (p : ascii -> bool) (s : string) : string :=
  rstrip_by p (lstrip_by p s).

(** [s.strip()] *)
Definition strip (s : string) : string := strip_by is_space s.

(** [s.strip(c)] for a one-character argument *)
Definition strip_char (c : ascii) (s : string) : string :=
  strip_by (Ascii.eqb c) s.

(** The double-quote character. *)
Definition dquote : ascii := "034"%char.

(** [c in s] for a one-character [c] *)
Fixpoint contains_char (c : ascii) (s : string) : bool :=
  match s with
  | EmptyString => false
  | String d r => Ascii.eqb c d || contains_char c r
  end.

(** [sub in s] *)
Fixpoint contains (sub s : string) : bool :=
  String.prefix sub s
  || match s with
     | EmptyString => false
     | String _ r => contains sub r
     end.

(** [s.rsplit(c, 1)] when [c] occurs in [s]: the text before the last [c]
    and the text after it; [None] when [c] does not occur. *)
Fixpoint rsplit1 (c : ascii) (s : string) : option (string * string) :=
  match s with
  | EmptyString => None
  | String d r =>
      match rsplit1 c r with
      | Some (a, b) => Some (String d a, b)
      | None => if Ascii.eqb c d then Some (EmptyString, r) else None
      end
  end.

(** [s.split(c)] *)
Fixpoint split (c : ascii) (s : string) : list string :=
  match s with
  | EmptyString => [EmptyString]
  | String d r =>
      if Ascii.eqb c d then EmptyString :: split c r
      else match split c r with
           | [] => [String d EmptyString]
           | p :: ps => String d p :: ps
           end
  end.

(** [sep.join(l)] *)
Fixpoint join (sep : string) (l : list string) : string :=
  match l with
  | [] => EmptyString
  | [x] => x
  | x :: xs => x +:+ sep +:+ join sep xs
  end.

Definition is_digit (c : ascii) : bool :=
  let n := Z.of_nat (nat_of_ascii c) in (48 <=? n) && (n <=? 57).

Definition digit_val (c : ascii) : Z := Z.of_nat (nat_of_ascii c) - 48.

(** A run of decimal digits in which single underscores may separate digits,
    as [int] and [float] accept it. [acc] is the value so far, [cnt] the
    number of digits read and [prev] tells whether the previous character
    was a digit. Returns the value, the digit count and the rest. *)
Fixpoint digits_from (acc : Z) (cnt : Z) (prev : bool) (s : string)
  : Z * Z * string :=
  match s with
  | EmptyString => (acc, cnt, s)
  | String c r =>
      if is_digit c then digits_from (10 * acc + digit_val c) (cnt + 1) true r
      else if Ascii.eqb c "_" && prev then
        match r with
        | String d _ => if is_digit d then digits_from acc cnt false r
                        else (acc, cnt, s)
        | EmptyString => (acc, cnt, s)
        end
      else (acc, cnt, s)
  end.

Definition digits (s : string) : Z * Z * string := digits_from 0 0 false s.

(** An optional sign: [true] for a leading minus. *)
Definition sign (s : string) : bool * string :=
  match s with
  | String "-" r => (true, r)
  | String "+" r => (false, r)
  | _ => (false, s)
  end.

(** [int(s)] in base ten. *)
Definition py_int (s : string) : result Z :=
  let '(neg, body) := sign (strip s) in
  match digits body with
  | (v, cnt, EmptyString) =>
      if 0 <? cnt then Ok (if neg then - v else v) else Raise (ValueError lib_msg)
  | _ => Raise (ValueError lib_msg)
  end.

(** [str(n)] for an integer *)
Definition str_of_Z (z : Z) : string := NilEmpty.string_of_int (Z.to_int z).

End PyStr.


(** ** IEEE binary floating point, as the exact rationals it can hold

    A finite float is the rational it denotes, in lowest terms. Rounding is
    to nearest, ties to even, on the grid of the value's binade; [emin] is
    the exponent of the smallest subnormal step and values of magnitude at
    least [2^emax] overflow to an infinity. The sign of zero is not kept. *)

Module F64.

Inductive float : Type :=
| NaN
| Inf (neg : bool)
| Fin (q : Q).

Record format : Type := { prec : Z; emin : Z; emax : Z }.

Definition binary64 : format := {| prec := 53; emin := -1074; emax := 1024 |}.
Definition binary32 : format := {| prec := 24; emin := -149; emax := 128 |}.

(** [2^e = pow2n e / pow2d e] for any integer [e]. *)
Definition pow2n (e : Z) : Z := 2 ^ Z.max e 0.
Definition pow2d (e : Z) : Z := 2 ^ Z.max (- e) 0.

(** [floor (log2 (p / q))] for positive [p] and [q]. *)
Definition ilog2 (p q : Z) : Z :=
  let d := Z.log2 p - Z.log2 q in
  if q * pow2n d <=? p * pow2d d then d else d - 1.

(** Exponent of the rounding grid around [p / q]. *)
Definition expo (f : format) (p q : Z) : Z :=
  Z.max (ilog2 p q - (prec f - 1)) (emin f).

(** Nearest integer to [p / q], ties to even ([q > 0]). *)
Definition rne (p q : Z) : Z :=
  let m := p / q in
  match 2 * (p mod q) ?= q with
  | Lt => m
  | Gt => m + 1
  | Eq => if Z.even m then m else m + 1
  end.

(** The rational [m * 2^e]. *)
Definition dyadic_raw (m e : Z) : Q := (m * pow2n e) # Z.to_pos (pow2d e).
Definition dyadic (m e : Z) : Q := Qred (dyadic_raw m e).

Definition round_pos (f : format) (p q : Z) : float :=
  let e := expo f p q in
  let m := rne (p * pow2d e) (q * pow2n e) in
  if (0 <=? e) && (2 ^ emax f <=? m * 2 ^ e) then Inf false
  else Fin (dyadic m e).

Definition neg (x : float) : float :=
  match x with
  | NaN => NaN
  | Inf s => Inf (negb s)
  | Fin q => Fin (- q)
  end.

(** Round a rational to the format. *)
Definition round (f : format) (x : Q) : float :=
  match Qnum x with
  | Z0 => Fin 0
  | Zpos p => round_pos f (Zpos p) (Zpos (Qden x))
  | Zneg p => neg (round_pos f (Zpos p) (Zpos (Qden x)))
  end.

(** C's [(double) n] for a 64-bit integer, Python's [float(n)]. *)
Definition of_Z (z : Z) : float := round binary64 (inject_Z z).

Definition is_neg (q : Q) : bool := Qnum q <? 0.

(** Division of doubles. *)
Definition div (a b : float) : float :=
  match a, b with
  | NaN, _ | _, NaN => NaN
  | Inf _, Inf _ => NaN
  | Inf s, Fin y => Inf (xorb s (is_neg y))
  | Fin _, Inf _ => Fin 0
  | Fin x, Fin y =>
      if Qnum y =? 0 then (if Qnum x =? 0 then NaN else Inf (is_neg x))
      else round binary64 (x / y)
  end.

(** Python's [int(x)] for a float: truncation toward zero. *)
Definition trunc (x : float) : result Z :=
  match x with
  | NaN => Raise (ValueError lib_msg)
  | Inf _ => Raise (OverflowError lib_msg)
  | Fin q => Ok (Z.quot (Qnum q) (Zpos (Qden q)))
  end.

Definition is_nan (x : float) : bool :=
  match x with NaN => true | _ => false end.

(** Python truthiness of a float: everything but zero. *)
Definition truthy (x : float) : bool :=
  match x with
  | Fin q => negb (Qnum q =? 0)
  | _ => true
  end.

End F64.

(** The same operations on the Standard Library's reference model of IEEE
    arithmetic, for comparison. *)

Module F64Ref.

Definition to_float (x : spec_float) : F64.float :=
  match x with
  | S754_zero _ => F64.Fin 0
  | S754_infinity s => F64.Inf s
  | S754_nan => F64.NaN
  | S754_finite s m e =>
      F64.Fin (F64.dyadic (if s then Z.neg m else Z.pos m) e)
  end.

Definition normalize_Z (z : Z) : spec_float := binary_normalize 53 1024 z 0 false.

Definition truediv (a b : Z) : F64.float :=
  to_float (SFdiv 53 1024 (normalize_Z a) (normalize_Z b)).

Definition float_eqb (x y : F64.float) : bool :=
  match x, y with
  | F64.Fin p, F64.Fin q => Qeq_bool p q
  | F64.Inf s, F64.Inf s' => Bool.eqb s s'
  | F64.NaN, F64.NaN => true
  | _, _ => false
  end.

End F64Ref.

(** ** [float(s)] *)

Module PyFloat.

Import PyStr.

Definition lower (c : ascii) : ascii :=
  let n := nat_of_ascii c in
  if ((65 <=? n) && (n <=? 90))%nat then ascii_of_nat (n + 32) else c.

Fixpoint lower_str (s : string) : string :=
  match s with
  | EmptyString => EmptyString
  | String c r => String (lower c) (lower_str r)
  end.

(** The exponent part of a decimal literal: empty, or [e] and a signed run
    of digits up to the end of the text. *)
Definition exponent (s : string) : option Z :=
  match s with
  | EmptyString => Some 0
  | String c r =>
      if Ascii.eqb (lower c) "e" then
        let '(neg, body) := sign r in
        match digits body with
        | (v, cnt, EmptyString) =>
            if 0 <? cnt then Some (if neg then - v else v) else None
        | _ => None
        end
      else None
  end.

(** The rational [m * 10^ex / 10^fc]. *)
Definition decimal (m ex fc : Z) : Q :=
  let k := ex - fc in
  if 0 <=? k then inject_Z (m * 10 ^ k) else m # Z.to_pos (10 ^ (- k)).

(** [float(s)]: an optionally signed decimal literal with optional fraction
    and exponent, or [nan], [inf], [infinity] in any letter case, with
    surrounding white space. *)
Definition py_float (s : string) : result F64.float :=
  let '(neg, body) := sign (strip s) in
  let lb := lower_str body in
  if String.eqb lb "nan" then Ok F64.NaN
  else if String.eqb lb "inf" || String.eqb lb "infinity" then Ok (F64.Inf neg)
  else
    let '(ip, ic, r1) := digits body in
    let '(fp, fc, r2) :=
      match r1 with
      | String "." r => digits r
      | _ => (0, 0, r1)
      end in
    if ic + fc =? 0 then Raise (ValueError lib_msg)
    else match exponent r2 with
         | None => Raise (ValueError lib_msg)
         | Some ex =>
             let x := F64.round F64.binary64 (decimal (ip * 10 ^ fc + fp) ex fc) in
             Ok (if neg then F64.neg x else x)
         end.

End PyFloat.

(** ** numpy arrays *)

Module Np.

Inductive dtype : Type :=
| int8 | int16 | int32 | int64
| float32 | float64
| datetime64
| object_.

Definition dtype_eqb (a b : dtype) : bool :=
  match a, b with
  | int8, int8 | int16, int16 | int32, int32 | int64, int64
  | float32, float32 | float64, float64
  | datetime64, datetime64 | object_, object_ => true
  | _, _ => false
  end.

(** One element of an array. [SObject cls] is any other Python object and
    [cls] the qualified name of its class, as [str(type(x))] prints it. *)
Inductive scalar : Type :=
| SInt (z : Z)
| SFloat (x : F64.float)
| SDatetime (ns : option Z)
| SStr (s : string)
| SObject (cls : string).

(** An array: element type, shape, elements in flat order. [mask] is [Some]
    for a [numpy.ma.MaskedArray] (the attribute [mask] exists), and
    [fill_value] is the fill value its creator gave it, if any. *)
Record ndarray : Type := {
  adtype : dtype;
  shape : list nat;
  flat : list scalar;
  mask : option (list bool);
  fill_value : option scalar
}.

Definition plain (d : dtype) (sh : list nat) (l : list scalar) : ndarray :=
  {| adtype := d; shape := sh; flat := l; mask := None; fill_value := None |}.

(** [len(a)]: the first dimension; a 0-d array has no length. *)
Definition len (a : ndarray) : result nat :=
  match shape a with
  | [] => Raise (TypeError lib_msg)
  | n :: _ => Ok n
  end.

(** [a.flat[0]] *)
Definition flat0 (a : ndarray) : result scalar :=
  match flat a with
  | [] => Raise (IndexError lib_msg)
  | x :: _ => Ok x
  end.

(** [str(type(x))] for an element [x] read out of an array of type [d]. *)
Definition type_str (d : dtype) (x : scalar) : string :=
  match d, x with
  | object_, SInt _ => "<class 'int'>"
  | object_, SFloat _ => "<class 'float'>"
  | object_, SStr _ => "<class 'str'>"
  | _, SObject cls => "<class '" +:+ cls +:+ "'>"
  | _, SDatetime _ => "<class 'numpy.datetime64'>"
  | _, SStr _ => "<class 'numpy.str_'>"
  | int8, _ => "<class 'numpy.int8'>"
  | int16, _ => "<class 'numpy.int16'>"
  | int32, _ => "<class 'numpy.int32'>"
  | int64, _ => "<class 'numpy.int64'>"
  | float32, _ => "<class 'numpy.float32'>"
  | float64, _ => "<class 'numpy.float64'>"
  | datetime64, _ => "<class 'numpy.datetime64'>"
  end.

(** numpy's default fill value of a masked array, by element type. *)
Definition default_fill_value (d : dtype) : scalar :=
  match d with
  | int8 | int16 | int32 | int64 => SInt 999999
  | float32 | float64 => SFloat (F64.of_Z (10 ^ 20))
  | datetime64 => SDatetime None
  | object_ => SStr "?"
  end.

(** The attribute [a.fill_value] of a masked array. *)
Definition ma_fill_value (a : ndarray) : scalar :=
  match fill_value a with
  | Some v => v
  | None => default_fill_value (adtype a)
  end.

Fixpoint fill_masked (v : scalar) (l : list scalar) (m : list bool) : list scalar :=
  match l, m with
  | x :: xs, b :: bs => (if b then v else x) :: fill_masked v xs bs
  | _, _ => l
  end.

Definition scalar_isnan (x : scalar) : bool :=
  match x with
  | SFloat f => F64.is_nan f
  | SDatetime None => true
  | _ => false
  end.

(** [numpy.isnan(a)]: not defined on object arrays. *)
Definition isnan (a : ndarray) : result (list bool) :=
  match adtype a with
  | object_ => Raise (TypeError lib_msg)
  | _ => Ok (map scalar_isnan (flat a))
  end.

(** [numpy.any(l)] *)
Definition any (l : list bool) : bool := existsb (fun b => b) l.

(** [numpy.where(c, v, a)] for a scalar [v]. The element type of the result
    is kept at that of [a]. *)
Definition where_ (c : list bool) (v : scalar) (a : ndarray) : ndarray :=
  {| adtype := adtype a; shape := shape a;
     flat := fill_masked v (flat a) c;
     mask := mask a; fill_value := fill_value a |}.

Definition wrap (bits : Z) (z : Z) : Z :=
  (z + 2 ^ (bits - 1)) mod 2 ^ bits - 2 ^ (bits - 1).

Definition int_bits (d : dtype) : Z :=
  match d with
  | int8 => 8 | int16 => 16 | int32 => 32 | _ => 64
  end.

Definition cast_float (f : F64.format) (x : scalar) : result scalar :=
  match x with
  | SInt z => Ok (SFloat (F64.round f (inject_Z z)))
  | SFloat (F64.Fin q) => Ok (SFloat (F64.round f q))
  | SFloat y => Ok (SFloat y)
  | SDatetime (Some ns) => Ok (SFloat (F64.round f (inject_Z ns)))
  | SDatetime None => Ok (SFloat F64.NaN)
  | SStr s => try y <- PyFloat.py_float s; Ok (SFloat y)
  | SObject _ => Raise (TypeError lib_msg)
  end.

Definition cast_int (bits : Z) (x : scalar) : result scalar :=
  match x with
  | SInt z => Ok (SInt (wrap bits z))
  | SFloat (F64.Fin q) => Ok (SInt (wrap bits (Z.quot (Qnum q) (Zpos (Qden q)))))
  | SFloat _ => Ok (SInt (- 2 ^ (bits - 1)))
  | SDatetime (Some ns) => Ok (SInt (wrap bits ns))
  | SDatetime None => Ok (SInt (wrap bits (- 2 ^ 63)))
  | SStr s => try z <- PyStr.py_int s; Ok (SInt (wrap bits z))
  | SObject _ => Raise (TypeError lib_msg)
  end.

(** Conversion of one element to the type [d], as [astype] does it: Python
    objects that are not numbers cannot be converted. *)
Definition cast_scalar (d : dtype) (x : scalar) : result scalar :=
  match d with
  | float32 => cast_float F64.binary32 x
  | float64 => cast_float F64.binary64 x
  | int8 | int16 | int32 | int64 => cast_int (int_bits d) x
  | datetime64 | object_ => Ok x
  end.

(** [a.astype(d)] *)
Definition astype (a : ndarray) (d : dtype) : result ndarray :=
  try l <- try_all (cast_scalar d) (flat a);
  Ok {| adtype := d; shape := shape a; flat := l;
        mask := mask a; fill_value := fill_value a |}.

(** [numpy.ma.core._check_fill_value(v, d)] for a given [v]: the value as an
    element of type [d]; what cannot be converted is a [TypeError]. *)
Definition check_fill_value (d : dtype) (v : scalar) : result scalar :=
  match cast_scalar d v with
  | Ok x => Ok x
  | Raise _ => Raise (TypeError lib_msg)
  end.

(** [numpy.ma.filled(a, fill_value)]: a plain array in which the masked
    elements are replaced by [fill_value], or by [a.fill_value] when the
    argument is [None]. The value is first converted to the element type of
    the array ([_check_fill_value] for an argument, the assignment into the
    copy of the data for [a.fill_value]), so an array of 8-bit integers gets
    63 for the default 999999; a value that cannot be converted is refused
    with a [TypeError]. An array without a mask is returned as it is. *)
Definition ma_filled (a : ndarray) (fill : option scalar) : result ndarray :=
  match mask a with
  | None => Ok a
  | Some m =>
      let v := match fill with Some v => v | None => ma_fill_value a end in
      try stored <- check_fill_value (adtype a) v;
      Ok {| adtype := adtype a; shape := shape a;
            flat := fill_masked stored (flat a) m;
            mask := None; fill_value := None |}
  end.

(** [numpy.int32(n)] for a Python integer that fits a C long. Within 32
    bits the result holds [n]. Beyond, the versions of numpy differ: numpy 1
    cuts the value to 32 bits (with a warning since 1.24), which is what is
    written here, and numpy 2 raises [OverflowError]. *)
Definition np_int32 (n : Z) : result ndarray :=
  if (- 2 ^ 63 <=? n) && (n <? 2 ^ 63) then Ok (plain int32 [] [SInt (wrap 32 n)])
  else Raise (OverflowError lib_msg).

(** [numpy.array([x], dtype="float64")] *)
Definition array1_float64 (x : F64.float) : ndarray :=
  plain float64 [1%nat] [SFloat x].

(** A 0-d array holding a Python float. *)
Definition scalar_float64 (x : F64.float) : ndarray :=
  plain float64 [] [SFloat x].

(** Two's complement arithmetic of 64-bit time stamps. *)
Definition wrap64 (z : Z) : Z := wrap 64 z.

(** Division of a [timedelta64] by another, both counted in the same
    unit: the quotient of the two counts converted to doubles. *)
Definition timedelta_truediv (a b : Z) : F64.float :=
  F64.div (F64.of_Z a) (F64.of_Z b).

End Np.

(** ** More string methods, and the two patterns of the schema parser *)

Module PyText.

Import PyStr.

Definition tab : ascii := "009"%char.

(** [s.lstrip()] and [s.rstrip()] *)
Definition lstrip (s : string) : string := lstrip_by is_space s.
Definition rstrip (s : string) : string := rstrip_by is_space s.

(** [s.replace(a, b)] for one-character [a] and [b] *)
Fixpoint replace_char (a b : ascii) (s : string) : string :=
  match s with
  | EmptyString => EmptyString
  | String c r => String (if Ascii.eqb a c then b else c) (replace_char a b r)
  end.

(** [s.upper()] as far as the parser needs it: the letters of ASCII are
    raised and the other characters kept. The parser only compares the
    result with [UNLIMITED], and no character from 128 to 255 has an upper
    case made of letters of that word. *)
Definition upper_char (c : ascii) : ascii :=
  let n := nat_of_ascii c in
  if ((97 <=? n) && (n <=? 122))%nat then ascii_of_nat (n - 32) else c.

Fixpoint upper (s : string) : string :=
  match s with
  | EmptyString => EmptyString
  | String c r => String (upper_char c) (upper r)
  end.

(** [s.split(c, 1)] when [c] occurs in [s]: the text before the first [c]
    and the text after it; [None] when [c] does not occur. *)
Fixpoint split1 (c : ascii) (s : string) : option (string * string) :=
  match s with
  | EmptyString => None
  | String d r =>
      if Ascii.eqb c d then Some (EmptyString, r)
      else match split1 c r with
           | Some (a, b) => Some (String d a, b)
           | None => None
           end
  end.

(** [s.split(c)[0]] *)
Fixpoint before_char (c : ascii) (s : string) : string :=
  match s with
  | EmptyString => EmptyString
  | String d r => if Ascii.eqb c d then EmptyString else String d (before_char c r)
  end.

(** [len(s) - len(s.lstrip())] *)
Definition indent_of (s : string) : nat :=
  (String.length s - String.length (lstrip s))%nat.

(** The class [\w] of [re] for a text pattern: the underscore and what
    [str.isalnum] accepts, which below 256 is the letters and digits of
    ASCII, the letters from 192 on but for the two signs 215 and 247, and
    the ordinal indicators, superscript digits, micro sign and fractions
    among 170 to 190. *)
Definition is_word (c : ascii) : bool :=
  let n := nat_of_ascii c in
  (((48 <=? n) && (n <=? 57)) || ((65 <=? n) && (n <=? 90))
   || ((97 <=? n) && (n <=? 122)) || (n =? 95)
   || (n =? 170) || (n =? 178) || (n =? 179) || (n =? 181) || (n =? 185)
   || (n =? 186) || ((188 <=? n) && (n <=? 190))
   || ((192 <=? n) && negb (n =? 215) && negb (n =? 247)))%nat.

(** The longest run of word characters at the start of [s], and the rest:
    what a greedy [\w+] takes when the next item of the pattern is not a
    word character or the pattern ends. *)
Fixpoint span_word (s : string) : string * string :=
  match s with
  | EmptyString => (EmptyString, EmptyString)
  | String c r =>
      if is_word c then let '(w, t) := span_word r in (String c w, t)
      else (EmptyString, s)
  end.

(** [\):(\w+)] matched at the start of [s]: the group. *)
Definition close_and_type (s : string) : option string :=
  match s with
  | String ")" (String ":" r) =>
      match fst (span_word r) with
      | EmptyString => None
      | w => Some w
      end
  | _ => None
  end.

(** The line feed, which [.] does not match. *)
Definition newline : ascii := "010"%char.

(** [(.*?)\):(\w+)] matched at the start of [s]: the lazy group is the
    shortest text without a line feed after which [\):(\w+)] matches. *)
Fixpoint lazy_dims (s : string) : option (string * string) :=
  match close_and_type s with
  | Some t => Some (EmptyString, t)
  | None =>
      match s with
      | EmptyString => None
      | String c r =>
          if Ascii.eqb c newline then None
          else match lazy_dims r with
               | Some (d, t) => Some (String c d, t)
               | None => None
               end
      end
  end.

(** [re.match(r"^(\w+)\((.*?)\):(\w+)", line)]: the three groups. *)
Definition match_var_decl (line : string) : option (string * string * string) :=
  match span_word line with
  | (EmptyString, _) => None
  | (name, String "(" r) =>
      match lazy_dims r with
      | Some (d, t) => Some (name, d, t)
      | None => None
      end
  | _ => None
  end.

(** [re.match(r"^(\w+)\(\):(\w+)", line)]: the two groups. *)
Definition match_scalar_decl (line : string) : option (string * string) :=
  match span_word line with
  | (EmptyString, _) => None
  | (name, String "(" r) =>
      match close_and_type r with
      | Some t => Some (name, t)
      | None => None
      end
  | _ => None
  end.

End PyText.

(** ** Insertion-ordered dictionaries with string keys *)

Module Dict.

Section Ops.
Context {V : Type}.

Fixpoint get (k : string) (d : list (string * V)) : option V :=
  match d with
  | [] => None
  | (k', v) :: r => if String.eqb k k' then Some v else get k r
  end.

(** [k in d] *)
Definition mem (k : string) (d : list (string * V)) : bool :=
  match get k d with Some _ => true | None => false end.

(** [d[k] = v]: in place when [k] is a key, at the end otherwise. *)
Fixpoint set (k : string) (v : V) (d : list (string * V)) : list (string * V) :=
  match d with
  | [] => [(k, v)]
  | (k', v') :: r =>
      if String.eqb k k' then (k, v) :: r else (k', v') :: set k v r
  end.

(** [d.pop(k, None)]: the value and the dictionary without the key. *)
Fixpoint pop (k : string) (d : list (string * V)) : option V * list (string * V) :=
  match d with
  | [] => (None, [])
  | (k', v) :: r =>
      if String.eqb k k' then (Some v, r)
      else let '(o, r') := pop k r in (o, (k', v) :: r')
  end.

Definition keys (d : list (string * V)) : list string := map fst d.

End Ops.

End Dict.

(** ** The output container of the netCDF library *)

Module NetCDF.

(** The file as the calls that the library accepts leave it. What the
    library refuses on its own account (a variable over a dimension that
    was not declared, a type word it does not know, a negative size, a name
    it reserves) is not part of the model: statements about a file are
    about calls that returned. *)

(** A variable of the file: the fill value is the one given when the
    variable was created, [data] what was last assigned to [var[:]]. *)
Record variable (A : Type) : Type := {
  var_dtype : string;
  var_dims : list string;
  var_fill : option Np.scalar;
  var_attrs : list (string * A);
  var_data : option Np.ndarray
}.

Arguments var_dtype {A} _.
Arguments var_dims {A} _.
Arguments var_fill {A} _.
Arguments var_attrs {A} _.
Arguments var_data {A} _.

(** An open or closed [netCDF4.Dataset]. *)
Record dataset (A : Type) : Type := {
  dims : list (string * option Z);
  attrs : list (string * string);
  variables : list (string * variable A);
  isopen : bool
}.

Arguments dims {A} _.
Arguments attrs {A} _.
Arguments variables {A} _.
Arguments isopen {A} _.

Section Ops.
Context {A : Type}.

(** [Dataset(path, "w", format="NETCDF4")] *)
Definition create : dataset A :=
  {| dims := []; attrs := []; variables := []; isopen := true |}.

(** [nc.createDimension(dim, size)] *)
Definition createDimension (dim : string) (size : option Z) (nc : dataset A)
  : dataset A :=
  {| dims := Dict.set dim size (dims nc); attrs := attrs nc;
     variables := variables nc; isopen := isopen nc |}.

(** [setattr(nc, k, v)] *)
Definition setncattr (k v : string) (nc : dataset A) : dataset A :=
  {| dims := dims nc; attrs := Dict.set k v (attrs nc);
     variables := variables nc; isopen := isopen nc |}.

(** [nc.createVariable(name, dtype, dims, fill_value=fill)]; without the
    argument [fill] is [None] and the variable has no attribute
    [_FillValue]. *)
Definition createVariable (name dtype : string) (dims_ : list string)
    (fill : option Np.scalar) (nc : dataset A) : dataset A :=
  let v := {| var_dtype := dtype; var_dims := dims_; var_fill := fill;
              var_attrs := []; var_data := None |} in
  {| dims := dims nc; attrs := attrs nc;
     variables := Dict.set name v (variables nc); isopen := isopen nc |}.

Definition update_variable (name : string) (f : variable A -> variable A)
    (nc : dataset A) : dataset A :=
  {| dims := dims nc; attrs := attrs nc;
     variables := map (fun kv => if String.eqb name (fst kv)
                                 then (fst kv, f (snd kv)) else kv)
                      (variables nc);
     isopen := isopen nc |}.

(** [setattr(nc.variables[name], k, v)] *)
Definition setvarattr (name k : string) (v : A) (nc : dataset A) : dataset A :=
  update_variable name
    (fun x => {| var_dtype := var_dtype x; var_dims := var_dims x;
                 var_fill := var_fill x;
                 var_attrs := Dict.set k v (var_attrs x);
                 var_data := var_data x |}) nc.

(** [nc.variables[name][:] = data] *)
Definition assign (name : string) (data : Np.ndarray) (nc : dataset A)
  : dataset A :=
  update_variable name
    (fun x => {| var_dtype := var_dtype x; var_dims := var_dims x;
                 var_fill := var_fill x; var_attrs := var_attrs x;
                 var_data := Some data |}) nc.

(** [nc.close()] *)
Definition close (nc : dataset A) : dataset A :=
  {| dims := dims nc; attrs := attrs nc; variables := variables nc;
     isopen := false |}.

End Ops.

End NetCDF.

(** ** The module [write_outnc] *)

Module WriteOutnc.

Import PyStr.

(** A typed attribute value of the schema: a string, an integer, a float, a
    tuple of integers, or (after the time attributes are filled) a numpy
    value. *)
Inductive attr_value : Type :=
| AStr (s : string)
| AInt (z : Z)
| AFloat (x : F64.float)
| ATuple (l : list Z)
| ANumpy (a : Np.ndarray).

Definition _parse_attribute_value (key value_str : string)
  : result (string * attr_value) :=
  let value := strip_char dquote (strip value_str) in
  if contains_char ":" key then
    match rsplit1 ":" key with
    | Some (attr_name, type_hint) =>
        if String.eqb type_hint "float" then
          try x <- PyFloat.py_float value; Ok (attr_name, AFloat x)
        else if String.eqb type_hint "double" then
          try x <- PyFloat.py_float value; Ok (attr_name, AFloat x)
        else if String.eqb type_hint "short" || String.eqb type_hint "int" then
          if contains_char "," value then
            try l <- try_all (fun x => py_int (strip x)) (split "," value);
            Ok (attr_name, ATuple l)
          else
            try n <- py_int value; Ok (attr_name, AInt n)
        else if String.eqb type_hint "byte" then
          try n <- py_int value; Ok (attr_name, AInt n)
        else
          Ok (attr_name, AStr value)
    | None => Ok (key, AStr value)
    end
  else Ok (key, AStr value).

(** One entry of [dod["variables"]]. *)
Record var_spec : Type := {
  dtype : string;
  dims : list string;
  attrs : list (string * attr_value)
}.

(** The parsed schema, as [_parse_dod] returns it. *)
Record dod : Type := {
  dimensions : list (string * option Z);
  variables : list (string * var_spec);
  globals : list (string * string)
}.


(** The local variables of [_parse_dod]'s loop. *)
Record parser_state : Type := {
  st_dims : list (string * option Z);
  st_variables : list (string * var_spec);
  st_globals : list (string * string);
  current_var : option string;
  in_globals : bool
}.

Definition parser_init : parser_state :=
  {| st_dims := []; st_variables := []; st_globals := [];
     current_var := None; in_globals := false |}.

(** [variables[name] = {"dtype": dtype, "dims": dims_tuple, "attrs": {}}]
    and [current_var = name] *)
Definition declare_variable (st : parser_state) (name dtype_ : string)
    (dims_tuple : list string) : parser_state :=
  {| st_dims := st_dims st;
     st_variables :=
       Dict.set name {| dtype := dtype_; dims := dims_tuple; attrs := [] |}
         (st_variables st);
     st_globals := st_globals st;
     current_var := Some name;
     in_globals := in_globals st |}.

(** [variables[cv]["attrs"][k] = v] *)
Definition set_attr (st : parser_state) (cv k : string) (v : attr_value)
  : result parser_state :=
  match Dict.get cv (st_variables st) with
  | None => Raise (KeyError cv)
  | Some spec =>
      Ok {| st_dims := st_dims st;
            st_variables :=
              Dict.set cv {| dtype := dtype spec; dims := dims spec;
                             attrs := Dict.set k v (attrs spec) |}
                (st_variables st);
            st_globals := st_globals st;
            current_var := current_var st;
            in_globals := in_globals st |}
  end.

Definition set_dim (st : parser_state) (key : string) (size : option Z)
  : parser_state :=
  {| st_dims := Dict.set key size (st_dims st);
     st_variables := st_variables st;
     st_globals := st_globals st;
     current_var := None;
     in_globals := in_globals st |}.

Definition set_global (st : parser_state) (key val : string) : parser_state :=
  {| st_dims := st_dims st;
     st_variables := st_variables st;
     st_globals := Dict.set key val (st_globals st);
     current_var := current_var st;
     in_globals := in_globals st |}.

Definition clear_current (st : parser_state) (globals_ : bool) : parser_state :=
  {| st_dims := st_dims st;
     st_variables := st_variables st;
     st_globals := st_globals st;
     current_var := None;
     in_globals := globals_ |}.

(** [line = raw.rstrip().replace('\t', ' ')] *)
Definition normalize (raw : string) : string :=
  PyText.replace_char PyText.tab " " (PyText.rstrip raw).

(** The truth value of [current_var]: a non-empty name. *)
Definition current_name (st : parser_state) : option string :=
  match current_var st with
  | Some EmptyString => None
  | o => o
  end.

(** One turn of the loop of [_parse_dod] over the lines of the file. *)
Definition parse_line (st : parser_state) (raw : string) : result parser_state :=
  let line := normalize raw in
  if String.eqb (strip line) EmptyString then Ok st
  else if String.prefix "#" (strip line) then Ok (clear_current st true)
  else
    let indent := PyText.indent_of line in
    if negb (in_globals st) && (indent =? 0)%nat then
      let st := clear_current st (in_globals st) in
      if contains_char "=" line && negb (contains_char "(" line)
         && negb (contains_char ":" line) then
        match PyText.split1 "=" line with
        | Some (k, v) =>
            let key := strip k in
            let val := strip v in
            if String.eqb (PyText.upper val) "UNLIMITED"
            then Ok (set_dim st key None)
            else try n <- py_int val; Ok (set_dim st key (Some n))
        | None => Ok st
        end
      else
        match PyText.match_var_decl line with
        | Some (name, dims_str, dtype_) =>
            let dims_tuple :=
              if String.eqb dims_str EmptyString then []
              else map strip (split "," dims_str) in
            Ok (declare_variable st name dtype_ dims_tuple)
        | None =>
            match PyText.match_scalar_decl line with
            | Some (name, dtype_) => Ok (declare_variable st name dtype_ [])
            | None => Ok st
            end
        end
    else
      match (if (indent =? 4)%nat then current_name st else None) with
      | Some cv =>
          if contains_char "=" line then
            match PyText.split1 "=" line with
            | Some (ak, av) =>
                try kv <- _parse_attribute_value (strip ak) (strip av);
                set_attr st cv (fst kv) (snd kv)
            | None => Ok st
            end
          else
            let clean_key := strip line in
            let clean_key :=
              if contains_char ":" clean_key
              then PyText.before_char ":" clean_key else clean_key in
            set_attr st cv clean_key (AStr EmptyString)
      | None =>
          if in_globals st && (indent =? 2)%nat then
            if contains_char "=" line then
              match PyText.split1 "=" line with
              | Some (k, v) =>
                  Ok (set_global st (strip k) (strip_char dquote (strip v)))
              | None => Ok st
              end
            else Ok (set_global st (strip line) EmptyString)
          else Ok st
      end.

Fixpoint parse_lines (st : parser_state) (lines : list string)
  : result parser_state :=
  match lines with
  | [] => Ok st
  | raw :: rest => try st' <- parse_line st raw; parse_lines st' rest
  end.

(** [_parse_dod], on the lines [Path(dod_path).read_text().splitlines()]. *)
Definition _parse_dod (lines : list string) : result dod :=
  try st <- parse_lines parser_init lines;
  Ok {| dimensions := st_dims st; variables := st_variables st;
        globals := st_globals st |}.

(** A value of the configuration dictionary. [COther s] is any other object
    and [s] what [str] makes of it. *)
Inductive cfg_value : Type :=
| CStr (s : string)
| CInt (z : Z)
| CMapping (m : list (string * string))
| COther (s : string).

Definition backslash : ascii := "092"%char.

Definition hex_digit (n : nat) : ascii :=
  nth n (list_ascii_of_string "0123456789abcdef") "0"%char.

(** One character inside [repr(s)], between quotes [q]: the quote and the
    backslash are escaped, tab, line feed and carriage return have their
    letters, the other characters that do not print (control characters,
    and 128 to 160 and 173 when a character stands for a code point below
    256) are written [\xhh]. *)
Definition repr_char (q c : ascii) : string :=
  let n := nat_of_ascii c in
  if Ascii.eqb c q || Ascii.eqb c backslash then String backslash (String c EmptyString)
  else if (n =? 9)%nat then String backslash "t"
  else if (n =? 10)%nat then String backslash "n"
  else if (n =? 13)%nat then String backslash "r"
  else if (n <? 32)%nat || (n =? 127)%nat
          || ((128 <=? n)%nat && (n <=? 160)%nat) || (n =? 173)%nat
  then String backslash
         (String "x" (String (hex_digit (n / 16)) (String (hex_digit (n mod 16))
            EmptyString)))
  else String c EmptyString.

Fixpoint repr_chars (q : ascii) (s : string) : string :=
  match s with
  | EmptyString => EmptyString
  | String c r => repr_char q c +:+ repr_chars q r
  end.

(** [repr(s)]: between double quotes when [s] holds a single quote and no
    double quote, between single quotes otherwise. *)
Definition repr_str (s : string) : string :=
  let q := if contains_char "'" s && negb (contains_char dquote s)
           then dquote else "'"%char in
  String q (repr_chars q s +:+ String q EmptyString).

(** [repr(l)] for a list of strings *)
Definition repr_list (l : list string) : string :=
  "[" +:+ join ", " (map repr_str l) +:+ "]".

Definition repr_mapping (m : list (string * string)) : string :=
  "{" +:+ join ", " (map (fun kv => repr_str (fst kv) +:+ ": " +:+ repr_str (snd kv)) m)
      +:+ "}".

(** [str(v)] *)
Definition py_str (v : cfg_value) : string :=
  match v with
  | CStr s => s
  | CInt z => str_of_Z z
  | CMapping m => repr_mapping m
  | COther s => s
  end.

(** *** Calendar dates *)

(** A [datetime.datetime] with whole seconds. *)
Record datetime : Type := {
  year : Z; month : Z; day : Z; hour : Z; minute : Z; second : Z
}.

(** Day number since 1970-01-01 to proleptic Gregorian date. *)
Definition civil_from_days (z0 : Z) : Z * Z * Z :=
  let z := z0 + 719468 in
  let era := z / 146097 in
  let doe := z - era * 146097 in
  let yoe := (doe - doe / 1460 + doe / 36524 - doe / 146096) / 365 in
  let y := yoe + era * 400 in
  let doy := doe - (365 * yoe + yoe / 4 - yoe / 100) in
  let mp := (5 * doy + 2) / 153 in
  let d := doy - (153 * mp + 2) / 5 + 1 in
  let m := if mp <? 10 then mp + 3 else mp - 9 in
  (if m <=? 2 then y + 1 else y, m, d).

(** Proleptic Gregorian date to day number since 1970-01-01. *)
Definition days_from_civil (y0 m d : Z) : Z :=
  let y := if m <=? 2 then y0 - 1 else y0 in
  let era := y / 400 in
  let yoe := y - era * 400 in
  let doy := (153 * (if 2 <? m then m - 3 else m + 9) + 2) / 5 + d - 1 in
  let doe := yoe * 365 + yoe / 4 - yoe / 100 + doy in
  era * 146097 + doe - 719468.

(** A count of seconds since the epoch as a [datetime]:
    [t64.astype("datetime64[s]").astype(datetime)] once the count is in
    seconds, and [datetime.utcfromtimestamp]. *)
Definition datetime_of_seconds (s : Z) : datetime :=
  let '(y, m, d) := civil_from_days (s / 86400) in
  let sod := s mod 86400 in
  {| year := y; month := m; day := d;
     hour := sod / 3600; minute := sod mod 3600 / 60; second := sod mod 60 |}.

(** [numpy.datetime64(dt)] for a [datetime] in UTC: microseconds since the
    epoch. *)
Definition datetime64_us_of_datetime (dt : datetime) : Z :=
  ((days_from_civil (year dt) (month dt) (day dt) * 86400
    + hour dt * 3600 + minute dt * 60 + second dt) * 1000000).

(** Decimal digits of [n], padded with zeros on the left to [width]. *)
Definition zero_pad (width : nat) (n : Z) : string :=
  let s := str_of_Z n in
  string_of_list_ascii (repeat "0"%char (width - String.length s)) +:+ s.

Definition directive (c : ascii) (dt : datetime) : string :=
  if Ascii.eqb c "Y" then zero_pad 4 (year dt)
  else if Ascii.eqb c "m" then zero_pad 2 (month dt)
  else if Ascii.eqb c "d" then zero_pad 2 (day dt)
  else if Ascii.eqb c "H" then zero_pad 2 (hour dt)
  else if Ascii.eqb c "M" then zero_pad 2 (minute dt)
  else if Ascii.eqb c "S" then zero_pad 2 (second dt)
  else String "%" (String c EmptyString).

(** [dt.strftime(fmt)] for the directives this module uses. *)
Fixpoint strftime (fmt : string) (dt : datetime) : string :=
  match fmt with
  | EmptyString => EmptyString
  | String "%" (String c r) => directive c dt +:+ strftime r dt
  | String c r => String c (strftime r dt)
  end.

(** *** The process environment the resolver reads *)

Record environ : Type := {
  argv : option (list string);   (** [sys.argv], if [sys] has it *)
  utcnow : Z;                    (** [datetime.utcnow()], in seconds since the epoch *)
  uname_n : result string        (** output of [uname -n], or its failure *)
}.

Definition command_line (env : environ) : string :=
  match argv env with
  | Some (a :: l) => join " " (a :: l)
  | _ => "notebook"
  end.

Definition history (env : environ) : string :=
  let current_time :=
    strftime "%Y-%m-%d %H:%M:%S UTC" (datetime_of_seconds (utcnow env)) in
  let system_info :=
    match uname_n env with
    | Ok out => strip out
    | Raise _ => "unknown"
    end in
  "created on " +:+ current_time +:+ " on " +:+ system_info.

(** The loop over [dod["globals"].items()]: the updated items and the list
    [missing]. An item is rewritten under its own key, so the order of the
    dictionary is kept. *)
Fixpoint fill_globals (config : gmap string cfg_value)
    (items : list (string * string)) : list (string * string) * list string :=
  match items with
  | [] => ([], [])
  | (key, val) :: rest =>
      let '(g, missing) := fill_globals config rest in
      if String.eqb val EmptyString then
        match config !! key with
        | Some v => ((key, py_str v) :: g, missing)
        | None => ((key, val) :: g, key :: missing)
        end
      else ((key, val) :: g, missing)
  end.

(** What a call leaves behind: the caller's [config] dictionary and the
    [dod] dictionary, both mutated in place, and the value returned or the
    exception raised. *)
Record resolution : Type := {
  config_after : gmap string cfg_value;
  dod_after : dod;
  returned : result dod
}.

Definition _update_dod_globals (env : environ) (d : dod)
    (config : gmap string cfg_value) : resolution :=
  let config := <["command_line" := CStr (command_line env)]> config in
  let config := <["history" := CStr (history env)]> config in
  let '(g, missing) := fill_globals config (globals d) in
  let d' := {| dimensions := dimensions d; variables := variables d;
               globals := g |} in
  {| config_after := config;
     dod_after := d';
     returned :=
       match missing with
       | [] => Ok d'
       | _ => Raise (ValueError
                ("DOD has empty global attributes not provided in config: "
                 +:+ repr_list missing))
       end |}.

(** *** Time normalizer *)

Definition NS_PER_S : Z := 1000000000.

(** The dictionary that [_get_standardized_times] builds from the time
    stamp [t = ds.time.values[0]], a [datetime64] counted in nanoseconds
    since the epoch. Differences of time stamps are 64-bit counts. *)
Definition standardized_times (t : Z)
  : result (list (string * list (string * attr_value))) :=
  let t64 := t in
  let dt := datetime_of_seconds (t64 / NS_PER_S) in
  try base_time_val <-
    F64.trunc (Np.timedelta_truediv (Np.wrap64 (t64 - 0)) NS_PER_S);
  let midnight :=
    {| year := year dt; month := month dt; day := day dt;
       hour := 0; minute := 0; second := 0 |} in
  let midnight64 := datetime64_us_of_datetime midnight in
  let time_since_midnight_val :=
    Np.timedelta_truediv (Np.wrap64 (t64 - Np.wrap64 (midnight64 * 1000)))
      NS_PER_S in
  let scan_time_str := strftime "%Y-%m-%d %H:%M:%S 0:00" dt in
  try base32 <- Np.np_int32 base_time_val;
  Ok [ ("base_time",
         [ ("value", ANumpy base32);
           ("string", AStr scan_time_str);
           ("units", AStr "seconds since 1970-1-1 0:00:00 0:00") ]);
       ("time_offset",
         [ ("value", ANumpy (Np.array1_float64 (F64.Fin 0)));
           ("units", AStr ("seconds since " +:+ scan_time_str)) ]);
       ("time",
         [ ("value", ANumpy (Np.array1_float64 time_since_midnight_val));
           ("units",
            AStr ("seconds since " +:+ strftime "%Y-%m-%d 00:00:00 0:00" dt));
           ("string", AStr scan_time_str) ]) ].

(** *** The input dataset *)

(** An [xarray.Dataset], as far as the writer reads it: its variables and
    coordinates by name (with [time] among them) and its attributes. *)
Record xr_dataset : Type := {
  data_vars : gmap string Np.ndarray;
  ds_attrs : gmap string Np.ndarray
}.

(** [ds.time.values[0]] as a [numpy.datetime64]: the first element of a
    one-dimensional array of time stamps. *)
Definition first_time (ds : xr_dataset) : result Z :=
  match data_vars ds !! "time" with
  | None => Raise (AttributeError lib_msg)
  | Some a =>
      match Np.shape a, Np.flat a with
      | [_], Np.SDatetime (Some t) :: _ => Ok t
      | [_], Np.SDatetime None :: _ => Raise (AttributeError lib_msg)
      | [_], _ :: _ => Raise (ValueError lib_msg)
      | [_], [] => Raise (IndexError lib_msg)
      | [], _ => Raise (IndexError lib_msg)
      | _, _ => Raise (ValueError lib_msg)
      end
  end.

Definition _get_standardized_times (ds : xr_dataset)
  : result (list (string * list (string * attr_value))) :=
  try t <- first_time ds;
  standardized_times t.

(** [attr_val == ""] *)
Definition is_empty_str (v : attr_value) : bool :=
  match v with
  | AStr s => String.eqb s EmptyString
  | _ => false
  end.

(** The inner loop of [_update_dod_time_attributes]. *)
Definition fill_time_attrs (meta attrs_ : list (string * attr_value))
  : list (string * attr_value) :=
  map (fun kv =>
         if is_empty_str (snd kv) then
           match Dict.get (fst kv) meta with
           | Some mv => (fst kv, mv)
           | None => kv
           end
         else kv) attrs_.

Definition _update_dod_time_attributes (d : dod) (ds : xr_dataset) : result dod :=
  try times <- _get_standardized_times ds;
  Ok (fold_left
        (fun d tm =>
           {| dimensions := dimensions d;
              variables :=
                map (fun nv =>
                       if String.eqb (fst tm) (fst nv) then
                         (fst nv,
                          {| dtype := dtype (snd nv); dims := dims (snd nv);
                             attrs := fill_time_attrs (snd tm) (attrs (snd nv)) |})
                       else nv) (variables d);
              globals := globals d |})
        times d).

(** *** Structural pass *)

Definition scalar_truthy (x : Np.scalar) : bool :=
  match x with
  | Np.SInt z => negb (z =? 0)
  | Np.SFloat f => F64.truthy f
  | Np.SStr s => negb (String.eqb s EmptyString)
  | Np.SDatetime _ | Np.SObject _ => true
  end.

(** Python truthiness of an attribute value, as [if fill] tests it. *)
Definition attr_truthy (v : attr_value) : result bool :=
  match v with
  | AStr s => Ok (negb (String.eqb s EmptyString))
  | AInt z => Ok (negb (z =? 0))
  | AFloat x => Ok (F64.truthy x)
  | ATuple l => Ok (match l with [] => false | _ => true end)
  | ANumpy a =>
      match Np.flat a with
      | [] => Ok false
      | [x] => Ok (scalar_truthy x)
      | _ => Raise (ValueError lib_msg)
      end
  end.

(** The fill value the library keeps for a variable created with
    [fill_value=v]. *)
Definition fill_of_attr (v : attr_value) : Np.scalar :=
  match v with
  | AStr s => Np.SStr s
  | AInt z => Np.SInt z
  | AFloat x => Np.SFloat x
  | ATuple l => Np.SInt (hd 0 l)
  | ANumpy a => hd (Np.SInt 0) (Np.flat a)
  end.

Abbreviation nc_dataset := (NetCDF.dataset attr_value).

(** The body of the loop over [dod["variables"].items()]. *)
Definition create_variable_from (nc : nc_dataset) (varname : string)
    (vinfo : var_spec) : result nc_dataset :=
  let dtype_ := dtype vinfo in
  let dims_ := dims vinfo in
  let '(fill, attrs_) := Dict.pop "_FillValue" (attrs vinfo) in
  try use_fill <- match fill with
                  | None => Ok false
                  | Some f => attr_truthy f
                  end;
  let nc :=
    if use_fill
    then NetCDF.createVariable varname dtype_ dims_ (option_map fill_of_attr fill) nc
    else NetCDF.createVariable varname dtype_ dims_ None nc in
  Ok (fold_left (fun nc kv => NetCDF.setvarattr varname (fst kv) (snd kv) nc)
        attrs_ nc).

Fixpoint create_variables (nc : nc_dataset) (vars : list (string * var_spec))
  : nc_dataset * result unit :=
  match vars with
  | [] => (nc, Ok tt)
  | (varname, vinfo) :: rest =>
      match create_variable_from nc varname vinfo with
      | Raise e => (nc, Raise e)
      | Ok nc' => create_variables nc' rest
      end
  end.

(** [_create_nc_structure(path, dod)]: the handle it opened, as the call
    leaves it, and whether it returned it or raised. *)
Definition _create_nc_structure (d : dod) : nc_dataset * result unit :=
  let nc := NetCDF.create in
  let nc := fold_left (fun nc ds => NetCDF.createDimension (fst ds) (snd ds) nc)
              (dimensions d) nc in
  let nc := fold_left (fun nc g => NetCDF.setncattr (fst g) (snd g) nc)
              (globals d) nc in
  create_variables nc (variables d).

(** *** Value pass *)

Definition time_vars : list string := ["time"; "time_offset"; "base_time"].

Definition dtype_map (s : string) : option Np.dtype :=
  if String.eqb s "float" then Some Np.float32
  else if String.eqb s "double" then Some Np.float64
  else if String.eqb s "short" then Some Np.int16
  else if String.eqb s "int" then Some Np.int32
  else if String.eqb s "byte" then Some Np.int8
  else None.

(** Replace NaN with the fill value, when there is one. *)
Definition replace_nan (dod_fill : option Np.scalar) (data : Np.ndarray)
  : result Np.ndarray :=
  match dod_fill with
  | None => Ok data
  | Some v =>
      try nan <- Np.isnan data;
      if Np.any nan then Ok (Np.where_ nan v data) else Ok data
  end.

(** The guard against time objects: it looks at the type of the first
    element of a non-empty array. *)
Definition check_cftime (xr_name : string) (data : Np.ndarray) : result unit :=
  try n <- Np.len data;
  if (0 <? n)%nat then
    try x <- Np.flat0 data;
    if contains "cftime" (Np.type_str (Np.adtype data) x) then
      Raise (TypeError
        ("Attempted to write cftime object for variable " +:+ xr_name +:+ ". "
         +:+ "Time variables are not allowed to come from ds."))
    else Ok tt
  else Ok tt.

(** Convert to the element type the schema declares. *)
Definition convert_dtype (d : dod) (dod_name : string) (data : Np.ndarray)
  : result Np.ndarray :=
  match Dict.get dod_name (variables d) with
  | Some spec =>
      match dtype_map (dtype spec) with
      | Some target_dtype =>
          if negb (Np.dtype_eqb (Np.adtype data) target_dtype)
          then Np.astype data target_dtype
          else Ok data
      | None => Ok data
      end
  | None => Ok data
  end.

(** The body of the loop over [config["variable_mapping"].items()]. *)
Definition write_mapped (ds : xr_dataset) (d : dod) (nc : nc_dataset)
    (xr_name dod_name : string) : result nc_dataset :=
  match data_vars ds !! xr_name, Dict.get dod_name (NetCDF.variables nc) with
  | Some values, Some var =>
      if existsb (String.eqb dod_name) time_vars then Ok nc
      else
        let data := values in
        let dod_fill := NetCDF.var_fill var in
        try data <- match Np.mask data with
                    | Some _ => Np.ma_filled data dod_fill
                    | None => Ok data
                    end;
        try data <- replace_nan dod_fill data;
        try _ok <- check_cftime xr_name data;
        try data <- convert_dtype d dod_name data;
        Ok (NetCDF.assign dod_name data nc)
  | _, _ => Ok nc
  end.

Fixpoint write_mapped_all (ds : xr_dataset) (d : dod)
    (mapping : list (string * string)) (nc : nc_dataset)
  : nc_dataset * result unit :=
  match mapping with
  | [] => (nc, Ok tt)
  | (xr_name, dod_name) :: rest =>
      match write_mapped ds d nc xr_name dod_name with
      | Raise e => (nc, Raise e)
      | Ok nc' => write_mapped_all ds d rest nc'
      end
  end.

(** The loop over [times.items()]. *)
Fixpoint write_times (times : list (string * list (string * attr_value)))
    (nc : nc_dataset) : nc_dataset * result unit :=
  match times with
  | [] => (nc, Ok tt)
  | (tname, tinfo) :: rest =>
      if Dict.mem tname (NetCDF.variables nc) then
        match Dict.get "value" tinfo with
        | Some (ANumpy a) => write_times rest (NetCDF.assign tname a nc)
        | Some _ => (nc, Raise (TypeError lib_msg))
        | None => (nc, Raise (KeyError "value"))
        end
      else write_times rest nc
  end.

(** One of the three radar metadata blocks. *)
Definition write_radar (ds : xr_dataset) (var attr : string) (nc : nc_dataset)
  : nc_dataset :=
  if Dict.mem var (NetCDF.variables nc) then
    match ds_attrs ds !! attr with
    | Some v => NetCDF.assign var v nc
    | None => NetCDF.assign var (Np.scalar_float64 (F64.Fin 0)) nc
    end
  else nc.

(** [_write_dataset_to_file(ds, nc, dod, config)]: the handle as the call
    leaves it, and whether the call returned or raised. *)
Definition _write_dataset_to_file (ds : xr_dataset) (nc : nc_dataset) (d : dod)
    (config : gmap string cfg_value) : nc_dataset * result unit :=
  match _get_standardized_times ds with
  | Raise e => (nc, Raise e)
  | Ok times =>
      match config !! "variable_mapping" with
      | None => (nc, Raise (KeyError "variable_mapping"))
      | Some (CMapping mapping) =>
          match write_mapped_all ds d mapping nc with
          | (nc, Raise e) => (nc, Raise e)
          | (nc, Ok _) =>
              match write_times times nc with
              | (nc, Raise e) => (nc, Raise e)
              | (nc, Ok _) =>
                  let nc := write_radar ds "radar_lat" "origin_latitude" nc in
                  let nc := write_radar ds "radar_lon" "origin_longitude" nc in
                  let nc := write_radar ds "radar_alt" "origin_altitude" nc in
                  (NetCDF.close nc, Ok tt)
              end
          end
      | Some _ => (nc, Raise (AttributeError lib_msg))
      end
  end.

(** *** The entry point *)

(** What one call of [write_ds_to_nc] leaves behind: the caller's [config],
    the file handle it opened (if it got that far) and how it ended. *)
Record outcome : Type := {
  out_config : gmap string cfg_value;
  out_file : option nc_dataset;
  out_result : result unit
}.

(** [write_ds_to_nc(ds, dod_template_path, output_path, config)]. [parsed]
    is what [_parse_dod(dod_template_path)] returns or raises. *)
Definition write_ds_to_nc (env : environ) (ds : xr_dataset) (parsed : result dod)
    (config : gmap string cfg_value) : outcome :=
  match parsed with
  | Raise e => {| out_config := config; out_file := None; out_result := Raise e |}
  | Ok d =>
      let r := _update_dod_globals env d config in
      let config := config_after r in
      match returned r with
      | Raise e => {| out_config := config; out_file := None; out_result := Raise e |}
      | Ok d =>
          match _update_dod_time_attributes d ds with
          | Raise e =>
              {| out_config := config; out_file := None; out_result := Raise e |}
          | Ok d =>
              match _create_nc_structure d with
              | (nc, Raise e) =>
                  {| out_config := config; out_file := Some nc;
                     out_result := Raise e |}
              | (nc, Ok _) =>
                  let variable_list := Dict.keys (NetCDF.variables nc) in
                  let nc := NetCDF.setncattr "fields" (join ", " variable_list) nc in
                  let '(nc, res) := _write_dataset_to_file ds nc d config in
                  {| out_config := config; out_file := Some nc; out_result := res |}
              end
          end
      end
  end.

End WriteOutnc.

(** ** The specification's vocabulary *)

Module Spec.

Import PyStr WriteOutnc.

(** The value text as the parser cleans it: white space, then quotes,
    removed at both ends. *)
Definition cleaned (value_str : string) : string :=
  strip_char dquote (strip value_str).

(** The configuration the resolver looks names up in: the caller's, with
    the two derived entries. *)
Definition with_derived (env : environ) (config : gmap string cfg_value)
  : gmap string cfg_value :=
  <["history" := CStr (history env)]>
    (<["command_line" := CStr (command_line env)]> config).

(** An empty global attribute without a same-named configuration key. *)
Definition unresolved (config : gmap string cfg_value) (kv : string * string)
  : bool :=
  String.eqb (snd kv) EmptyString
  && match config !! fst kv with Some _ => false | None => true end.

(** The names the specification calls unresolved, in schema order. *)
Definition unresolved_names (config : gmap string cfg_value)
    (items : list (string * string)) : list string :=
  map fst (filter (fun kv => unresolved config kv = true) items).

(** One global attribute after resolution. *)
Definition resolve_item (config : gmap string cfg_value) (kv : string * string)
  : string * string :=
  if String.eqb (snd kv) EmptyString then
    match config !! fst kv with
    | Some v => (fst kv, py_str v)
    | None => kv
    end
  else kv.

(** Text in ASCII: every character is below 128, so that the text does not
    depend on how the characters beyond are encoded. *)
Definition is_ascii (s : string) : bool :=
  forallb (fun c => (nat_of_ascii c <? 128)%nat) (list_ascii_of_string s).

(** A text, line by line, in ASCII. *)
Definition all_ascii (lines : list string) : bool := forallb is_ascii lines.

(** Numbers: the elements of an integer or float array. *)
Definition is_number (x : Np.scalar) : Prop :=
  match x with
  | Np.SInt _ | Np.SFloat _ => True
  | _ => False
  end.

(** A date and time written as [YYYY-MM-DD HH:MM:SS 0:00]. *)
Definition scan_format (dt : datetime) : string :=
  zero_pad 4 (year dt) +:+ "-" +:+ zero_pad 2 (month dt) +:+ "-"
  +:+ zero_pad 2 (day dt) +:+ " " +:+ zero_pad 2 (hour dt) +:+ ":"
  +:+ zero_pad 2 (minute dt) +:+ ":" +:+ zero_pad 2 (second dt) +:+ " 0:00".

(** Nanoseconds in a day. *)
Definition DAY_NS : Z := 86400 * 1000000000.

(** The start of the UTC day of the time stamp [t], as a date and time. *)
Definition utc_midnight (t : Z) : datetime :=
  datetime_of_seconds (86400 * (t / DAY_NS)).

(** The time stamp [t] in whole seconds, as a date and time. *)
Definition utc_datetime (t : Z) : datetime :=
  datetime_of_seconds (t / 1000000000).

(** [P] holds of [0], ..., [n - 1]. *)
Fixpoint all_below (n : nat) (P : Z -> bool) : bool :=
  match n with
  | O => true
  | S k => P (Z.of_nat k) && all_below k P
  end.

End Spec.

(** ** Sample inputs *)

Module Sample.

Import WriteOutnc.

Definition env : environ :=
  {| argv := Some ["run_hp.py"; "2024"; "01"];
     utcnow := 1705288800;
     uname_n := Ok "host" |}.

(** 2024-01-15T03:20:00Z in nanoseconds since the epoch. *)
Definition t_scan : Z := 1705288800 * 10 ^ 9.

Definition time_coord : Np.ndarray :=
  Np.plain Np.datetime64 [1%nat] [Np.SDatetime (Some t_scan)].

(** A schema with the three time variables, one float field with a fill
    value and one short field without. *)
Definition schema : dod :=
  {| dimensions := [("time", None); ("x", Some 3)];
     variables :=
       [ ("base_time",
          {| dtype := "int"; dims := [];
             attrs := [("string", AStr EmptyString); ("units", AStr EmptyString)] |});
         ("time_offset",
          {| dtype := "double"; dims := ["time"];
             attrs := [("units", AStr EmptyString)] |});
         ("time",
          {| dtype := "double"; dims := ["time"];
             attrs := [("units", AStr EmptyString)] |});
         ("refl",
          {| dtype := "float"; dims := ["x"];
             attrs := [("_FillValue", AFloat (F64.Fin (-9999)));
                       ("units", AStr "dBZ")] |});
         ("hp_fhc",
          {| dtype := "short"; dims := ["x"];
             attrs := [("units", AStr "1")] |});
         ("scan_start",
          {| dtype := "double"; dims := ["time"]; attrs := [] |}) ];
     globals := [("doi", EmptyString); ("site_id", "guc")] |}.

Definition config : gmap string cfg_value :=
  <["doi" := CStr "10.5439/2530631"]>
    (<["variable_mapping" :=
         CMapping [("corrected_reflectivity", "refl");
                   ("hp_fhc_summer", "hp_fhc");
                   ("scan_start", "scan_start");
                   ("time", "time");
                   ("lowest_height", "lowest_height")]]> ∅).

Definition num (n : Z) : Np.scalar := Np.SFloat (F64.Fin (inject_Z n)).

(** Reflectivity with its second element masked; the array carries no fill
    value of its own. *)
Definition refl_masked : Np.ndarray :=
  {| Np.adtype := Np.float64; Np.shape := [3%nat];
     Np.flat := [num 10; num 20; num 30];
     Np.mask := Some [false; true; false];
     Np.fill_value := None |}.

Definition hp_masked : Np.ndarray :=
  {| Np.adtype := Np.int64; Np.shape := [3%nat];
     Np.flat := [Np.SInt 1; Np.SInt 2; Np.SInt 3];
     Np.mask := Some [false; false; true];
     Np.fill_value := None |}.

(** A well-formed dataset. *)
Definition ds : xr_dataset :=
  {| data_vars :=
       <["time" := time_coord]>
         (<["corrected_reflectivity" := refl_masked]>
            (<["hp_fhc_summer" := hp_masked]> ∅));
     ds_attrs := <["origin_latitude" := Np.scalar_float64 (F64.Fin 38)]> ∅ |}.

(** A dataset with a second array of [datetime64] time stamps. *)
Definition ds_datetime : xr_dataset :=
  {| data_vars :=
       <["time" := time_coord]> (<["scan_start" := time_coord]> ∅);
     ds_attrs := ∅ |}.

(** A dataset whose classification field holds [cftime] objects. *)
Definition ds_cftime : xr_dataset :=
  {| data_vars :=
       <["time" := time_coord]>
         (<["hp_fhc_summer" :=
              Np.plain Np.object_ [1%nat]
                [Np.SObject "cftime._cftime.DatetimeGregorian"]]> ∅);
     ds_attrs := ∅ |}.

(** The container the structural pass makes of [schema]. *)
Definition container : NetCDF.dataset attr_value :=
  fst (_create_nc_structure schema).

End Sample.

(** ** The module [config] *)

Module Config.

Import WriteOutnc.

Definition filter_fields : list string :=
  ["corrected_reflectivity"; "corrected_differential_reflectivity";
   "corrected_specific_diff_phase"; "RHOHV"; "sounding_temperature";
   "hp_semisupervised"; "hp_fhc_summer"; "hp_fhc_winter"].

Definition variable_mapping : list (string * string) :=
  [("corrected_reflectivity", "corrected_reflectivity");
   ("hp_fhc_summer", "hp_fhc");
   ("hp_fhc_winter", "hp_fhc");
   ("hp_semisupervised", "hp_ssc");
   ("lowest_height", "lowest_height");
   ("lat", "lat");
   ("lon", "lon");
   ("x", "x");
   ("y", "y");
   ("radar_lat", "radar_lat");
   ("radar_lon", "radar_lon");
   ("radar_alt", "radar_alt")].

(** The dictionary [CONFIG]. Lists, tuples and the nested dictionary of
    classification fields are kept as the text [str] makes of them. *)
Definition CONFIG : gmap string cfg_value :=
  list_to_map
    [("input_file_pattern", CStr "gucxprecipradarcmacppiS2.c1");
     ("output_file_pattern", CStr "gucxprecipradarcmacppihpS2.c1");
     ("fill_value", CInt (-9999));
     ("filter_fields", COther (repr_list filter_fields));
     ("additional_fields", COther (repr_list ["corrected_reflectivity"]));
     ("x_grid_limits", COther "(-20000.0, 20000.0)");
     ("y_grid_limits", COther "(-20000.0, 20000.0)");
     ("z_grid_limits", COther "(500.0, 5000.0)");
     ("grid_resolution", CInt 250);
     ("classification_fields",
      COther ("{'summer': {'field_name': 'hp_fhc_summer', "
              +:+ "'long_name': 'HydroPhase from CSU Summer', "
              +:+ "'function': 'classify_summer'}, "
              +:+ "'winter': {'field_name': 'hp_fhc_winter', "
              +:+ "'long_name': 'HydroPhase from CSU Winter', "
              +:+ "'function': 'classify_winter'}, "
              +:+ "'pyart': {'field_name': 'hp_semisupervised', "
              +:+ "'long_name': 'HydroPhase from Py-ART', "
              +:+ "'function': 'classify_pyart'}}"));
     ("variable_mapping", CMapping variable_mapping);
     ("process_version", CStr "HP-v1.0");
     ("dod_version", CStr "xprecipradarhp-c1-1.3");
     ("input_datastream", CStr "xprecipradarcmacppi");
     ("input_datastreams", CStr "gucxprecipradarcmacppiS2.c1");
     ("datastream", CStr "gucxprecipradarhpS2.c1");
     ("platform_id", CStr "xprecipradar");
     ("site_id", CStr "guc");
     ("facility_id", CStr "X1");
     ("data_level", CStr "c1");
     ("location_description", CStr "Gunnison, Colorado");
     ("known_issues",
      CStr ("Issues with SSC method during winter above melting layer, "
            +:+ "for mixed category."));
     ("attributions",
      CStr ("This data is collected by the ARM User Facility. Radar system "
            +:+ "is operated by the radar engineering team radar@arm.gov "
            +:+ "and the data is processed by the precipitation radar "
            +:+ "products team."));
     ("developers",
      CStr ("Bhupendra Raut, ANL., Joseph O'Brien, ANL., Maxwell Grover, "
            +:+ "ANL., Robert Jackson, ANL., Zachary Sherman, ANL."));
     ("doi", CStr "10.5439/2530631")].

End Config.

(** ** The module [hp_processing] *)

Module HpProcessing.

Import PyStr.
Import WriteOutnc.

(** The tables from classifier categories to HydroPhase categories. *)
Definition csu_summer_to_hp : list Z := [0; 1; 1; 2; 2; 4; 2; 3; 3; 3; 1].
Definition csu_winter_to_hp : list Z := [0; 2; 2; 2; 2; 4; 3; 1].
Definition pyart_to_hp : list Z := [0; 2; 2; 1; 3; 1; 2; 4; 4; 3].

(** [table[i]] for an integer [i]: a negative index counts from the end. *)
Definition index (table : list Z) (i : Z) : result Z :=
  let n := Z.of_nat (length table) in
  if (- n <=? i) && (i <? n) then
    match nth_error table (Z.to_nat (if i <? 0 then i + n else i)) with
    | Some v => Ok v
    | None => Raise (IndexError lib_msg)
    end
  else Raise (IndexError lib_msg).

(** [table[scores]] for an integer array [scores], given by its elements. *)
Definition take (table : list Z) (scores : list Z) : result (list Z) :=
  try_all (index table) scores.

(** The last statement of the three classifiers, on the categories that
    the classification library returned. *)
Definition classify_summer (scores : list Z) : result (list Z) :=
  take csu_summer_to_hp scores.
Definition classify_winter (hcawinter : list Z) : result (list Z) :=
  take csu_winter_to_hp hcawinter.
Definition classify_pyart (hydro : list Z) : result (list Z) :=
  take pyart_to_hp hydro.

(** The bounds that [add_classification_field] declares for a field. *)
Definition valid_min : Z := 0.
Definition valid_max : Z := 4.

(** [{k: fields[k] for k in names if k in fields}] *)
Definition filter_fields {V : Type} (fields : list (string * V))
    (names : list string) : list (string * V) :=
  fold_left
    (fun acc k =>
       match Dict.get k fields with
       | Some v => Dict.set k v acc
       | None => acc
       end)
    names [].

(** Subtraction of doubles. *)
Definition float_sub (a b : F64.float) : F64.float :=
  match a, b with
  | F64.NaN, _ | _, F64.NaN => F64.NaN
  | F64.Inf s, F64.Inf s' => if Bool.eqb s s' then F64.NaN else F64.Inf s
  | F64.Inf s, F64.Fin _ => F64.Inf s
  | F64.Fin _, F64.Inf s => F64.Inf (negb s)
  | F64.Fin x, F64.Fin y => F64.round F64.binary64 (x - y)
  end.

(** What [compute_npoints] returns or raises: the division of a float by
    the integer zero raises ZeroDivisionError. *)
Inductive npoints : Type :=
| Points (n : Z)
| ZeroDivisionError
| Failed (e : exn).

(** [compute_npoints(extent, res)] for a pair of floats [extent] and an
    integer [res], as [CONFIG] has them. *)
Definition compute_npoints (extent : F64.float * F64.float) (res : Z) : npoints :=
  let span := float_sub (snd extent) (fst extent) in
  if res =? 0 then ZeroDivisionError
  else
    match F64.of_Z res with
    | F64.Inf _ => Failed (OverflowError lib_msg)
    | r =>
        match F64.trunc (F64.div span r) with
        | Ok n => Points n
        | Raise e => Failed e
        end
    end.

(** The attributes of the dataset and what the call did: the attributes are
    changed in place, also when the call raises. *)
Definition metadata : Type := list (string * cfg_value) * result unit.

(** [ds.attrs[k] = config[k]] *)
Definition copy_key (config : gmap string cfg_value) (k : string)
    (st : metadata) : metadata :=
  match st with
  | (attrs, Ok _) =>
      match config !! k with
      | Some v => (Dict.set k v attrs, Ok tt)
      | None => (attrs, Raise (KeyError k))
      end
  | _ => st
  end.

Definition set_key (k : string) (v : cfg_value) (st : metadata) : metadata :=
  match st with
  | (attrs, Ok _) => (Dict.set k v attrs, Ok tt)
  | _ => st
  end.

(** [update_metadata(ds, config)], on the names of the data variables and
    the attributes of [ds]; [argv] is [sys.argv]. *)
Definition update_metadata (argv : list string) (data_vars : list string)
    (attrs : list (string * cfg_value)) (config : gmap string cfg_value)
  : metadata :=
  let st := set_key "field_names" (CStr (join ", " data_vars)) (attrs, Ok tt) in
  let st := copy_key config "radar_name" st in
  let st := copy_key config "attributions" st in
  let st := copy_key config "vap_name" st in
  let st := copy_key config "process_version" st in
  let st := copy_key config "known_issues" st in
  let st := copy_key config "input_datastream" st in
  let st := copy_key config "developers" st in
  let st := copy_key config "datastream" st in
  let st := copy_key config "platform_id" st in
  let st := copy_key config "dod_version" st in
  let st := copy_key config "doi" st in
  set_key "command_line" (CStr (join " " argv)) st.

End HpProcessing.

(** ** The module [run_hp_dask] *)

Module RunHpDask.

(** The chunks that the generator [chunked(seq, size)] yields; [buf] is
    its buffer. *)
Fixpoint chunked_from {A : Type} (buf : list A) (seq : list A) (size : Z)
  : list (list A) :=
  match seq with
  | [] => match buf with [] => [] | _ => [buf] end
  | item :: rest =>
      let buf := (buf ++ [item])%list in
      if Z.of_nat (length buf) =? size then buf :: chunked_from [] rest size
      else chunked_from buf rest size
  end.

Definition chunked {A : Type} (seq : list A) (size : Z) : list (list A) :=
  chunked_from [] seq size.

(** What [fut.result(timeout=600)] does: it returns what the wrapper
    returned, the name of the output or [None], or it raises. *)
Inductive future_outcome : Type :=
| Returned (res : option string)
| FutureError (e : exn).

(** The counters of [batch_process_dask]. *)
Record tally : Type := {
  results : list (option string);
  done : Z;
  good : Z;
  bad : Z
}.

Definition tally_init : tally :=
  {| results := []; done := 0; good := 0; bad := 0 |}.

(** The body of the loop over the completed futures. *)
Definition record_outcome (t : tally) (o : future_outcome) : tally :=
  match o with
  | Returned res =>
      {| results := (results t ++ [res])%list;
         done := done t + 1;
         good := match res with None => good t | Some _ => good t + 1 end;
         bad := match res with None => bad t + 1 | Some _ => bad t end |}
  | FutureError _ =>
      {| results := (results t ++ [None])%list;
         done := done t + 1;
         good := good t;
         bad := bad t + 1 |}
  end.

Section Batch.

(** The outcome of the future of a file, and the order in which
    [as_completed] yields the futures of a batch. *)
Variable run : string -> future_outcome.
Variable completion : list string -> list string.

Definition process_batch (t : tally) (batch : list string) : tally :=
  fold_left record_outcome (map run (completion batch)) t.

Definition batch_loop (files : list string) (batch_size : Z) : tally :=
  fold_left process_batch (chunked files batch_size) tally_init.

Definition batch_process_dask (files : list string) (batch_size : Z)
  : list (option string) :=
  results (batch_loop files batch_size).

End Batch.

(** The summary of [main]: [good] and [bad]. *)
Definition is_not_none (r : option string) : bool :=
  match r with Some _ => true | None => false end.

Definition summary (rs : list (option string)) : Z * Z :=
  let good_ := Z.of_nat (length (List.filter is_not_none rs)) in
  (good_, Z.of_nat (length rs) - good_).

(** The successes among the outcomes of the futures. *)
Definition succeeded (o : future_outcome) : bool :=
  match o with Returned (Some _) => true | _ => false end.

(** What the loop has counted so far agrees with its list of results. *)
Definition tally_ok (t : tally) : Prop :=
  done t = Z.of_nat (length (results t))
  /\ good t = Z.of_nat (length (List.filter is_not_none (results t)))
  /\ good t + bad t = done t.

End RunHpDask.

(** ** A sample batch run *)

Module SampleRun.

Definition files : list string := ["a.nc"; "b.nc"; "c.nc"].

(** The first file is written, the wrapper of the second returns [None]
    and the future of the third times out. *)
Definition run (f : string) : RunHpDask.future_outcome :=
  if String.eqb f "a.nc" then RunHpDask.Returned (Some "a_hp.nc")
  else if String.eqb f "b.nc" then RunHpDask.Returned None
  else RunHpDask.FutureError (ValueError "timeout").

(** Futures complete in the reverse of the order of submission. *)
Definition completion (l : list string) : list string := rev l.

End SampleRun.

(** ** Notions used to state the properties of the schema parser *)

Module SchemaText.

Import WriteOutnc.

(** A line of white space only. *)
Fixpoint is_blank (raw : string) : bool :=
  match raw with
  | EmptyString => true
  | String c r => PyStr.is_space c && is_blank r
  end.

(** A line whose first character after the leading white space is [#]. *)
Fixpoint is_comment (raw : string) : bool :=
  match raw with
  | EmptyString => false
  | String c r =>
      if PyStr.is_space c then is_comment r else Ascii.eqb c "#"
  end.

(** The number of white space characters at the start of a line. *)
Fixpoint leading_space (raw : string) : nat :=
  match raw with
  | EmptyString => O
  | String c r => if PyStr.is_space c then S (leading_space r) else O
  end.

(** A non-empty run of word characters. *)
Fixpoint all_word (s : string) : bool :=
  match s with
  | EmptyString => true
  | String c r => PyText.is_word c && all_word r
  end.

Definition is_name (s : string) : bool :=
  negb (String.eqb s EmptyString) && all_word s.

(** The line [name(dims):dtype] that declares a variable. *)
Definition declaration (name dims_ dtype_ : string) : string :=
  name +:+ "(" +:+ dims_ +:+ "):" +:+ dtype_.

(** The variable whose attributes are being read is a declared one. *)
Definition current_declared (st : parser_state) : Prop :=
  match current_var st with
  | Some cv => Dict.mem cv (st_variables st) = true
  | None => True
  end.

(** No name occurs twice in a name space of the schema. *)
Definition unique_names (d : dod) : Prop :=
  List.NoDup (Dict.keys (dimensions d))
  /\ List.NoDup (Dict.keys (variables d))
  /\ List.NoDup (Dict.keys (globals d))
  /\ Forall (fun nv => List.NoDup (Dict.keys (attrs (snd nv)))) (variables d).

End SchemaText.

(** ** A sample schema text *)

Module SampleText.

(** The declarations of a schema, before its comment line. *)
Definition declarations : list string :=
  ["time = UNLIMITED";
   "x = 10";
   "base_time():int";
   "    string = ";
   "    units = seconds since 1970-1-1 0:00:00 0:00";
   "refl(time, x):float";
   "    long_name = " +:+ String PyStr.dquote ("Reflectivity" +:+ String PyStr.dquote EmptyString);
   "    _FillValue:float = -9999";
   "    units = dBZ"].

Definition comment : string := "# global attributes".

Definition global_lines : list string :=
  ["  title = " +:+ String PyStr.dquote ("HydroPhase" +:+ String PyStr.dquote EmptyString);
   "  doi = ";
   "x = 20";
   "    units = m"].

(** A line that the parser passes over: three spaces of indentation. *)
Definition odd_line : string := "   units = K".

(** A dimension whose size is not an integer. *)
Definition bad_dimension : string := "x = ten".

End SampleText.

(** ** Notions used to state the properties of the writer *)

Module WriterFacts.

Import WriteOutnc.


(** The value of the attribute [kv] of the variable [name] once the time
    attributes are filled from [times]: an empty text is replaced by the
    entry of the same name that [times] has for the variable, if any. *)
Definition time_attr_after
    (times : list (string * list (string * attr_value)))
    (name : string) (kv : string * attr_value) : attr_value :=
  if is_empty_str (snd kv) then
    match Dict.get name times with
    | Some meta =>
        match Dict.get (fst kv) meta with
        | Some mv => mv
        | None => snd kv
        end
    | None => snd kv
    end
  else snd kv.

(** A variable of the schema with its time attributes filled. *)
Definition time_var_after
    (times : list (string * list (string * attr_value)))
    (nv : string * var_spec) : string * var_spec :=
  (fst nv,
   {| dtype := dtype (snd nv); dims := dims (snd nv);
      attrs := map (fun kv => (fst kv, time_attr_after times (fst nv) kv))
                 (attrs (snd nv)) |}).

(** The variable that the structural pass creates for an entry of the
    schema. *)
Definition created_variable (vinfo : var_spec) : NetCDF.variable attr_value :=
  let '(fill, attrs_) := Dict.pop "_FillValue" (attrs vinfo) in
  {| NetCDF.var_dtype := dtype vinfo;
     NetCDF.var_dims := dims vinfo;
     NetCDF.var_fill :=
       match fill with
       | Some f =>
           match attr_truthy f with
           | Ok true => Some (fill_of_attr f)
           | _ => None
           end
       | None => None
       end;
     NetCDF.var_attrs := attrs_;
     NetCDF.var_data := None |}.

(** The fill value of a schema variable is not a numpy array. *)
Definition plain_fill (vinfo : var_spec) : Prop :=
  forall a, Dict.get "_FillValue" (attrs vinfo) <> Some (ANumpy a).

(** The three radar metadata variables and the dataset attribute each one
    is written from. *)
Definition radar_metadata : list (string * string) :=
  [("radar_lat", "origin_latitude");
   ("radar_lon", "origin_longitude");
   ("radar_alt", "origin_altitude")].

(** A variable of the file without its data, and the structure of a file:
    its dimensions, its global attributes and its variables without their
    data. *)
Definition without_data (v : NetCDF.variable attr_value)
  : NetCDF.variable attr_value :=
  {| NetCDF.var_dtype := NetCDF.var_dtype v;
     NetCDF.var_dims := NetCDF.var_dims v;
     NetCDF.var_fill := NetCDF.var_fill v;
     NetCDF.var_attrs := NetCDF.var_attrs v;
     NetCDF.var_data := None |}.

Definition structure_of (nc : nc_dataset)
  : list (string * option Z) * list (string * string)
    * list (string * NetCDF.variable attr_value) :=
  (NetCDF.dims nc, NetCDF.attrs nc,
   map (fun kv => (fst kv, without_data (snd kv))) (NetCDF.variables nc)).

(** No attribute of a schema variable is a numpy value. *)
Definition plain_attrs (vinfo : var_spec) : Prop :=
  Forall (fun kv => forall a, snd kv <> ANumpy a) (attrs vinfo).

(** An element that is not NaN (nor NaT). *)
Definition not_nan (x : Np.scalar) : Prop := Np.scalar_isnan x = false.

End WriterFacts.

(** ** A sample write from a schema text *)

Module SampleWrite.

Import WriteOutnc.

Definition lines : list string :=
  (SampleText.declarations ++ SampleText.comment :: SampleText.global_lines)%list.

(** The mapping sends the reflectivity of [Sample.ds] to [refl]. *)
Definition config : gmap string cfg_value :=
  <["doi" := CStr "10.5439/2530631"]>
    (<["variable_mapping" :=
         CMapping [("corrected_reflectivity", "refl")]]> ∅).

(** Reflectivity with a NaN, to be written to a variable with a fill
    value. *)
Definition refl_nan : Np.ndarray :=
  Np.plain Np.float64 [3%nat]
    [Sample.num 10; Np.SFloat F64.NaN; Sample.num 30].

Definition ds_nan : xr_dataset :=
  {| data_vars :=
       <["time" := Sample.time_coord]>
         (<["corrected_reflectivity" := refl_nan]> ∅);
     ds_attrs := ∅ |}.



(** A dataset whose latitude of the radar is a variable without
    dimensions. *)
Definition ds_scalar : xr_dataset :=
  {| data_vars :=
       <["time" := Sample.time_coord]>
         (<["radar_lat" := Np.scalar_float64 (F64.Fin 38)]> ∅);
     ds_attrs := ∅ |}.

(** A file with the variables [refl] (with a fill value) and [radar_lat]. *)
Definition schema : dod :=
  {| dimensions := [("x", Some 3)];
     variables :=
       [ ("refl",
          {| dtype := "float"; dims := ["x"];
             attrs := [("_FillValue", AFloat (F64.Fin (-9999)))] |});
         ("radar_lat", {| dtype := "float"; dims := []; attrs := [] |}) ];
     globals := [] |}.

Definition container : nc_dataset := fst (_create_nc_structure schema).

(** A dataset in which the latitude of the radar is both a variable of one
    element and the attribute [origin_latitude], and a mapping that sends
    the variable to [radar_lat]. *)
Definition ds_lat : xr_dataset :=
  {| data_vars :=
       <["time" := Sample.time_coord]>
         (<["radar_lat" := Np.plain Np.float64 [1%nat] [Sample.num 99]]> ∅);
     ds_attrs := <["origin_latitude" := Np.scalar_float64 (F64.Fin 38)]> ∅ |}.

(** The environment of [Sample.env] an hour later and on another host. *)
Definition env_later : environ :=
  {| argv := argv Sample.env;
     utcnow := utcnow Sample.env + 3600;
     uname_n := Ok "other" |}.

(** A schema whose global attributes [doi] and [history] are to be
    resolved. *)
Definition schema_globals : dod :=
  {| dimensions := []; variables := [];
     globals := [("doi", EmptyString); ("history", EmptyString);
                 ("site_id", "guc")] |}.

Definition config_lat : gmap string cfg_value :=
  <["variable_mapping" := CMapping [("radar_lat", "radar_lat")]]> ∅.

End SampleWrite.

(** * Properties *)

(** ** Sanity checks of the Python and float primitives *)

Example py_int_plain : PyStr.py_int " -9999 " = Ok (-9999).
Proof. reflexivity. Qed.

Example py_int_underscore : PyStr.py_int "1_000" = Ok 1000.
Proof. reflexivity. Qed.

Example py_int_commas : PyStr.py_int "1, 2, 3" = Raise (ValueError lib_msg).
Proof. reflexivity. Qed.

Example split_commas : PyStr.split "," "1, 2,,3" = ["1"; " 2"; EmptyString; "3"].
Proof. reflexivity. Qed.

Example rsplit1_last : PyStr.rsplit1 ":" "a:b:float" = Some ("a:b", "float").
Proof. reflexivity. Qed.

Example strip_quotes :
  PyStr.strip_char PyStr.dquote
    (PyStr.strip (String " " (String PyStr.dquote ("dBZ" +:+ String PyStr.dquote " "))))
  = "dBZ".
Proof. reflexivity. Qed.

Example f64_of_Z_exact : F64.of_Z 12000 = F64.Fin 12000.
Proof. reflexivity. Qed.

(** A nanosecond count of today's magnitude does not fit a double: the
    nearest double is a multiple of 256. *)
Example f64_of_Z_rounds :
  F64.of_Z 1700000000999999999 = F64.Fin 1700000001000000000.
Proof. vm_compute. reflexivity. Qed.

Example f64_div_tenth : F64.div (F64.of_Z 100000000) (F64.of_Z 1000000000)
  = F64.Fin (3602879701896397 # 36028797018963968).
Proof. vm_compute. reflexivity. Qed.

Example f64_round32_tenth :
  F64.round F64.binary32 (1 # 10) = F64.Fin (13421773 # 134217728).
Proof. vm_compute. reflexivity. Qed.

(** The quotient of two nanosecond counts agrees with the reference model
    of IEEE arithmetic, on a sample of time stamps across the 64-bit range
    and of small quotients. *)
Example f64_div_agrees_with_reference :
  forallb (fun a => F64Ref.float_eqb (F64Ref.truediv a 1000000000)
                      (Np.timedelta_truediv a 1000000000))
    (map (fun k => - 9223372036854775807
                   + 92233720368547757 * Z.of_nat k) (seq 0 200))
  && forallb (fun a => F64Ref.float_eqb (F64Ref.truediv a 7)
                         (Np.timedelta_truediv a 7))
       (map (fun k => - 3 + 104729 * Z.of_nat k * Z.of_nat k) (seq 0 100))
  = true.
Proof. vm_compute. reflexivity. Qed.

(** ** Attribute value parser *)

Section StringFacts.

Import PyStr.

Lemma contains_char_app (c : ascii) (a b : string) :
  contains_char c (a +:+ b) = contains_char c a || contains_char c b.
Proof.
  induction a as [|d a IH]; simpl; [reflexivity|].
  rewrite IH. now rewrite orb_assoc.
Qed.

Lemma rsplit1_absent (c : ascii) (s : string) :
  contains_char c s = false -> rsplit1 c s = None.
Proof.
  induction s as [|d s IH]; simpl; [reflexivity|].
  intros H. apply orb_false_iff in H as [Hd Hs].
  rewrite (IH Hs), Hd. reflexivity.
Qed.

Lemma rsplit1_last_sep (c : ascii) (a b : string) :
  contains_char c b = false -> rsplit1 c (a +:+ String c b) = Some (a, b).
Proof.
  intros Hb. induction a as [|d a IH]; simpl.
  - rewrite (rsplit1_absent _ _ Hb), Ascii.eqb_refl. reflexivity.
  - rewrite IH. reflexivity.
Qed.

End StringFacts.

Section ParseAttribute.

Import PyStr WriteOutnc Spec.

Lemma parse_hinted (name hint value_str : string) :
  contains_char ":" hint = false ->
  _parse_attribute_value (name +:+ String ":" hint) value_str =
  let value := cleaned value_str in
  if String.eqb hint "float" || String.eqb hint "double" then
    try x <- PyFloat.py_float value; Ok (name, AFloat x)
  else if String.eqb hint "short" || String.eqb hint "int" then
    if contains_char "," value then
      try l <- try_all (fun x => py_int (strip x)) (split "," value);
      Ok (name, ATuple l)
    else try n <- py_int value; Ok (name, AInt n)
  else if String.eqb hint "byte" then
    try n <- py_int value; Ok (name, AInt n)
  else Ok (name, AStr value).
Proof.
  intros Hh. unfold _parse_attribute_value, cleaned.
  rewrite contains_char_app. simpl contains_char at 2.
  rewrite orb_true_r. rewrite (rsplit1_last_sep _ _ _ Hh). cbv zeta.
  destruct (String.eqb hint "float"); [reflexivity|].
  destruct (String.eqb hint "double"); reflexivity.
Qed.

(** Float and double hints give a float, short and int hints an integer or
    a tuple of integers, and the hint is removed from the stored name. *)
Lemma parse_float_double_short_int (name value_str : string) :
  let value := cleaned value_str in
  _parse_attribute_value (name +:+ ":float") value_str
    = (try x <- PyFloat.py_float value; Ok (name, AFloat x))
  /\ _parse_attribute_value (name +:+ ":double") value_str
    = (try x <- PyFloat.py_float value; Ok (name, AFloat x))
  /\ _parse_attribute_value (name +:+ ":short") value_str
    = (if contains_char "," value
       then try l <- try_all (fun x => py_int (strip x)) (split "," value);
            Ok (name, ATuple l)
       else try n <- py_int value; Ok (name, AInt n))
  /\ _parse_attribute_value (name +:+ ":int") value_str
    = (if contains_char "," value
       then try l <- try_all (fun x => py_int (strip x)) (split "," value);
            Ok (name, ATuple l)
       else try n <- py_int value; Ok (name, AInt n)).
Proof.
  cbv zeta. repeat split; now rewrite parse_hinted.
Qed.

(** A byte hint gives [int(value)], with or without commas. *)
Lemma parse_byte (name value_str : string) :
  _parse_attribute_value (name +:+ ":byte") value_str
  = (try n <- py_int (cleaned value_str); Ok (name, AInt n)).
Proof. now rewrite parse_hinted. Qed.

(** Without a colon in the key the value is kept as a string. *)
Lemma parse_unhinted (key value_str : string) :
  contains_char ":" key = false ->
  _parse_attribute_value key value_str = Ok (key, AStr (cleaned value_str)).
Proof.
  intros H. unfold _parse_attribute_value. now rewrite H.
Qed.

Local Arguments Ascii.eqb : simpl never.
Local Arguments is_digit : simpl never.
Local Arguments is_space : simpl never.

Lemma digits_from_stops_at_comma (s : string) :
  forall acc cnt prev,
  contains_char "," s = true ->
  exists v c r, digits_from acc cnt prev s = (v, c, r) /\ r <> EmptyString.
Proof.
  induction s as [|a s IH]; intros acc cnt prev H; [discriminate|].
  simpl in H. simpl digits_from.
  destruct (Ascii.eqb "," a) eqn:Ea.
  - apply Ascii.eqb_eq in Ea. subst a.
    do 3 eexists. split; [reflexivity | discriminate].
  - simpl in H. destruct (is_digit a).
    + apply IH, H.
    + destruct (Ascii.eqb a "_" && prev).
      * destruct s as [|d s']; [discriminate|].
        destruct (is_digit d).
        -- apply IH, H.
        -- do 3 eexists. split; [reflexivity | discriminate].
      * do 3 eexists. split; [reflexivity | discriminate].
Qed.

Lemma lstrip_keeps (p : ascii -> bool) (c : ascii) (s : string) :
  p c = false -> contains_char c s = true ->
  contains_char c (lstrip_by p s) = true.
Proof.
  intros Hp. induction s as [|a s IH]; simpl; [discriminate|].
  intros H. destruct (p a) eqn:Ea.
  - apply IH. destruct (Ascii.eqb c a) eqn:E; [|exact H].
    apply Ascii.eqb_eq in E. congruence.
  - exact H.
Qed.

Lemma rstrip_keeps (p : ascii -> bool) (c : ascii) (s : string) :
  p c = false -> contains_char c s = true ->
  contains_char c (rstrip_by p s) = true.
Proof.
  intros Hp. induction s as [|a s IH]; simpl; [discriminate|].
  intros H. destruct (Ascii.eqb c a) eqn:E.
  - apply Ascii.eqb_eq in E. subst a.
    destruct (rstrip_by p s); simpl; rewrite ?Hp; simpl;
      now rewrite Ascii.eqb_refl.
  - simpl in H. specialize (IH H).
    destruct (rstrip_by p s); [discriminate|].
    simpl. rewrite E. exact IH.
Qed.

Lemma py_int_rejects_comma (s : string) :
  contains_char "," s = true -> py_int s = Raise (ValueError lib_msg).
Proof.
  intros H. unfold py_int.
  assert (Hs : contains_char "," (strip s) = true).
  { apply rstrip_keeps; [reflexivity|]. apply lstrip_keeps; [reflexivity|].
    exact H. }
  destruct (sign (strip s)) as [neg body] eqn:Es.
  assert (Hb : contains_char "," body = true).
  { unfold sign in Es. destruct (strip s) as [|a r]; [discriminate|].
    destruct a as [[] [] [] [] [] [] [] []]; inversion Es; subst;
      try exact Hs; simpl in Hs; exact Hs. }
  destruct (digits_from_stops_at_comma body 0 0 false Hb) as (v & c & r & E & Hr).
  unfold digits. rewrite E. destruct r; [congruence | reflexivity].
Qed.

(** With the hint [byte] every value with a comma is rejected. *)
Lemma parse_byte_comma (name value_str : string) :
  contains_char "," (cleaned value_str) = true ->
  _parse_attribute_value (name +:+ ":byte") value_str
  = Raise (ValueError lib_msg).
Proof.
  intros H. rewrite parse_byte, (py_int_rejects_comma _ H). reflexivity.
Qed.

End ParseAttribute.

(** C5, at the input on which the code and the claim part: with the hint
    [byte] a comma-separated value is not parsed into a tuple of integers,
    as it is with [short] and [int]; the parser raises [ValueError]. *)
Theorem C5_byte_hint_rejects_commas :
  WriteOutnc._parse_attribute_value "flag_values:byte" "1, 2, 3"
    = Raise (ValueError lib_msg)
  /\ WriteOutnc._parse_attribute_value "flag_values:short" "1, 2, 3"
    = Ok ("flag_values", WriteOutnc.ATuple [1; 2; 3])
  /\ WriteOutnc._parse_attribute_value "flag_values:int" "1, 2, 3"
    = Ok ("flag_values", WriteOutnc.ATuple [1; 2; 3]).
Proof. repeat split; reflexivity. Qed.

(** ** Attribute resolver *)

Section Resolver.

Import WriteOutnc Spec.

Lemma fill_globals_spec (config : gmap string cfg_value)
    (items : list (string * string)) :
  fill_globals config items
  = (map (resolve_item config) items, unresolved_names config items).
Proof.
  unfold unresolved_names.
  induction items as [|[key val] rest IH]; [reflexivity|].
  simpl fill_globals. rewrite IH. rewrite filter_cons. cbn [map].
  assert (Hr : resolve_item config (key, val)
               = if String.eqb val EmptyString
                 then match config !! key with
                      | Some v => (key, py_str v)
                      | None => (key, val)
                      end
                 else (key, val)) by reflexivity.
  assert (Hu : unresolved config (key, val)
               = String.eqb val EmptyString
                 && match config !! key with Some _ => false | None => true end)
    by reflexivity.
  rewrite Hr. clear Hr.
  destruct (decide (unresolved config (key, val) = true)) as [Hd|Hd];
    rewrite Hu in Hd; clear Hu;
    destruct (String.eqb val EmptyString); simpl in Hd; try discriminate;
    try (destruct (config !! key); simpl in Hd; try discriminate);
    try reflexivity; now destruct Hd.
Qed.

Lemma config_after_eq (env : environ) (d : dod) (config : gmap string cfg_value) :
  config_after (_update_dod_globals env d config) = with_derived env config.
Proof.
  unfold _update_dod_globals, with_derived.
  destruct (fill_globals _ _). reflexivity.
Qed.

Lemma returned_eq (env : environ) (d : dod) (config : gmap string cfg_value) :
  let cfg := with_derived env config in
  let d' := {| dimensions := dimensions d; variables := variables d;
               globals := map (resolve_item cfg) (globals d) |} in
  returned (_update_dod_globals env d config)
  = match unresolved_names cfg (globals d) with
    | [] => Ok d'
    | names =>
        Raise (ValueError
          ("DOD has empty global attributes not provided in config: "
           +:+ repr_list names))
    end.
Proof.
  cbv zeta. unfold _update_dod_globals.
  fold (with_derived env config). rewrite fill_globals_spec. simpl.
  destruct (unresolved_names _ _); reflexivity.
Qed.

Lemma unresolved_names_In (config : gmap string cfg_value)
    (items : list (string * string)) (k : string) :
  In k (unresolved_names config items)
  <-> In (k, EmptyString) items /\ config !! k = None.
Proof.
  unfold unresolved_names. rewrite in_map_iff. split.
  - intros [[k' v] [Hk Hin]]. simpl in Hk. subst k'.
    apply list_elem_of_In, list_elem_of_filter in Hin as [Hu Hin].
    apply list_elem_of_In in Hin.
    unfold unresolved in Hu. simpl in Hu.
    apply andb_true_iff in Hu as [Hv Hc].
    apply String.eqb_eq in Hv. subst v.
    split; [exact Hin|]. destruct (config !! k); [discriminate | reflexivity].
  - intros [Hin Hc]. exists (k, EmptyString). split; [reflexivity|].
    apply list_elem_of_In, list_elem_of_filter. split.
    + unfold unresolved. simpl. now rewrite Hc.
    + now apply list_elem_of_In.
Qed.

Lemma unresolved_names_nil (config : gmap string cfg_value)
    (items : list (string * string)) :
  unresolved_names config items = []
  <-> (forall k, In (k, EmptyString) items -> is_Some (config !! k)).
Proof.
  split.
  - intros Hn k Hin. destruct (config !! k) eqn:E; [eauto|].
    assert (In k (unresolved_names config items))
      by (apply unresolved_names_In; auto).
    rewrite Hn in H. destruct H.
  - intros H. destruct (unresolved_names config items) as [|k l] eqn:E;
      [reflexivity|].
    assert (Hk : In k (unresolved_names config items)) by (rewrite E; now left).
    apply unresolved_names_In in Hk as [Hin Hc].
    destruct (H k Hin) as [v Hv]. congruence.
Qed.

End Resolver.

Import Spec.

(** C1, as stated, fails: an empty attribute whose configuration value is
    itself the empty string has a same-named key, the call returns, and the
    attribute is still empty. The same happens to [command_line] when the
    argument vector is the single empty string of an interactive
    interpreter. *)
Lemma C1_counterexample :
  let env := {| WriteOutnc.argv := Some [EmptyString];
                WriteOutnc.utcnow := 0;
                WriteOutnc.uname_n := Ok "host" |} in
  let d := {| WriteOutnc.dimensions := []; WriteOutnc.variables := [];
              WriteOutnc.globals := [("doi", EmptyString);
                                     ("command_line", EmptyString)] |} in
  let config : gmap string WriteOutnc.cfg_value :=
    <["doi" := WriteOutnc.CStr EmptyString]> ∅ in
  let r := WriteOutnc._update_dod_globals env d config in
  (forall k, In (k, EmptyString) (WriteOutnc.globals d) ->
             is_Some (WriteOutnc.config_after r !! k))
  /\ exists d', WriteOutnc.returned r = Ok d'
       /\ In ("doi", EmptyString) (WriteOutnc.globals d')
       /\ In ("command_line", EmptyString) (WriteOutnc.globals d').
Proof.
  cbv zeta. split.
  - intros k [H|[H|[]]]; inversion H; subst; vm_compute; eauto.
  - eexists. split; [vm_compute; reflexivity|]. simpl. auto.
Qed.

(** C1, amended. Names are looked up in the configuration with its two
    derived entries. If every empty global attribute has a same-named key
    there, the call returns the schema with the same attribute names in the
    same order, every non-empty attribute unchanged and every empty one set
    to the stringified configuration value, so that an attribute is empty
    afterwards only if that string is empty. Otherwise the call raises a
    [ValueError] for exactly the empty attributes that have no same-named
    key, in schema order; its message is the fixed sentence followed, when
    these names are ASCII text, by their list as [repr] prints it. *)
Theorem C1_resolve_globals (env : WriteOutnc.environ) (d : WriteOutnc.dod)
    (config : gmap string WriteOutnc.cfg_value) :
  let r := WriteOutnc._update_dod_globals env d config in
  let cfg := with_derived env config in
  let resolvable :=
    forall k, In (k, EmptyString) (WriteOutnc.globals d) -> is_Some (cfg !! k) in
  (resolvable ->
     exists d', WriteOutnc.returned r = Ok d'
       /\ WriteOutnc.dimensions d' = WriteOutnc.dimensions d
       /\ WriteOutnc.variables d' = WriteOutnc.variables d
       /\ WriteOutnc.globals d' = map (resolve_item cfg) (WriteOutnc.globals d)
       /\ map fst (WriteOutnc.globals d') = map fst (WriteOutnc.globals d)
       /\ (forall k, In (k, EmptyString) (WriteOutnc.globals d') ->
             exists c, cfg !! k = Some c /\ WriteOutnc.py_str c = EmptyString))
  /\ (~ resolvable ->
     exists names text,
       WriteOutnc.returned r
       = Raise (ValueError
           ("DOD has empty global attributes not provided in config: "
            +:+ text))
       /\ names = unresolved_names cfg (WriteOutnc.globals d)
       /\ names <> []
       /\ (forall k, In k names <->
             In (k, EmptyString) (WriteOutnc.globals d) /\ cfg !! k = None)
       /\ (Forall (fun k => is_ascii k = true) names ->
             text = WriteOutnc.repr_list names)).
Proof.
  cbv zeta. pose proof (returned_eq env d config) as R. cbv zeta in R.
  split.
  - intros Hres. apply unresolved_names_nil in Hres. rewrite Hres in R.
    eexists. split; [exact R|]. simpl. repeat split.
    + rewrite map_map. apply map_ext. intros [k v]. unfold resolve_item. simpl.
      destruct (String.eqb v EmptyString); [|reflexivity].
      destruct (_ !! k); reflexivity.
    + intros k Hin. apply in_map_iff in Hin as [[k' v] [E Hin]].
      unfold resolve_item in E. simpl in E.
      destruct (String.eqb v EmptyString) eqn:Ev.
      * apply String.eqb_eq in Ev. subst v.
        destruct (with_derived env config !! k') as [c|] eqn:Ec.
        -- inversion E; subst. eauto.
        -- exfalso.
           assert (Hk : In k' (unresolved_names (with_derived env config)
                                 (WriteOutnc.globals d)))
             by (apply unresolved_names_In; auto).
           rewrite Hres in Hk. destruct Hk.
      * inversion E; subst. rewrite String.eqb_refl in Ev. discriminate.
  - intros Hnot.
    destruct (unresolved_names (with_derived env config) (WriteOutnc.globals d))
      as [|n ns] eqn:E.
    + exfalso. apply Hnot. now apply unresolved_names_nil.
    + exists (n :: ns), (WriteOutnc.repr_list (n :: ns)).
      split; [exact R|]. split; [reflexivity|].
      split; [discriminate|]. split; [|reflexivity]. intros k. rewrite <- E.
      apply unresolved_names_In.
Qed.

(** Both branches of [C1_resolve_globals] at concrete schemas: one whose
    empty attribute [doi] the configuration provides, one whose empty
    attributes [doi] and [site_id] it does not, and one whose missing
    attribute has a single quote in its name, which [repr] puts between
    double quotes. *)
Lemma C1_resolve_globals_witness :
  let env := {| WriteOutnc.argv := Some ["run_hp.py"; "2024"];
                WriteOutnc.utcnow := 1705288800;
                WriteOutnc.uname_n := Ok "host" |} in
  let d := {| WriteOutnc.dimensions := []; WriteOutnc.variables := [];
              WriteOutnc.globals := [("doi", EmptyString); ("site_id", "guc");
                                     ("history", EmptyString)] |} in
  let d2 := {| WriteOutnc.dimensions := []; WriteOutnc.variables := [];
               WriteOutnc.globals := [("doi", EmptyString); ("history", EmptyString);
                                      ("site_id", EmptyString)] |} in
  let d3 := {| WriteOutnc.dimensions := []; WriteOutnc.variables := [];
               WriteOutnc.globals := [("it's", EmptyString)] |} in
  let config : gmap string WriteOutnc.cfg_value :=
    <["doi" := WriteOutnc.CStr "10.5439/2530631"]> ∅ in
  (exists d', WriteOutnc.returned (WriteOutnc._update_dod_globals env d config) = Ok d'
     /\ WriteOutnc.globals d'
        = [("doi", "10.5439/2530631"); ("site_id", "guc");
           ("history", "created on 2024-01-15 03:20:00 UTC on host")])
  /\ WriteOutnc.returned (WriteOutnc._update_dod_globals env d2 ∅)
     = Raise (ValueError
         "DOD has empty global attributes not provided in config: ['doi', 'site_id']")
  /\ WriteOutnc.returned (WriteOutnc._update_dod_globals env d3 ∅)
     = Raise (ValueError
         ("DOD has empty global attributes not provided in config: ["
          +:+ String PyStr.dquote ("it's" +:+ String PyStr.dquote "]"))).
Proof.
  cbv zeta. split; [|split].
  - match goal with
    | |- context [WriteOutnc._update_dod_globals ?e ?d ?c] =>
        destruct (C1_resolve_globals e d c) as [H _]
    end.
    cbv zeta in H. destruct H as (d' & Hr & _ & _ & Hg & _).
    + intros k [E|[E|[E|[]]]]; inversion E; subst; vm_compute; eauto.
    + exists d'. split; [exact Hr|]. rewrite Hg. vm_compute. reflexivity.
  - match goal with
    | |- context [WriteOutnc._update_dod_globals ?e ?d ?c] =>
        destruct (C1_resolve_globals e d c) as [_ H]
    end.
    cbv zeta in H. destruct H as (names & text & Hr & Hn & _ & _ & Ht).
    + intros H. destruct (H "doi") as [v Hv]; [simpl; auto|].
      vm_compute in Hv. discriminate.
    + rewrite Hr, Ht; rewrite Hn; [vm_compute; reflexivity|].
      vm_compute. repeat constructor.
  - match goal with
    | |- context [WriteOutnc._update_dod_globals ?e ?d ?c] =>
        destruct (C1_resolve_globals e d c) as [_ H]
    end.
    cbv zeta in H. destruct H as (names & text & Hr & Hn & _ & _ & Ht).
    + intros H. destruct (H "it's") as [v Hv]; [simpl; auto|].
      vm_compute in Hv. discriminate.
    + rewrite Hr, Ht; rewrite Hn; [vm_compute; reflexivity|].
      vm_compute. repeat constructor.
Defined.

(** C7, as stated, fails: the resolver writes the two derived keys into the
    dictionary it was given, which is the caller's. *)
Lemma C7_counterexample :
  let env := {| WriteOutnc.argv := Some ["run_hp.py"];
                WriteOutnc.utcnow := 0;
                WriteOutnc.uname_n := Ok "host" |} in
  let d := {| WriteOutnc.dimensions := []; WriteOutnc.variables := [];
              WriteOutnc.globals := [] |} in
  let config : gmap string WriteOutnc.cfg_value := ∅ in
  let r := WriteOutnc._update_dod_globals env d config in
  WriteOutnc.returned r = Ok d
  /\ config !! "command_line" = None
  /\ WriteOutnc.config_after r !! "command_line"
     = Some (WriteOutnc.CStr "run_hp.py")
  /\ config !! "history" = None
  /\ WriteOutnc.config_after r !! "history"
     = Some (WriteOutnc.CStr "created on 1970-01-01 00:00:00 UTC on host").
Proof. cbv zeta. repeat split; vm_compute; reflexivity. Qed.

(** C7, amended: no copy is made. After the call, whether it returned or
    raised, the caller's configuration holds the derived [command_line] and
    [history], overwriting any value it had under these names, and every
    other key is as before. *)
Theorem C7_config_mutated_in_place (env : WriteOutnc.environ)
    (d : WriteOutnc.dod) (config : gmap string WriteOutnc.cfg_value) :
  let after := WriteOutnc.config_after (WriteOutnc._update_dod_globals env d config) in
  after !! "command_line" = Some (WriteOutnc.CStr (WriteOutnc.command_line env))
  /\ after !! "history" = Some (WriteOutnc.CStr (WriteOutnc.history env))
  /\ (forall k, k <> "command_line" -> k <> "history" -> after !! k = config !! k).
Proof.
  cbv zeta. rewrite config_after_eq. unfold with_derived. repeat split.
  - rewrite lookup_insert_ne by discriminate. apply lookup_insert_eq.
  - apply lookup_insert_eq.
  - intros k H1 H2. now rewrite !lookup_insert_ne by congruence.
Qed.

Lemma C7_config_mutated_in_place_witness :
  let env := {| WriteOutnc.argv := None; WriteOutnc.utcnow := 0;
                WriteOutnc.uname_n := Raise (ValueError lib_msg) |} in
  let d := {| WriteOutnc.dimensions := []; WriteOutnc.variables := [];
              WriteOutnc.globals := [("doi", EmptyString)] |} in
  let config : gmap string WriteOutnc.cfg_value :=
    <["site_id" := WriteOutnc.CStr "guc"]> ∅ in
  WriteOutnc.config_after (WriteOutnc._update_dod_globals env d config) !! "site_id"
  = config !! "site_id".
Proof.
  cbv zeta.
  match goal with
  | |- context [WriteOutnc._update_dod_globals ?e ?d ?c] =>
      pose proof (C7_config_mutated_in_place e d c) as H
  end.
  cbv zeta in H. destruct H as (_ & _ & H). apply H; discriminate.
Defined.

(** ** Dictionaries and the output container *)

Section DictFacts.

Context {V : Type}.
Implicit Types (d : list (string * V)) (k : string).

Lemma get_set_same k (v : V) d : Dict.get k (Dict.set k v d) = Some v.
Proof.
  induction d as [|[k' v'] d IH]; simpl.
  - now rewrite String.eqb_refl.
  - destruct (String.eqb k k') eqn:E; simpl; rewrite ?String.eqb_refl, ?E; auto.
Qed.

Lemma get_set_other k k' (v : V) d :
  k <> k' -> Dict.get k (Dict.set k' v d) = Dict.get k d.
Proof.
  intros Hne. apply String.eqb_neq in Hne.
  induction d as [|[k2 v2] d IH]; simpl.
  - now rewrite Hne.
  - destruct (String.eqb k' k2) eqn:E; simpl.
    + apply String.eqb_eq in E. subst k2. now rewrite Hne.
    + destruct (String.eqb k k2); auto.
Qed.

(** A map over the values that keeps the keys. *)
Lemma get_map_values k (g : string -> V -> V) d :
  Dict.get k (map (fun kv => (fst kv, g (fst kv) (snd kv))) d)
  = option_map (g k) (Dict.get k d).
Proof.
  induction d as [|[k' v'] d IH]; simpl; [reflexivity|].
  destruct (String.eqb k k') eqn:E; [|exact IH].
  apply String.eqb_eq in E. now subst.
Qed.

Lemma get_pop_same k d (v : V) :
  Dict.get k d = Some v -> exists r, Dict.pop k d = (Some v, r).
Proof.
  induction d as [|[k' v'] d IH]; simpl; [discriminate|].
  destruct (String.eqb k k'); intros H.
  - inversion H. eauto.
  - destruct (IH H) as [r Hr]. rewrite Hr. eauto.
Qed.

(** After [pop] the key is gone, in a dictionary with distinct keys. *)
Lemma pop_removes k d :
  NoDup (Dict.keys d) -> Dict.get k (snd (Dict.pop k d)) = None.
Proof.
  induction d as [|[k' v'] d IH]; simpl; [reflexivity|].
  intros Hnd. inversion Hnd as [|? ? Hnotin Hnd']; subst.
  destruct (String.eqb k k') eqn:E; simpl.
  - apply String.eqb_eq in E. subst k'.
    clear IH Hnd Hnd'. induction d as [|[k2 v2] d IH]; [reflexivity|].
    simpl in *. destruct (String.eqb k k2) eqn:E2.
    + apply String.eqb_eq in E2. subst. exfalso. apply Hnotin. now left.
    + apply IH. intros H. apply Hnotin. now right.
  - specialize (IH Hnd'). destruct (Dict.pop k d) as [o r]. simpl in *.
    now rewrite E.
Qed.

Lemma get_set_fold k (l d : list (string * V)) :
  Dict.get k l = None ->
  Dict.get k (fold_left (fun acc kv => Dict.set (fst kv) (snd kv) acc) l d)
  = Dict.get k d.
Proof.
  revert d. induction l as [|[k' v'] l IH]; intros d; simpl; [reflexivity|].
  destruct (String.eqb k k') eqn:E; [discriminate|].
  intros H. rewrite (IH _ H). apply get_set_other.
  now apply String.eqb_neq.
Qed.

End DictFacts.

Section ContainerFacts.

Import WriteOutnc.
Implicit Types (nc : NetCDF.dataset attr_value).

Lemma update_variable_as_map (name : string)
    (f : NetCDF.variable attr_value -> NetCDF.variable attr_value) nc :
  NetCDF.variables (NetCDF.update_variable name f nc)
  = map (fun kv => (fst kv, (fun k v => if String.eqb name k then f v else v)
                              (fst kv) (snd kv)))
        (NetCDF.variables nc).
Proof.
  unfold NetCDF.update_variable. simpl. apply map_ext. intros [k v]. simpl.
  destruct (String.eqb name k); reflexivity.
Qed.

Lemma get_update_variable (name k : string)
    (f : NetCDF.variable attr_value -> NetCDF.variable attr_value) nc :
  Dict.get k (NetCDF.variables (NetCDF.update_variable name f nc))
  = option_map (fun v => if String.eqb name k then f v else v)
      (Dict.get k (NetCDF.variables nc)).
Proof.
  rewrite update_variable_as_map.
  apply (get_map_values k (fun k v => if String.eqb name k then f v else v)).
Qed.

Lemma keys_update_variable (name : string)
    (f : NetCDF.variable attr_value -> NetCDF.variable attr_value) nc :
  Dict.keys (NetCDF.variables (NetCDF.update_variable name f nc))
  = Dict.keys (NetCDF.variables nc).
Proof.
  rewrite update_variable_as_map. unfold Dict.keys. rewrite map_map.
  reflexivity.
Qed.

(** [k in d] depends on the keys only. *)
Lemma mem_keys {V W : Type} (k : string) (d : list (string * V))
    (d' : list (string * W)) :
  Dict.keys d = Dict.keys d' -> Dict.mem k d = Dict.mem k d'.
Proof.
  unfold Dict.mem. revert d'.
  induction d as [|[k1 v1] d IH]; intros [|[k2 v2] d'] H; try discriminate;
    [reflexivity|].
  simpl in H. inversion H; subst. simpl.
  destruct (String.eqb k k2); [reflexivity|]. now apply IH.
Qed.

Lemma get_assign_same (name : string) (a : Np.ndarray) nc :
  Dict.mem name (NetCDF.variables nc) = true ->
  exists var, Dict.get name (NetCDF.variables (NetCDF.assign name a nc)) = Some var
    /\ NetCDF.var_data var = Some a.
Proof.
  unfold NetCDF.assign, Dict.mem. rewrite get_update_variable.
  destruct (Dict.get name (NetCDF.variables nc)); [|discriminate].
  intros _. simpl. rewrite String.eqb_refl. eauto.
Qed.

Lemma get_assign_other (name k : string) (a : Np.ndarray) nc :
  k <> name ->
  Dict.get k (NetCDF.variables (NetCDF.assign name a nc))
  = Dict.get k (NetCDF.variables nc).
Proof.
  intros Hne. unfold NetCDF.assign. rewrite get_update_variable.
  assert (E : String.eqb name k = false) by (apply String.eqb_neq; congruence).
  rewrite E. now destruct (Dict.get k _).
Qed.

Lemma keys_assign (name : string) (a : Np.ndarray) nc :
  Dict.keys (NetCDF.variables (NetCDF.assign name a nc))
  = Dict.keys (NetCDF.variables nc).
Proof. apply keys_update_variable. Qed.

End ContainerFacts.

(** ** Structural pass *)

Section Structure.

Import WriteOutnc.
Implicit Types (nc : NetCDF.dataset attr_value).

Lemma setvarattr_fold_var (varname : string) (l : list (string * attr_value)) :
  forall nc var,
  Dict.get varname (NetCDF.variables nc) = Some var ->
  Dict.get varname
    (NetCDF.variables
       (fold_left (fun nc kv => NetCDF.setvarattr varname (fst kv) (snd kv) nc) l nc))
  = Some {| NetCDF.var_dtype := NetCDF.var_dtype var;
            NetCDF.var_dims := NetCDF.var_dims var;
            NetCDF.var_fill := NetCDF.var_fill var;
            NetCDF.var_attrs :=
              fold_left (fun acc kv => Dict.set (fst kv) (snd kv) acc) l
                (NetCDF.var_attrs var);
            NetCDF.var_data := NetCDF.var_data var |}.
Proof.
  induction l as [|[k v] l IH]; intros nc var H; simpl.
  - rewrite H. now destruct var.
  - erewrite IH.
    2:{ unfold NetCDF.setvarattr. rewrite get_update_variable, H. simpl.
        rewrite String.eqb_refl. reflexivity. }
    reflexivity.
Qed.

(** What the structural pass does for one variable that has [_FillValue]:
    the fill value is given to the creation of the variable exactly when it
    is attr_truthy, and it is among the attributes attached afterwards in no
    case. *)
Lemma create_variable_from_fill nc (varname : string) (vinfo : var_spec)
    (f : attr_value) (b : bool) :
  NoDup (Dict.keys (attrs vinfo)) ->
  Dict.get "_FillValue" (attrs vinfo) = Some f ->
  attr_truthy f = Ok b ->
  exists nc' var,
    create_variable_from nc varname vinfo = Ok nc'
    /\ Dict.get varname (NetCDF.variables nc') = Some var
    /\ NetCDF.var_fill var = (if b then Some (fill_of_attr f) else None)
    /\ Dict.get "_FillValue" (NetCDF.var_attrs var) = None.
Proof.
  intros Hnd Hget Ht. unfold create_variable_from.
  pose proof (pop_removes "_FillValue" (attrs vinfo) Hnd) as Hrem.
  destruct (get_pop_same _ _ _ Hget) as [rest Hpop].
  rewrite Hpop in *. simpl in Hrem. rewrite Ht. simpl.
  destruct b; (do 2 eexists; split; [reflexivity|]; split;
    [ apply setvarattr_fold_var; unfold NetCDF.createVariable; simpl;
      apply get_set_same
    | simpl; split; [reflexivity | now rewrite get_set_fold] ]).
Qed.

End Structure.

(** C6, at the input on which the code and the claim part: a variable
    declared with [_FillValue:short = 0]. The fill value is present, but
    [if fill] takes zero for absent: the variable is created without a fill
    value, and the attribute, already removed from those attached
    afterwards, is lost. With [_FillValue:short = -9999] the fill value is
    bound at creation. *)
Theorem C6_zero_fill_value_not_bound :
  let spec v :=
    {| WriteOutnc.dtype := "short"; WriteOutnc.dims := ["time"];
       WriteOutnc.attrs := [("long_name", WriteOutnc.AStr "HydroPhase");
                            ("_FillValue", WriteOutnc.AInt v);
                            ("units", WriteOutnc.AStr "1")] |} in
  let d v :=
    {| WriteOutnc.dimensions := [("time", None)];
       WriteOutnc.variables := [("hp_fhc", spec v)];
       WriteOutnc.globals := [] |} in
  let created v fill :=
    {| NetCDF.var_dtype := "short"; NetCDF.var_dims := ["time"];
       NetCDF.var_fill := fill;
       NetCDF.var_attrs := [("long_name", WriteOutnc.AStr "HydroPhase");
                            ("units", WriteOutnc.AStr "1")];
       NetCDF.var_data := None |} in
  (exists nc, WriteOutnc._create_nc_structure (d 0) = (nc, Ok tt)
     /\ Dict.get "hp_fhc" (NetCDF.variables nc) = Some (created 0 None))
  /\ (exists nc, WriteOutnc._create_nc_structure (d (-9999)) = (nc, Ok tt)
     /\ Dict.get "hp_fhc" (NetCDF.variables nc)
        = Some (created (-9999) (Some (Np.SInt (-9999))))).
Proof.
  cbv zeta. split; eexists; split; reflexivity.
Qed.

(** ** Value pass *)

Section ValuePass.

Import WriteOutnc.
Implicit Types (nc : NetCDF.dataset attr_value) (ds : xr_dataset) (d : dod).

Lemma get_none_keys {V W : Type} (k : string) (l : list (string * V))
    (l' : list (string * W)) :
  Dict.keys l = Dict.keys l' -> Dict.get k l = None -> Dict.get k l' = None.
Proof.
  intros Hk H. pose proof (mem_keys k l l' Hk) as Hm. unfold Dict.mem in Hm.
  rewrite H in Hm. now destruct (Dict.get k l').
Qed.

(** One mapped entry either leaves the file as it is or assigns to the
    variable it names, which is none of the time variables. *)
Lemma write_mapped_cases ds d nc (xr_name dod_name : string) nc' :
  write_mapped ds d nc xr_name dod_name = Ok nc' ->
  nc' = nc
  \/ (existsb (String.eqb dod_name) time_vars = false
      /\ exists data, nc' = NetCDF.assign dod_name data nc).
Proof.
  unfold write_mapped.
  destruct (data_vars ds !! xr_name) as [a|]; [|intros H; inversion H; auto].
  destruct (Dict.get dod_name (NetCDF.variables nc)) as [var|];
    [|intros H; inversion H; auto].
  destruct (existsb (String.eqb dod_name) time_vars) eqn:Et;
    [intros H; inversion H; auto|].
  destruct (match Np.mask a with
            | Some _ => Np.ma_filled a (NetCDF.var_fill var)
            | None => Ok a
            end) as [filled|]; simpl; [|discriminate].
  destruct (replace_nan _ _) as [cleaned|]; simpl; [|discriminate].
  destruct (check_cftime _ _); simpl; [|discriminate].
  destruct (convert_dtype _ _ _) as [converted|]; simpl; [|discriminate].
  intros H. inversion H. right. eauto.
Qed.

Lemma write_mapped_keys ds d nc (xr_name dod_name : string) nc' :
  write_mapped ds d nc xr_name dod_name = Ok nc' ->
  Dict.keys (NetCDF.variables nc') = Dict.keys (NetCDF.variables nc)
  /\ NetCDF.isopen nc' = NetCDF.isopen nc.
Proof.
  intros H. apply write_mapped_cases in H as [->|(_ & data & ->)]; [auto|].
  split; [apply keys_assign | reflexivity].
Qed.

Lemma write_mapped_all_keys ds d (mapping : list (string * string)) :
  forall nc nc' res,
  write_mapped_all ds d mapping nc = (nc', res) ->
  Dict.keys (NetCDF.variables nc') = Dict.keys (NetCDF.variables nc)
  /\ NetCDF.isopen nc' = NetCDF.isopen nc.
Proof.
  induction mapping as [|[x y] rest IH]; intros nc nc' res; simpl.
  - intros H. inversion H. auto.
  - destruct (write_mapped ds d nc x y) as [nc1|e] eqn:E.
    + intros H. apply IH in H as [Hk Ho].
      apply write_mapped_keys in E as [Hk1 Ho1]. split; congruence.
    + intros H. inversion H. auto.
Qed.

Lemma in_time_vars (name : string) :
  In name time_vars <-> existsb (String.eqb name) time_vars = true.
Proof.
  rewrite existsb_exists. split.
  - intros H. exists name. split; [exact H | apply String.eqb_refl].
  - intros (x & Hx & E). apply String.eqb_eq in E. now subst.
Qed.

(** The mapped pass never assigns to a time variable. *)
Lemma write_mapped_all_time_vars ds d (mapping : list (string * string)) :
  forall nc nc' res (tname : string),
  write_mapped_all ds d mapping nc = (nc', res) ->
  In tname time_vars ->
  Dict.get tname (NetCDF.variables nc') = Dict.get tname (NetCDF.variables nc).
Proof.
  induction mapping as [|[x y] rest IH]; intros nc nc' res tname; simpl.
  - intros H. inversion H. auto.
  - destruct (write_mapped ds d nc x y) as [nc1|e] eqn:E.
    + intros H Ht. rewrite (IH _ _ _ _ H Ht).
      apply write_mapped_cases in E as [->|(Hy & data & ->)]; [reflexivity|].
      apply get_assign_other. intros ->.
      apply in_time_vars in Ht. congruence.
    + intros H. inversion H. auto.
Qed.

(** The guard raises on a non-empty array whose first element is of a
    class with [cftime] in its name. *)
Lemma check_cftime_raises (xr_name : string) (a : Np.ndarray)
    (n : nat) (sh : list nat) (x : Np.scalar) (rest : list Np.scalar) :
  Np.shape a = S n :: sh ->
  Np.flat a = x :: rest ->
  PyStr.contains "cftime" (Np.type_str (Np.adtype a) x) = true ->
  check_cftime xr_name a
  = Raise (TypeError
      ("Attempted to write cftime object for variable " +:+ xr_name +:+ ". "
       +:+ "Time variables are not allowed to come from ds.")).
Proof.
  intros Hs Hf Hc. unfold check_cftime, Np.len, Np.flat0.
  rewrite Hs, Hf. simpl. now rewrite Hc.
Qed.

Lemma fill_masked_head (v x : Np.scalar) (rest : list Np.scalar)
    (c : list bool) :
  Np.scalar_isnan x = false ->
  length c = length (x :: rest) ->
  (forall i, c !! i = Some true -> exists y, (x :: rest) !! i = Some y
                                            /\ Np.scalar_isnan y = true) ->
  exists rest', Np.fill_masked v (x :: rest) c = x :: rest'.
Proof.
  intros Hx Hl Hc. destruct c as [|b c]; [discriminate|].
  destruct b.
  - destruct (Hc 0%nat eq_refl) as (y & Hy & Hn). simpl in Hy.
    inversion Hy; subst. congruence.
  - simpl. eauto.
Qed.

Lemma isnan_map_lookup (l : list Np.scalar) (i : nat) :
  map Np.scalar_isnan l !! i = Some true ->
  exists y, l !! i = Some y /\ Np.scalar_isnan y = true.
Proof.
  rewrite list_lookup_fmap. destruct (l !! i) as [y|]; simpl; [|discriminate].
  intros H. inversion H. eauto.
Qed.

Lemma replace_nan_keeps_head (fill : option Np.scalar) (a a' : Np.ndarray)
    (x : Np.scalar) (rest : list Np.scalar) :
  Np.flat a = x :: rest ->
  Np.scalar_isnan x = false ->
  replace_nan fill a = Ok a' ->
  Np.shape a' = Np.shape a /\ Np.adtype a' = Np.adtype a
  /\ exists rest', Np.flat a' = x :: rest'.
Proof.
  intros Hf Hx. unfold replace_nan.
  destruct fill as [v|]; [|intros H; inversion H; subst; eauto].
  unfold Np.isnan.
  destruct (Np.adtype a) eqn:Ed; simpl; try discriminate;
    (destruct (Np.any _);
     [ intros H; inversion H; subst; clear H; simpl;
       split; [reflexivity|]; split; [assumption|];
       rewrite Hf; apply fill_masked_head;
       [ exact Hx
       | apply List.length_map
       | intros i Hi; apply isnan_map_lookup; exact Hi ]
     | intros H; inversion H; subst; eauto ]).
Qed.

Lemma cftime_not_nan (dt : Np.dtype) (x : Np.scalar) :
  PyStr.contains "cftime" (Np.type_str dt x) = true ->
  Np.scalar_isnan x = false.
Proof.
  destruct x as [z|f|[ns|]|s|cls]; try reflexivity.
  - destruct dt; vm_compute; discriminate.
  - destruct dt; vm_compute; discriminate.
Qed.

End ValuePass.

Section ValuePassClaims.

Import WriteOutnc.
Implicit Types (nc : NetCDF.dataset attr_value) (ds : xr_dataset) (d : dod).

Lemma write_mapped_absent ds d nc (xr_name dod_name : string) :
  data_vars ds !! xr_name = None
  \/ Dict.get dod_name (NetCDF.variables nc) = None ->
  write_mapped ds d nc xr_name dod_name = Ok nc.
Proof.
  unfold write_mapped. intros [H|H]; rewrite H; [reflexivity|].
  now destruct (data_vars ds !! xr_name).
Qed.

Lemma write_mapped_all_skip ds d (xr_name dod_name : string)
    (before after : list (string * string)) :
  forall nc,
  data_vars ds !! xr_name = None
  \/ Dict.get dod_name (NetCDF.variables nc) = None ->
  write_mapped_all ds d (before ++ (xr_name, dod_name) :: after) nc
  = write_mapped_all ds d (before ++ after) nc.
Proof.
  induction before as [|[x y] before IH]; intros nc H; simpl.
  - now rewrite (write_mapped_absent _ _ _ _ _ H).
  - destruct (write_mapped ds d nc x y) as [nc1|e] eqn:E; [|reflexivity].
    apply IH. destruct H as [H|H]; [now left | right].
    apply write_mapped_keys in E as [Hk _].
    eapply get_none_keys; [symmetry; exact Hk | exact H].
Qed.

Lemma standardized_times_shape (t : Z)
    (times : list (string * list (string * attr_value))) :
  standardized_times t = Ok times ->
  exists b x s u,
    times
    = [ ("base_time",
          [ ("value", ANumpy b); ("string", AStr s);
            ("units", AStr "seconds since 1970-1-1 0:00:00 0:00") ]);
        ("time_offset",
          [ ("value", ANumpy (Np.array1_float64 (F64.Fin 0)));
            ("units", AStr ("seconds since " +:+ s)) ]);
        ("time",
          [ ("value", ANumpy (Np.array1_float64 x));
            ("units", AStr u); ("string", AStr s) ]) ].
Proof.
  unfold standardized_times.
  destruct (F64.trunc _) as [v|]; simpl; [|discriminate].
  destruct (Np.np_int32 v) as [b|]; simpl; [|discriminate].
  intros H. inversion H. do 4 eexists. reflexivity.
Qed.

Lemma get_standardized_times_shape ds
    (times : list (string * list (string * attr_value))) :
  _get_standardized_times ds = Ok times ->
  Dict.keys times = ["base_time"; "time_offset"; "time"]
  /\ Forall (fun tm => exists a, Dict.get "value" (snd tm) = Some (ANumpy a)) times.
Proof.
  unfold _get_standardized_times.
  destruct (first_time ds) as [t|]; simpl; [|discriminate].
  intros H. apply standardized_times_shape in H as (b & x & s & u & ->).
  split; [reflexivity|]. repeat constructor; simpl; eauto.
Qed.

(** The loop over the time variables assigns each value to the variable of
    its name, if the file has one, and touches no other variable. *)
Lemma write_times_spec (times : list (string * list (string * attr_value))) :
  NoDup (Dict.keys times) ->
  Forall (fun tm => exists a, Dict.get "value" (snd tm) = Some (ANumpy a)) times ->
  forall nc, exists nc',
    write_times times nc = (nc', Ok tt)
    /\ Dict.keys (NetCDF.variables nc') = Dict.keys (NetCDF.variables nc)
    /\ NetCDF.isopen nc' = NetCDF.isopen nc
    /\ (forall k, ~ In k (Dict.keys times) ->
          Dict.get k (NetCDF.variables nc') = Dict.get k (NetCDF.variables nc))
    /\ (forall tname tinfo a,
          In (tname, tinfo) times ->
          Dict.get "value" tinfo = Some (ANumpy a) ->
          Dict.mem tname (NetCDF.variables nc) = true ->
          exists var, Dict.get tname (NetCDF.variables nc') = Some var
                      /\ NetCDF.var_data var = Some a).
Proof.
  induction times as [|[tname tinfo] rest IH]; intros Hnd Hall nc.
  - exists nc. simpl. repeat split; auto. intros ? ? ? [].
  - inversion Hnd as [|? ? Hnotin Hnd']; subst.
    rewrite list_elem_of_In in Hnotin.
    inversion Hall as [|? ? [a Ha] Hall']; subst. simpl in Ha.
    simpl write_times. rewrite Ha.
    destruct (Dict.mem tname (NetCDF.variables nc)) eqn:Em.
    + destruct (IH Hnd' Hall' (NetCDF.assign tname a nc))
        as (nc' & Hw & Hk & Ho & Hother & Hval).
      exists nc'. split; [exact Hw|]. split; [now rewrite Hk, keys_assign|].
      split; [exact Ho|]. split.
      * intros k Hk'. rewrite Hother by (intros ?; apply Hk'; now right).
        apply get_assign_other. intros ->. apply Hk'. now left.
      * intros tn ti a' [E|Hin] Hv Hm.
        -- inversion E; subst. rewrite Hother by exact Hnotin.
           rewrite Hv in Ha. inversion Ha; subst.
           now apply get_assign_same.
        -- apply (Hval tn ti a' Hin Hv).
           rewrite <- Hm. apply mem_keys, keys_assign.
    + destruct (IH Hnd' Hall' nc) as (nc' & Hw & Hk & Ho & Hother & Hval).
      exists nc'. split; [exact Hw|]. split; [exact Hk|]. split; [exact Ho|].
      split.
      * intros k Hk'. apply Hother. intros ?. apply Hk'. now right.
      * intros tn ti a' [E|Hin] Hv Hm.
        -- inversion E; subst. congruence.
        -- now apply (Hval tn ti a').
Qed.

Lemma write_radar_other ds (var attr k : string) nc :
  k <> var ->
  Dict.get k (NetCDF.variables (write_radar ds var attr nc))
  = Dict.get k (NetCDF.variables nc).
Proof.
  intros Hne. unfold write_radar.
  destruct (Dict.mem var (NetCDF.variables nc)); [|reflexivity].
  destruct (ds_attrs ds !! attr); now apply get_assign_other.
Qed.

Lemma time_name_cases (times : list (string * list (string * attr_value)))
    (tname : string) (tinfo : list (string * attr_value)) :
  Dict.keys times = ["base_time"; "time_offset"; "time"] ->
  In (tname, tinfo) times ->
  tname = "base_time" \/ tname = "time_offset" \/ tname = "time".
Proof.
  intros Hk Hin.
  assert (H : In tname (Dict.keys times))
    by (unfold Dict.keys; apply in_map_iff; exists (tname, tinfo); auto).
  rewrite Hk in H. simpl in H. intuition.
Qed.

(** Where the mapped pass ends without an error the value pass does too,
    closes the file, and the file holds the standardized value in each of
    its time variables. *)
Lemma value_pass_writes_times ds d nc (config : gmap string cfg_value)
    (times : list (string * list (string * attr_value)))
    (mapping : list (string * string)) nc1 :
  _get_standardized_times ds = Ok times ->
  config !! "variable_mapping" = Some (CMapping mapping) ->
  write_mapped_all ds d mapping nc = (nc1, Ok tt) ->
  exists nc2,
    _write_dataset_to_file ds nc d config = (nc2, Ok tt)
    /\ NetCDF.isopen nc2 = false
    /\ forall tname tinfo a,
         In (tname, tinfo) times ->
         Dict.get "value" tinfo = Some (ANumpy a) ->
         Dict.mem tname (NetCDF.variables nc) = true ->
         exists var, Dict.get tname (NetCDF.variables nc2) = Some var
                     /\ NetCDF.var_data var = Some a.
Proof.
  intros Ht Hc Hm. unfold _write_dataset_to_file. rewrite Ht, Hc, Hm.
  destruct (get_standardized_times_shape _ _ Ht) as [Hkeys Hall].
  assert (Hnd : NoDup (Dict.keys times)).
  { rewrite Hkeys. repeat constructor; rewrite list_elem_of_In; simpl;
    intuition discriminate. }
  destruct (write_times_spec times Hnd Hall nc1)
    as (nc' & Hw & Hk & Ho & Hother & Hval).
  rewrite Hw. eexists. split; [reflexivity|]. split; [reflexivity|].
  intros tname tinfo a Hin Hv Hmem.
  destruct (Hval tname tinfo a Hin Hv) as (var & Hg & Hd).
  { rewrite <- Hmem. apply mem_keys.
    now destruct (write_mapped_all_keys _ _ _ _ _ _ Hm). }
  exists var. split; [|exact Hd]. simpl.
  pose proof (time_name_cases _ _ _ Hkeys Hin) as Hn.
  rewrite !write_radar_other;
    [exact Hg | | | ]; destruct Hn as [->|[->| ->]]; discriminate.
Qed.

End ValuePassClaims.

(** C9: an entry of the mapping whose external name is not in the dataset,
    or whose schema name is not among the variables of the file, is passed
    over: the step returns the file as it was, without an error, and the
    mapped pass ends as it would without the entry. *)
Theorem C9_absent_entry_skipped (ds : WriteOutnc.xr_dataset) (d : WriteOutnc.dod)
    (nc : NetCDF.dataset WriteOutnc.attr_value) (xr_name dod_name : string)
    (before after : list (string * string)) :
  WriteOutnc.data_vars ds !! xr_name = None
  \/ Dict.get dod_name (NetCDF.variables nc) = None ->
  WriteOutnc.write_mapped ds d nc xr_name dod_name = Ok nc
  /\ WriteOutnc.write_mapped_all ds d (before ++ (xr_name, dod_name) :: after) nc
     = WriteOutnc.write_mapped_all ds d (before ++ after) nc.
Proof.
  intros H. split.
  - now apply write_mapped_absent.
  - now apply write_mapped_all_skip.
Qed.

(** [lowest_height] is neither in the sample dataset nor in the file. *)
Lemma C9_absent_entry_skipped_witness :
  WriteOutnc.write_mapped Sample.ds Sample.schema Sample.container
    "lowest_height" "lowest_height" = Ok Sample.container
  /\ WriteOutnc.write_mapped_all Sample.ds Sample.schema
       ([("corrected_reflectivity", "refl")]
        ++ ("lowest_height", "lowest_height") :: [("hp_fhc_summer", "hp_fhc")])
       Sample.container
     = WriteOutnc.write_mapped_all Sample.ds Sample.schema
         ([("corrected_reflectivity", "refl")] ++ [("hp_fhc_summer", "hp_fhc")])
         Sample.container.
Proof.
  apply (C9_absent_entry_skipped Sample.ds Sample.schema Sample.container
           "lowest_height" "lowest_height").
  left. vm_compute. reflexivity.
Defined.

Section ValuePassErrors.

Import WriteOutnc Spec.
Implicit Types (nc : NetCDF.dataset attr_value) (ds : xr_dataset) (d : dod).

Lemma replace_nan_error (fill : option Np.scalar) (a : Np.ndarray) (e : exn) :
  replace_nan fill a = Raise e -> e = TypeError lib_msg.
Proof.
  unfold replace_nan, Np.isnan. destruct fill; [|discriminate].
  destruct (Np.adtype a); simpl; try (destruct (Np.any _); discriminate).
  intros H. now inversion H.
Qed.

Lemma write_mapped_time_var ds d nc (xr_name dod_name : string) :
  In dod_name time_vars -> write_mapped ds d nc xr_name dod_name = Ok nc.
Proof.
  intros H. apply in_time_vars in H. unfold write_mapped.
  destruct (data_vars ds !! xr_name); [|reflexivity].
  destruct (Dict.get dod_name _); [|reflexivity]. now rewrite H.
Qed.

Lemma write_mapped_cftime ds d nc (xr_name dod_name : string)
    (a : Np.ndarray) (var : NetCDF.variable attr_value)
    (n : nat) (sh : list nat) (x : Np.scalar) (rest : list Np.scalar) :
  data_vars ds !! xr_name = Some a ->
  Dict.get dod_name (NetCDF.variables nc) = Some var ->
  ~ In dod_name time_vars ->
  Np.mask a = None ->
  Np.shape a = S n :: sh ->
  Np.flat a = x :: rest ->
  PyStr.contains "cftime" (Np.type_str (Np.adtype a) x) = true ->
  exists msg, write_mapped ds d nc xr_name dod_name = Raise (TypeError msg).
Proof.
  intros Ha Hv Ht Hm Hs Hf Hc. unfold write_mapped. rewrite Ha, Hv, Hm.
  destruct (existsb (String.eqb dod_name) time_vars) eqn:E.
  { exfalso. apply Ht. now apply in_time_vars. }
  cbn [Py.bind].
  destruct (replace_nan (NetCDF.var_fill var) a) as [a'|e] eqn:Er.
  - destruct (replace_nan_keeps_head _ _ _ _ _ Hf (cftime_not_nan _ _ Hc) Er)
      as (Hs' & Hd' & rest' & Hf').
    simpl. erewrite check_cftime_raises; [simpl; eauto | | exact Hf' | ].
    + rewrite Hs'. exact Hs.
    + now rewrite Hd'.
  - apply replace_nan_error in Er. subst e. simpl. eauto.
Qed.



Lemma fill_masked_numbers (v : Np.scalar) (l : list Np.scalar) (m : list bool) :
  is_number v -> Forall is_number l -> Forall is_number (Np.fill_masked v l m).
Proof.
  intros Hv Hl. revert m. induction Hl as [|x l Hx Hl IH]; intros [|b m];
    simpl; try constructor; auto.
  now destruct b.
Qed.

Lemma fill_masked_length (v : Np.scalar) (l : list Np.scalar) (m : list bool) :
  length (Np.fill_masked v l m) = length l.
Proof.
  revert m. induction l as [|x l IH]; intros [|b m]; simpl; auto.
Qed.





(** *** The file handle *)

Lemma fold_left_isopen {B : Type} (f : nc_dataset -> B -> nc_dataset)
    (l : list B) nc :
  (forall nc b, NetCDF.isopen (f nc b) = NetCDF.isopen nc) ->
  NetCDF.isopen (fold_left f l nc) = NetCDF.isopen nc.
Proof.
  intros Hf. revert nc. induction l as [|b l IH]; intros nc; simpl;
    [reflexivity|]. now rewrite IH, Hf.
Qed.

Lemma create_variable_from_isopen nc (varname : string) (vinfo : var_spec) nc' :
  create_variable_from nc varname vinfo = Ok nc' ->
  NetCDF.isopen nc' = NetCDF.isopen nc.
Proof.
  unfold create_variable_from.
  destruct (Dict.pop "_FillValue" (attrs vinfo)) as [fill rest].
  destruct (match fill with Some f => attr_truthy f | None => Ok false end) as [b|];
    simpl; [|discriminate].
  intros H. inversion H. rewrite fold_left_isopen by reflexivity.
  now destruct b.
Qed.

Lemma create_variables_isopen (vars : list (string * var_spec)) :
  forall nc nc' res,
  create_variables nc vars = (nc', res) ->
  NetCDF.isopen nc' = NetCDF.isopen nc.
Proof.
  induction vars as [|[n v] vars IH]; intros nc nc' res; simpl.
  - intros H. now inversion H.
  - destruct (create_variable_from nc n v) as [nc1|e] eqn:E.
    + intros H. rewrite (IH _ _ _ H).
      exact (create_variable_from_isopen _ _ _ _ E).
    + intros H. now inversion H.
Qed.

(** The structural pass opens the file and leaves it open, whether it
    returns or raises. *)
Lemma create_nc_structure_open d nc res :
  _create_nc_structure d = (nc, res) -> NetCDF.isopen nc = true.
Proof.
  unfold _create_nc_structure. intros H.
  apply create_variables_isopen in H. rewrite H.
  now rewrite !fold_left_isopen by reflexivity.
Qed.

Lemma write_times_isopen (times : list (string * list (string * attr_value))) :
  forall nc nc' res,
  write_times times nc = (nc', res) -> NetCDF.isopen nc' = NetCDF.isopen nc.
Proof.
  induction times as [|[tn ti] rest IH]; intros nc nc' res; simpl.
  - intros H. now inversion H.
  - destruct (Dict.mem tn (NetCDF.variables nc)); [|apply IH].
    destruct (Dict.get "value" ti) as [[]|];
      try (intros H; now inversion H).
    intros H. now rewrite (IH _ _ _ H).
Qed.

(** The value pass closes the file when it returns and leaves it as it
    found it, open or closed, when it raises. *)
Lemma write_dataset_to_file_isopen ds nc d (config : gmap string cfg_value)
    nc' res :
  _write_dataset_to_file ds nc d config = (nc', res) ->
  match res with
  | Ok _ => NetCDF.isopen nc' = false
  | Raise _ => NetCDF.isopen nc' = NetCDF.isopen nc
  end.
Proof.
  unfold _write_dataset_to_file.
  destruct (_get_standardized_times ds) as [times|e];
    [|intros H; now inversion H].
  destruct (config !! "variable_mapping") as [[s|z|mapping|s]|];
    try (intros H; now inversion H).
  destruct (write_mapped_all ds d mapping nc) as [nc1 [u|e]] eqn:Em.
  - destruct (write_times times nc1) as [nc2 [u2|e]] eqn:Et.
    + intros H. now inversion H.
    + intros H. inversion H; subst.
      rewrite (write_times_isopen _ _ _ _ Et).
      now destruct (write_mapped_all_keys _ _ _ _ _ _ Em).
  - intros H. inversion H; subst.
    now destruct (write_mapped_all_keys _ _ _ _ _ _ Em).
Qed.

End ValuePassErrors.

(** C2, as stated, fails: an array of [datetime64] time stamps mapped to an
    ordinary variable passes the guard, which looks for [cftime] in the
    type name of the first element; the value pass ends without an error
    and the time stamps are written as numbers. *)
Lemma C2_counterexample :
  WriteOutnc.data_vars Sample.ds_datetime !! "scan_start"
  = Some (Np.plain Np.datetime64 [1%nat] [Np.SDatetime (Some Sample.t_scan)])
  /\ exists nc' var,
       WriteOutnc._write_dataset_to_file Sample.ds_datetime Sample.container
         Sample.schema Sample.config = (nc', Ok tt)
       /\ Dict.get "scan_start" (NetCDF.variables nc') = Some var
       /\ NetCDF.var_data var
          = Some (Np.plain Np.float64 [1%nat]
                    [Np.SFloat (F64.Fin (inject_Z Sample.t_scan))]).
Proof.
  split; [vm_compute; reflexivity|].
  eexists. eexists. split; [vm_compute; reflexivity|].
  split; vm_compute; reflexivity.
Qed.

(** C2, amended. (a) An entry of the mapping whose schema name is one of the
    three time variables is passed over, and the mapped pass, however it
    ends, leaves the three time variables of the file as they were. (b) If
    the first element of a non-empty, unmasked mapped array is an object of
    a class with [cftime] in its name, the write of that entry raises
    [TypeError]; elements after the first and other kinds of time values
    are not looked at. (c) If the mapped pass ends without an error, the
    value pass does too, and each of the three standardized values is in
    the time variable of its name, for those of the three variables that
    the file has. *)
Theorem C2_time_values_in_value_pass (ds : WriteOutnc.xr_dataset)
    (d : WriteOutnc.dod) (nc : NetCDF.dataset WriteOutnc.attr_value) :
  (forall xr_name dod_name,
     In dod_name WriteOutnc.time_vars ->
     WriteOutnc.write_mapped ds d nc xr_name dod_name = Ok nc)
  /\ (forall mapping nc1 res tname,
        WriteOutnc.write_mapped_all ds d mapping nc = (nc1, res) ->
        In tname WriteOutnc.time_vars ->
        Dict.get tname (NetCDF.variables nc1)
        = Dict.get tname (NetCDF.variables nc))
  /\ (forall xr_name dod_name a var n sh x rest,
        WriteOutnc.data_vars ds !! xr_name = Some a ->
        Dict.get dod_name (NetCDF.variables nc) = Some var ->
        ~ In dod_name WriteOutnc.time_vars ->
        Np.mask a = None ->
        Np.shape a = S n :: sh ->
        Np.flat a = x :: rest ->
        PyStr.contains "cftime" (Np.type_str (Np.adtype a) x) = true ->
        exists msg,
          WriteOutnc.write_mapped ds d nc xr_name dod_name
          = Raise (TypeError msg))
  /\ (forall (config : gmap string WriteOutnc.cfg_value) times mapping nc1,
        WriteOutnc._get_standardized_times ds = Ok times ->
        config !! "variable_mapping" = Some (WriteOutnc.CMapping mapping) ->
        WriteOutnc.write_mapped_all ds d mapping nc = (nc1, Ok tt) ->
        Dict.keys times = ["base_time"; "time_offset"; "time"]
        /\ exists nc2,
             WriteOutnc._write_dataset_to_file ds nc d config = (nc2, Ok tt)
             /\ forall tname tinfo,
                  In (tname, tinfo) times ->
                  Dict.mem tname (NetCDF.variables nc) = true ->
                  exists a var,
                    Dict.get "value" tinfo = Some (WriteOutnc.ANumpy a)
                    /\ Dict.get tname (NetCDF.variables nc2) = Some var
                    /\ NetCDF.var_data var = Some a).
Proof.
  split; [|split; [|split]].
  - intros. now apply write_mapped_time_var.
  - intros mapping nc1 res tname H Ht.
    exact (write_mapped_all_time_vars _ _ _ _ _ _ _ H Ht).
  - intros. eapply write_mapped_cftime; eauto.
  - intros config times mapping nc1 Ht Hc Hm.
    destruct (get_standardized_times_shape _ _ Ht) as [Hk Hall].
    split; [exact Hk|].
    destruct (value_pass_writes_times _ _ _ _ _ _ _ Ht Hc Hm)
      as (nc2 & Hw & _ & Hv).
    exists nc2. split; [exact Hw|].
    intros tname tinfo Hin Hmem.
    rewrite Forall_forall in Hall.
    destruct (Hall (tname, tinfo)) as [a Ha];
      [now apply list_elem_of_In|]. simpl in Ha.
    destruct (Hv tname tinfo a Hin Ha Hmem) as (var & Hg & Hd).
    eauto.
Qed.

(** The four parts of [C2_time_values_in_value_pass] on the samples: the
    entry [time -> time] is passed over; the mapped pass leaves [time] as
    it was; the [cftime] objects of [ds_cftime] are refused; and after the
    value pass the variable [time] of the file holds 12000 seconds. *)
Lemma C2_time_values_in_value_pass_witness :
  WriteOutnc.write_mapped Sample.ds Sample.schema Sample.container "time" "time"
  = Ok Sample.container
  /\ (exists msg,
        WriteOutnc.write_mapped Sample.ds_cftime Sample.schema Sample.container
          "hp_fhc_summer" "hp_fhc" = Raise (TypeError msg))
  /\ (exists nc2 var,
        WriteOutnc._write_dataset_to_file Sample.ds Sample.container
          Sample.schema Sample.config = (nc2, Ok tt)
        /\ Dict.get "time" (NetCDF.variables nc2) = Some var
        /\ NetCDF.var_data var
           = Some (Np.array1_float64 (F64.Fin 12000))).
Proof.
  destruct (C2_time_values_in_value_pass Sample.ds Sample.schema Sample.container)
    as (Ha & _ & _ & Hc).
  destruct (C2_time_values_in_value_pass Sample.ds_cftime Sample.schema
              Sample.container) as (_ & _ & Hb & _).
  split; [|split].
  - apply Ha. simpl. auto.
  - eapply (Hb "hp_fhc_summer" "hp_fhc").
    + vm_compute. reflexivity.
    + vm_compute. reflexivity.
    + simpl. intuition discriminate.
    + reflexivity.
    + reflexivity.
    + reflexivity.
    + vm_compute. reflexivity.
  - destruct (Hc Sample.config
                (match WriteOutnc._get_standardized_times Sample.ds with
                 | Ok t => t | Raise _ => [] end)
                [("corrected_reflectivity", "refl"); ("hp_fhc_summer", "hp_fhc");
                 ("scan_start", "scan_start"); ("time", "time");
                 ("lowest_height", "lowest_height")]
                (fst (WriteOutnc.write_mapped_all Sample.ds Sample.schema
                        [("corrected_reflectivity", "refl");
                         ("hp_fhc_summer", "hp_fhc");
                         ("scan_start", "scan_start"); ("time", "time");
                         ("lowest_height", "lowest_height")] Sample.container)))
      as (_ & nc2 & Hw & Hv).
    + vm_compute. reflexivity.
    + vm_compute. reflexivity.
    + vm_compute. reflexivity.
    + destruct (Hv "time"
                  [("value", WriteOutnc.ANumpy (Np.array1_float64 (F64.Fin 12000)));
                   ("units", WriteOutnc.AStr "seconds since 2024-01-15 00:00:00 0:00");
                   ("string", WriteOutnc.AStr "2024-01-15 03:20:00 0:00")])
        as (a & var & Hval & Hg & Hd).
      * vm_compute. auto.
      * vm_compute. reflexivity.
      * exists nc2, var. split; [exact Hw|]. split; [exact Hg|].
        rewrite Hd. simpl in Hval. now inversion Hval.
Defined.

Section MaskedFill.

Import WriteOutnc Spec.

Lemma check_fill_number (t : Np.dtype) (v : Np.scalar) :
  is_number v ->
  exists stored, Np.check_fill_value t v = Ok stored /\ is_number stored.
Proof.
  unfold Np.check_fill_value.
  destruct v as [z|[| |q]| | |]; intros H; try destruct H; destruct t; simpl;
    eexists; (split; [reflexivity|exact I]).
Qed.




End MaskedFill.




(** C8, as stated, fails: when the value pass raises, here on [cftime]
    objects, the call ends with the file it opened still open. *)
Lemma C8_counterexample :
  let o := WriteOutnc.write_ds_to_nc Sample.env Sample.ds_cftime
             (Ok Sample.schema) Sample.config in
  WriteOutnc.out_result o
  = Raise (TypeError
      "Attempted to write cftime object for variable hp_fhc_summer. Time variables are not allowed to come from ds.")
  /\ exists nc, WriteOutnc.out_file o = Some nc /\ NetCDF.isopen nc = true.
Proof.
  cbv zeta. split; [vm_compute; reflexivity|].
  eexists. split; vm_compute; reflexivity.
Qed.

(** C8, amended. The file is opened by the structural pass and closed by
    the last statement of the value pass, and by nothing else: when the
    call returns, it has opened the file and the file is closed; when it
    raises after it opened the file, in the structural or in the value
    pass, the file is left open. Errors of the schema parser and of the
    attribute resolver come before the file is opened. *)
Theorem C8_file_closed_on_return_only (env : WriteOutnc.environ)
    (ds : WriteOutnc.xr_dataset) (parsed : result WriteOutnc.dod)
    (config : gmap string WriteOutnc.cfg_value) :
  let o := WriteOutnc.write_ds_to_nc env ds parsed config in
  match WriteOutnc.out_result o, WriteOutnc.out_file o with
  | Ok _, Some nc => NetCDF.isopen nc = false
  | Ok _, None => False
  | Raise _, Some nc => NetCDF.isopen nc = true
  | Raise _, None => True
  end
  /\ (forall e, parsed = Raise e ->
        WriteOutnc.out_file o = None /\ WriteOutnc.out_result o = Raise e)
  /\ (forall d e, parsed = Ok d ->
        WriteOutnc.returned (WriteOutnc._update_dod_globals env d config) = Raise e ->
        WriteOutnc.out_file o = None /\ WriteOutnc.out_result o = Raise e).
Proof.
  cbv zeta. unfold WriteOutnc.write_ds_to_nc. split; [|split].
  - destruct parsed as [d|e]; [|exact I].
    destruct (WriteOutnc.returned _) as [d1|e]; [|exact I].
    destruct (WriteOutnc._update_dod_time_attributes d1 ds) as [d2|e]; [|exact I].
    destruct (WriteOutnc._create_nc_structure d2) as [nc [u|e]] eqn:Ec.
    + apply create_nc_structure_open in Ec.
      destruct (WriteOutnc._write_dataset_to_file _ _ _ _) as [nc' res] eqn:Ew.
      apply write_dataset_to_file_isopen in Ew. simpl.
      destruct res; [exact Ew|]. now rewrite Ew.
    + simpl. exact (create_nc_structure_open _ _ _ Ec).
  - intros e ->. auto.
  - intros d e -> Hr. rewrite Hr. auto.
Qed.

(** On the sample the call returns and the file is closed. *)
Lemma C8_file_closed_on_return_only_witness :
  let o := WriteOutnc.write_ds_to_nc Sample.env Sample.ds (Ok Sample.schema)
             Sample.config in
  WriteOutnc.out_result o = Ok tt
  /\ (exists nc, WriteOutnc.out_file o = Some nc /\ NetCDF.isopen nc = false)
  /\ WriteOutnc.out_file
       (WriteOutnc.write_ds_to_nc Sample.env Sample.ds
          (Raise (ValueError lib_msg)) Sample.config) = None.
Proof.
  cbv zeta.
  pose proof (C8_file_closed_on_return_only Sample.env Sample.ds
                (Ok Sample.schema) Sample.config) as [H _].
  pose proof (C8_file_closed_on_return_only Sample.env Sample.ds
                (Raise (ValueError lib_msg)) Sample.config) as (_ & H2 & _).
  cbv zeta in H, H2.
  assert (Hr : WriteOutnc.out_result
                 (WriteOutnc.write_ds_to_nc Sample.env Sample.ds
                    (Ok Sample.schema) Sample.config) = Ok tt)
    by (vm_compute; reflexivity).
  split; [exact Hr|]. split.
  - rewrite Hr in H.
    destruct (WriteOutnc.out_file _) as [nc|]; [eauto | destruct H].
  - exact (proj1 (H2 _ eq_refl)).
Defined.

(** ** Rounding to a binary format *)

Section Rounding.

Import F64.

Lemma pow2n_pos (e : Z) : 0 < pow2n e.
Proof. unfold pow2n. apply Z.pow_pos_nonneg; lia. Qed.

Lemma pow2d_pos (e : Z) : 0 < pow2d e.
Proof. unfold pow2d. apply Z.pow_pos_nonneg; lia. Qed.

Lemma pow2n_nonneg (e : Z) : 0 <= e -> pow2n e = 2 ^ e /\ pow2d e = 1.
Proof.
  intros H. unfold pow2n, pow2d.
  rewrite Z.max_l by lia. rewrite Z.max_r by lia. auto.
Qed.

Lemma pow2n_neg (e : Z) : e <= 0 -> pow2n e = 1 /\ pow2d e = 2 ^ (- e).
Proof.
  intros H. unfold pow2n, pow2d.
  rewrite Z.max_r by lia. rewrite Z.max_l by lia. auto.
Qed.

(** [2^s = 2^e * 2^(s-e)], on numerators and denominators. *)
Lemma pow2_shift (e s : Z) :
  e <= s -> pow2n s * pow2d e = pow2n e * pow2d s * 2 ^ (s - e).
Proof.
  intros H.
  destruct (Z_le_gt_dec 0 e) as [He|He]; destruct (Z_le_gt_dec 0 s) as [Hs|Hs].
  - destruct (pow2n_nonneg e He) as [-> ->].
    destruct (pow2n_nonneg s Hs) as [-> ->].
    replace (2 ^ s) with (2 ^ e * 2 ^ (s - e))
      by (rewrite <- Z.pow_add_r by lia; f_equal; lia).
    ring.
  - lia.
  - destruct (pow2n_neg e ltac:(lia)) as [-> ->].
    destruct (pow2n_nonneg s Hs) as [-> ->].
    replace (2 ^ (s - e)) with (2 ^ s * 2 ^ (- e))
      by (rewrite <- Z.pow_add_r by lia; f_equal; lia).
    ring.
  - destruct (pow2n_neg e ltac:(lia)) as [-> ->].
    destruct (pow2n_neg s ltac:(lia)) as [-> ->].
    replace (2 ^ (- e)) with (2 ^ (- s) * 2 ^ (s - e))
      by (rewrite <- Z.pow_add_r by lia; f_equal; lia).
    ring.
Qed.

Lemma rne_le (p q n : Z) : 0 < q -> p <= n * q -> rne p q <= n.
Proof.
  intros Hq H. unfold rne.
  pose proof (Z.div_mod p q ltac:(lia)) as Hdm.
  pose proof (Z.mod_pos_bound p q Hq) as Hm.
  assert (Hle : p / q <= n) by nia.
  destruct (Z.eq_dec (p / q) n) as [E|E].
  - assert (p mod q = 0) by nia.
    replace (2 * (p mod q) ?= q) with Lt; [lia|].
    symmetry. apply Z.compare_lt_iff. lia.
  - destruct (2 * (p mod q) ?= q); [destruct (Z.even _)| |]; lia.
Qed.

Lemma rne_ge (p q n : Z) : 0 < q -> n * q <= p -> n <= rne p q.
Proof.
  intros Hq H. unfold rne.
  pose proof (Z.div_mod p q ltac:(lia)) as Hdm.
  pose proof (Z.mod_pos_bound p q Hq) as Hm.
  assert (Hle : n <= p / q) by nia.
  destruct (2 * (p mod q) ?= q); [destruct (Z.even _)| |]; lia.
Qed.

(** An upper bound on the binade of [p / q]. *)
Lemma ilog2_lt (p q j : Z) :
  0 < p -> 0 < q -> p * pow2d j < q * pow2n j -> ilog2 p q < j.
Proof.
  intros Hp Hq H. unfold ilog2.
  set (d := Z.log2 p - Z.log2 q).
  pose proof (Z.log2_spec p Hp) as [Hp1 Hp2].
  pose proof (Z.log2_spec q Hq) as [Hq1 Hq2].
  pose proof (Z.log2_nonneg p) as Hlp. pose proof (Z.log2_nonneg q) as Hlq.
  assert (Hd : d <= j).
  { (* 2^lp <= p < q * 2^j <= 2^(lq+1) * 2^j *)
    destruct (Z_le_gt_dec d j) as [|Hgt]; [assumption|exfalso].
    unfold d in Hgt.
    destruct (Z_le_gt_dec 0 j) as [Hj|Hj].
    - destruct (pow2n_nonneg j Hj) as [En Ed]. rewrite En, Ed in H.
      assert (Hpw : 2 ^ (Z.log2 q + 1 + j) <= 2 ^ Z.log2 p)
        by (apply Z.pow_le_mono_r; lia).
      rewrite Z.pow_add_r in Hpw by lia.
      assert (0 < 2 ^ j) by (apply Z.pow_pos_nonneg; lia).
      rewrite Z.pow_add_r, Z.pow_1_r in Hpw by lia.
      rewrite <- Z.add_1_r in Hq2.
      rewrite Z.pow_add_r, Z.pow_1_r in Hq2 by lia.
      assert (q * 2 ^ j < 2 ^ Z.log2 q * 2 * 2 ^ j)
        by (apply Z.mul_lt_mono_pos_r; lia).
      lia.
    - destruct (pow2n_neg j ltac:(lia)) as [En Ed]. rewrite En, Ed in H.
      assert (Hpw : 2 ^ (Z.log2 q + 1) <= 2 ^ (Z.log2 p + - j))
        by (apply Z.pow_le_mono_r; lia).
      rewrite (Z.pow_add_r 2 (Z.log2 p) (- j)) in Hpw by lia.
      assert (0 < 2 ^ (- j)) by (apply Z.pow_pos_nonneg; lia).
      assert (2 ^ Z.log2 p * 2 ^ (- j) <= p * 2 ^ (- j))
        by (apply Z.mul_le_mono_nonneg_r; lia).
      rewrite <- Z.add_1_r in Hq2. lia. }
  destruct (q * pow2n d <=? p * pow2d d) eqn:E; [|lia].
  apply Z.leb_le in E.
  destruct (Z.eq_dec d j) as [->|]; [|lia].
  exfalso.
  pose proof (pow2n_pos j). pose proof (pow2d_pos j). nia.
Qed.

Lemma expo_le (f : format) (p q j : Z) :
  0 < p -> 0 < q -> p * pow2d j < q * pow2n j ->
  expo f p q <= Z.max (j - prec f) (emin f).
Proof.
  intros Hp Hq H. unfold expo.
  pose proof (ilog2_lt p q j Hp Hq H). lia.
Qed.

(** Rounding is monotone with respect to the points of the grid: between
    two multiples of [2^s], where [2^s] is at least the rounding step, the
    result stays. *)
Lemma round_pos_between (f : format) (p q s lo hi : Z) :
  0 < p -> 0 < q ->
  expo f p q <= s ->
  lo * pow2n s * q <= p * pow2d s ->
  p * pow2d s <= hi * pow2n s * q ->
  hi * pow2n s < 2 ^ emax f * pow2d s ->
  exists m,
    round_pos f p q = Fin (dyadic m (expo f p q))
    /\ lo * 2 ^ (s - expo f p q) <= m <= hi * 2 ^ (s - expo f p q).
Proof.
  intros Hp Hq He Hlo Hhi Hov. unfold round_pos.
  set (e := expo f p q) in *.
  set (m := rne (p * pow2d e) (q * pow2n e)).
  pose proof (pow2_shift e s He) as Hsh.
  pose proof (pow2n_pos e) as Hne. pose proof (pow2d_pos e) as Hde.
  pose proof (pow2n_pos s) as Hns. pose proof (pow2d_pos s) as Hds.
  assert (HK : 0 < 2 ^ (s - e)) by (apply Z.pow_pos_nonneg; lia).
  set (K := 2 ^ (s - e)) in *.
  assert (Hm1 : lo * K <= m).
  { apply rne_ge; [nia|].
    apply (Z.mul_le_mono_pos_r _ _ (pow2d s) Hds).
    replace (lo * K * (q * pow2n e) * pow2d s)
      with (lo * q * (pow2n e * pow2d s * K)) by ring.
    rewrite <- Hsh.
    replace (lo * q * (pow2n s * pow2d e)) with (lo * pow2n s * q * pow2d e)
      by ring.
    replace (p * pow2d e * pow2d s) with (p * pow2d s * pow2d e) by ring.
    apply Z.mul_le_mono_nonneg_r; lia. }
  assert (Hm2 : m <= hi * K).
  { apply rne_le; [nia|].
    apply (Z.mul_le_mono_pos_r _ _ (pow2d s) Hds).
    replace (hi * K * (q * pow2n e) * pow2d s)
      with (hi * q * (pow2n e * pow2d s * K)) by ring.
    rewrite <- Hsh.
    replace (hi * q * (pow2n s * pow2d e)) with (hi * pow2n s * q * pow2d e)
      by ring.
    replace (p * pow2d e * pow2d s) with (p * pow2d s * pow2d e) by ring.
    apply Z.mul_le_mono_nonneg_r; lia. }
  exists m. split; [|lia].
  replace ((0 <=? e) && (2 ^ emax f <=? m * 2 ^ e)) with false; [reflexivity|].
  symmetry. apply andb_false_iff.
  destruct (Z_le_gt_dec 0 e) as [Hpos|Hneg]; [right | left; apply Z.leb_gt; lia].
  apply Z.leb_gt.
  destruct (pow2n_nonneg e Hpos) as [En Ed].
  destruct (pow2n_nonneg s ltac:(lia)) as [Esn Esd].
  rewrite En, Ed, Esn, Esd in *.
  assert (0 < 2 ^ e) by lia.
  assert (m * 2 ^ e <= hi * K * 2 ^ e) by (apply Z.mul_le_mono_nonneg_r; lia).
  nia.
Qed.

End Rounding.

Section RoundingQ.

Import F64.

Lemma dyadic_raw_den (m s : Z) : Zpos (Qden (dyadic_raw m s)) = pow2d s.
Proof. unfold dyadic_raw. simpl. apply Z2Pos.id, pow2d_pos. Qed.

Lemma dyadic_raw_le (m1 e m2 s : Z) :
  e <= s -> m2 * 2 ^ (s - e) <= m1 -> (dyadic_raw m2 s <= dyadic_raw m1 e)%Q.
Proof.
  intros He H. unfold Qle. rewrite !dyadic_raw_den. simpl Qnum.
  pose proof (pow2_shift e s He) as Hsh.
  pose proof (pow2n_pos e). pose proof (pow2d_pos s).
  replace (m2 * pow2n s * pow2d e) with (m2 * (pow2n s * pow2d e)) by ring.
  rewrite Hsh.
  replace (m2 * (pow2n e * pow2d s * 2 ^ (s - e)))
    with (m2 * 2 ^ (s - e) * (pow2n e * pow2d s)) by ring.
  replace (m1 * pow2n e * pow2d s) with (m1 * (pow2n e * pow2d s)) by ring.
  apply Z.mul_le_mono_nonneg_r; nia.
Qed.

Lemma dyadic_raw_ge (m1 e m2 s : Z) :
  e <= s -> m1 <= m2 * 2 ^ (s - e) -> (dyadic_raw m1 e <= dyadic_raw m2 s)%Q.
Proof.
  intros He H. unfold Qle. rewrite !dyadic_raw_den. simpl Qnum.
  pose proof (pow2_shift e s He) as Hsh.
  pose proof (pow2n_pos e). pose proof (pow2d_pos s).
  replace (m2 * pow2n s * pow2d e) with (m2 * (pow2n s * pow2d e)) by ring.
  rewrite Hsh.
  replace (m2 * (pow2n e * pow2d s * 2 ^ (s - e)))
    with (m2 * 2 ^ (s - e) * (pow2n e * pow2d s)) by ring.
  replace (m1 * pow2n e * pow2d s) with (m1 * (pow2n e * pow2d s)) by ring.
  apply Z.mul_le_mono_nonneg_r; nia.
Qed.

(** Rounding a positive rational that lies between two points of a grid at
    least as coarse as its own gives a float between these points. *)
Lemma round_between (f : format) (x : Q) (s lo hi : Z) :
  0 < Qnum x ->
  expo f (Qnum x) (Zpos (Qden x)) <= s ->
  (dyadic_raw lo s <= x)%Q ->
  (x <= dyadic_raw hi s)%Q ->
  hi * pow2n s < 2 ^ emax f * pow2d s ->
  exists y, round f x = Fin y
            /\ (dyadic_raw lo s <= y)%Q /\ (y <= dyadic_raw hi s)%Q.
Proof.
  intros Hx He Hlo Hhi Hov.
  unfold Qle in Hlo, Hhi. rewrite dyadic_raw_den in Hlo, Hhi.
  simpl Qnum in Hlo, Hhi.
  destruct (round_pos_between f (Qnum x) (Zpos (Qden x)) s lo hi)
    as (m & Hr & Hm1 & Hm2); try lia.
  unfold round. destruct (Qnum x) as [|p|p] eqn:En; try lia.
  rewrite Hr. eexists. split; [reflexivity|].
  unfold dyadic. split.
  - rewrite Qred_correct. now apply dyadic_raw_le.
  - rewrite Qred_correct. now apply dyadic_raw_ge.
Qed.

Lemma expo_le_Q (f : format) (x : Q) (j : Z) :
  0 < Qnum x ->
  Qnum x * pow2d j < Zpos (Qden x) * pow2n j ->
  expo f (Qnum x) (Zpos (Qden x)) <= Z.max (j - prec f) (emin f).
Proof. intros Hx H. apply expo_le; lia. Qed.

Lemma Q_between_eq (x : Q) (z : Z) :
  (inject_Z z <= x)%Q -> (x <= inject_Z z)%Q -> Qred x = inject_Z z.
Proof.
  intros H1 H2. rewrite <- inject_Z_Qred. apply Qred_complete.
  now apply Qle_antisym.
Qed.

Lemma dyadic_raw_0 (z : Z) : dyadic_raw z 0 = inject_Z z.
Proof. unfold dyadic_raw, inject_Z. simpl. now rewrite Z.mul_1_r. Qed.

Lemma round_is_reduced (f : format) (x y : Q) :
  round f x = Fin y -> Qred y = y.
Proof.
  unfold round.
  assert (Hp : forall p q y, round_pos f p q = Fin y -> Qred y = y).
  { intros p q y0. unfold round_pos.
    destruct (_ && _); [discriminate|]. intros H. inversion H.
    unfold dyadic. apply Qcanon.Qred_involutive. }
  destruct (Qnum x) as [|p|p].
  - intros H. inversion H. reflexivity.
  - apply Hp.
  - destruct (round_pos f _ _) as [| |q] eqn:E; simpl; try discriminate.
    intros H. inversion H. rewrite Qred_opp. f_equal. exact (Hp _ _ _ E).
Qed.

(** Integers below [2^53] are doubles. *)
Lemma of_Z_exact (z : Z) : 0 <= z < 2 ^ 53 -> of_Z z = Fin (inject_Z z).
Proof.
  intros [H0 H1]. destruct (Z.eq_dec z 0) as [->|Hz]; [reflexivity|].
  unfold of_Z.
  destruct (round_between binary64 (inject_Z z) 0 z z) as (y & Hr & Hy1 & Hy2).
  - simpl. lia.
  - etransitivity; [apply (expo_le_Q binary64 (inject_Z z) 53)|]; simpl; try lia.
    change (pow2d 53) with 1. change (pow2n 53) with (2 ^ 53). lia.
  - rewrite dyadic_raw_0. apply Qle_refl.
  - rewrite dyadic_raw_0. apply Qle_refl.
  - change (pow2n 0) with 1. change (pow2d 0) with 1. simpl emax.
    assert (2 ^ 53 < 2 ^ 1024) by (apply Z.pow_lt_mono_r; lia). lia.
  - rewrite Hr. f_equal. rewrite dyadic_raw_0 in *.
    rewrite <- (round_is_reduced _ _ _ Hr). now apply Q_between_eq.
Qed.

Lemma neg_involutive (x : float) : neg (neg x) = x.
Proof.
  destruct x as [|s|[n d]]; simpl; [reflexivity| |].
  - now rewrite negb_involutive.
  - unfold Qopp. simpl. now rewrite Z.opp_involutive.
Qed.

Lemma round_opp (f : format) (x : Q) : round f (- x) = neg (round f x).
Proof.
  unfold round. destruct x as [[|p|p] d]; simpl; [reflexivity|reflexivity|].
  now rewrite neg_involutive.
Qed.

Lemma of_Z_opp (z : Z) : of_Z (- z) = neg (of_Z z).
Proof.
  unfold of_Z. rewrite <- round_opp. f_equal.
Qed.

Lemma Qdiv_opp_l (x y : Q) : ((- x) / y = - (x / y))%Q.
Proof.
  unfold Qdiv, Qmult, Qopp. simpl. f_equal. ring.
Qed.

Lemma div_neg_l (a : float) (y : Q) :
  0 < Qnum y -> div (neg a) (Fin y) = neg (div a (Fin y)).
Proof.
  intros Hy. destruct a as [|s|x]; simpl; [reflexivity| |].
  - unfold is_neg. destruct (Qnum y <? 0) eqn:E; [apply Z.ltb_lt in E; lia|].
    now rewrite !xorb_false_r.
  - destruct (Qnum y =? 0) eqn:E; [apply Z.eqb_eq in E; lia|].
    rewrite Qdiv_opp_l. apply round_opp.
Qed.

Lemma trunc_neg (x : float) (k : Z) :
  trunc x = Ok k -> trunc (neg x) = Ok (- k).
Proof.
  destruct x as [|s|[n d]]; simpl; try discriminate.
  intros H. inversion H. f_equal. apply Z.quot_opp_l. lia.
Qed.

(** A float between [k] and [k + 1 - 2^(-21)] has integer part [k]. *)
Lemma trunc_between (y : Q) (k : Z) :
  0 <= k ->
  (dyadic_raw (k * 2 ^ 21) (-21) <= y)%Q ->
  (y <= dyadic_raw ((k + 1) * 2 ^ 21 - 1) (-21))%Q ->
  trunc (Fin y) = Ok k.
Proof.
  intros Hk H1 H2. unfold Qle in H1, H2. rewrite dyadic_raw_den in H1, H2.
  simpl Qnum in H1, H2. change (pow2d (-21)) with (2 ^ 21) in *.
  change (pow2n (-21)) with 1 in *.
  destruct y as [n d]. simpl in *.
  assert (Hd : 0 < Zpos d) by lia.
  assert (Hn : k * Zpos d <= n) by nia.
  assert (Hn2 : n < (k + 1) * Zpos d) by nia.
  f_equal. rewrite Z.quot_div_nonneg by nia.
  symmetry. apply (Z.div_unique n (Zpos d) k (n - k * Zpos d)); lia.
Qed.

End RoundingQ.

(** ** Time normalizer *)

Section EpochSeconds.

Import F64.

Lemma wrap_small (bits z : Z) :
  0 < bits -> - 2 ^ (bits - 1) <= z < 2 ^ (bits - 1) -> Np.wrap bits z = z.
Proof.
  intros Hb H. unfold Np.wrap.
  assert (E : 2 ^ bits = 2 * 2 ^ (bits - 1)).
  { replace bits with (1 + (bits - 1)) at 1 by lia.
    rewrite Z.pow_add_r by lia. reflexivity. }
  rewrite Z.mod_small by lia. lia.
Qed.

Lemma wrap64_small (z : Z) : - 2 ^ 63 <= z < 2 ^ 63 -> Np.wrap64 z = z.
Proof. intros H. apply wrap_small; [lia|]. exact H. Qed.

Lemma wrap64_sub_wrap64 (a b : Z) :
  Np.wrap64 (a - Np.wrap64 b) = Np.wrap64 (a - b).
Proof.
  unfold Np.wrap64, Np.wrap. f_equal.
  replace (a - ((b + 2 ^ (64 - 1)) mod 2 ^ 64 - 2 ^ (64 - 1)) + 2 ^ (64 - 1))
    with ((a + 2 * 2 ^ (64 - 1)) - (b + 2 ^ (64 - 1)) mod 2 ^ 64) by lia.
  rewrite Zminus_mod_idemp_r. f_equal. lia.
Qed.

Lemma of_Z_NS_PER_S :
  of_Z WriteOutnc.NS_PER_S = Fin (inject_Z 1000000000).
Proof. reflexivity. Qed.

(** The double made of a nanosecond count below [2^61] lies between the
    multiples of 256 around it. *)
Lemma of_Z_ns (t k : Z) :
  0 < t ->
  k * 1000000000 <= t <= k * 1000000000 + 999999000 ->
  0 <= k <= 2 ^ 31 ->
  exists a, of_Z t = Fin a
    /\ 0 < Qnum a
    /\ k * 1000000000 * Zpos (Qden a) <= Qnum a
    /\ Qnum a <= (k * 1000000000 + 999999232) * Zpos (Qden a).
Proof.
  intros Ht Hk Hk31.
  destruct (Z_lt_ge_dec t (2 ^ 53)) as [Hs|Hb].
  - exists (inject_Z t). split; [apply of_Z_exact; lia|]. simpl. lia.
  - unfold of_Z.
    destruct (round_between binary64 (inject_Z t) 8
                (k * 3906250) (k * 3906250 + 3906247)) as (y & Hr & Hy1 & Hy2).
    + simpl. lia.
    + etransitivity; [apply (expo_le_Q binary64 (inject_Z t) 61)|];
        simpl Qnum; simpl Qden; try lia.
      * change (pow2d 61) with 1. change (pow2n 61) with (2 ^ 61). lia.
      * reflexivity.
    + unfold Qle. rewrite dyadic_raw_den. simpl Qnum. simpl Qden.
      change (pow2d 8) with 1. change (pow2n 8) with 256. lia.
    + unfold Qle. rewrite dyadic_raw_den. simpl Qnum. simpl Qden.
      change (pow2d 8) with 1. change (pow2n 8) with 256. lia.
    + change (pow2d 8) with 1. change (pow2n 8) with 256.
      assert (2 ^ 62 < 2 ^ emax binary64) by (apply Z.pow_lt_mono_r; simpl; lia).
      lia.
    + exists y. split; [exact Hr|].
      unfold Qle in Hy1, Hy2. rewrite dyadic_raw_den in Hy1, Hy2.
      simpl Qnum in Hy1, Hy2.
      change (pow2d 8) with 1 in *. change (pow2n 8) with 256 in *.
      assert (0 < Zpos (Qden y)) by lia.
      assert (1 <= k) by lia.
      repeat split; nia.
Qed.

(** Seconds since the epoch, as the normalizer computes them, for a time
    stamp at or after the epoch that is not within the last microsecond of
    its second. *)
Lemma truediv_trunc_nonneg (t : Z) :
  0 <= t ->
  t / 1000000000 <= 2 ^ 31 ->
  t mod 1000000000 <= 999999000 ->
  trunc (Np.timedelta_truediv t WriteOutnc.NS_PER_S) = Ok (t / 1000000000).
Proof.
  intros Ht Hk Hr.
  destruct (Z.eq_dec t 0) as [->|Hnz]; [reflexivity|].
  pose proof (Z.div_mod t 1000000000 ltac:(lia)) as Hdm.
  pose proof (Z.mod_pos_bound t 1000000000 ltac:(lia)) as Hm.
  set (k := t / 1000000000) in *.
  assert (Hk0 : 0 <= k) by (apply Z.div_pos; lia).
  destruct (of_Z_ns t k) as (a & Ha & Hpos & Hlo & Hhi); try lia.
  unfold Np.timedelta_truediv. rewrite Ha, of_Z_NS_PER_S.
  unfold div. simpl (Qnum (inject_Z _) =? 0).
  destruct a as [an ad]. simpl in Hpos, Hlo, Hhi.
  set (x := ((an # ad) / inject_Z 1000000000)%Q).
  assert (Hxn : Qnum x = an * 1) by reflexivity.
  assert (Hxd : Zpos (Qden x) = Zpos ad * 1000000000) by reflexivity.
  destruct (round_between binary64 x (-21) (k * 2 ^ 21) ((k + 1) * 2 ^ 21 - 1))
    as (y & Hy & Hy1 & Hy2).
  - rewrite Hxn. lia.
  - etransitivity; [apply (expo_le_Q binary64 x 32)|].
    + rewrite Hxn. lia.
    + rewrite Hxn, Hxd. change (pow2d 32) with 1. change (pow2n 32) with (2 ^ 32).
      nia.
    + reflexivity.
  - unfold Qle. rewrite dyadic_raw_den. simpl Qnum at 1. rewrite Hxn, Hxd.
    change (pow2d (-21)) with (2 ^ 21). change (pow2n (-21)) with 1. nia.
  - unfold Qle. rewrite dyadic_raw_den. simpl Qnum at 2. rewrite Hxn, Hxd.
    change (pow2d (-21)) with (2 ^ 21). change (pow2n (-21)) with 1. nia.
  - change (pow2d (-21)) with (2 ^ 21). change (pow2n (-21)) with 1.
    assert (2 ^ 54 < 2 ^ emax binary64) by (apply Z.pow_lt_mono_r; simpl; lia).
    assert (0 < 2 ^ 21) by lia. nia.
  - rewrite Hy. now apply trunc_between.
Qed.

Lemma truediv_opp (t : Z) :
  Np.timedelta_truediv (- t) WriteOutnc.NS_PER_S
  = neg (Np.timedelta_truediv t WriteOutnc.NS_PER_S).
Proof.
  unfold Np.timedelta_truediv. rewrite of_Z_opp, of_Z_NS_PER_S.
  apply div_neg_l. simpl. lia.
Qed.

(** The same on both sides of the epoch: the whole seconds of [t],
    truncated toward zero. *)
Lemma truediv_trunc (t : Z) :
  - 2 ^ 31 <= Z.quot t 1000000000 <= 2 ^ 31 ->
  Z.abs (Z.rem t 1000000000) <= 999999000 ->
  trunc (Np.timedelta_truediv t WriteOutnc.NS_PER_S)
  = Ok (Z.quot t 1000000000).
Proof.
  intros Hq Hr. destruct (Z_le_gt_dec 0 t) as [Hpos|Hneg].
  - rewrite Z.quot_div_nonneg in * by lia.
    rewrite Z.rem_mod_nonneg in Hr by lia.
    apply truediv_trunc_nonneg; lia.
  - replace t with (- (- t)) by lia.
    rewrite truediv_opp, Z.quot_opp_l by lia.
    apply trunc_neg.
    replace t with (- (- t)) in Hq, Hr by lia.
    rewrite Z.quot_opp_l in Hq by lia. rewrite Z.rem_opp_l in Hr by lia.
    rewrite Z.quot_div_nonneg in * by lia.
    rewrite Z.rem_mod_nonneg in Hr by lia.
    apply truediv_trunc_nonneg; lia.
Qed.

(** Without the condition on the last microsecond the double of a
    nanosecond count still lies within the second it belongs to. *)
Lemma of_Z_ns_wide (t k : Z) :
  0 < t ->
  k * 1000000000 <= t <= k * 1000000000 + 999999999 ->
  0 <= k <= 2 ^ 31 ->
  exists a, of_Z t = Fin a
    /\ 0 < Qnum a
    /\ k * 1000000000 * Zpos (Qden a) <= Qnum a
    /\ Qnum a <= (k + 1) * 1000000000 * Zpos (Qden a).
Proof.
  intros Ht Hk Hk31.
  destruct (Z_lt_ge_dec t (2 ^ 53)) as [Hs|Hb].
  - exists (inject_Z t). split; [apply of_Z_exact; lia|]. simpl. lia.
  - unfold of_Z.
    destruct (round_between binary64 (inject_Z t) 8
                (k * 3906250) (k * 3906250 + 3906250)) as (y & Hr & Hy1 & Hy2).
    + simpl. lia.
    + etransitivity; [apply (expo_le_Q binary64 (inject_Z t) 61)|];
        simpl Qnum; simpl Qden; try lia.
      * change (pow2d 61) with 1. change (pow2n 61) with (2 ^ 61). lia.
      * reflexivity.
    + unfold Qle. rewrite dyadic_raw_den. simpl Qnum. simpl Qden.
      change (pow2d 8) with 1. change (pow2n 8) with 256. lia.
    + unfold Qle. rewrite dyadic_raw_den. simpl Qnum. simpl Qden.
      change (pow2d 8) with 1. change (pow2n 8) with 256. lia.
    + change (pow2d 8) with 1. change (pow2n 8) with 256.
      assert (2 ^ 62 < 2 ^ emax binary64) by (apply Z.pow_lt_mono_r; simpl; lia).
      lia.
    + exists y. split; [exact Hr|].
      unfold Qle in Hy1, Hy2. rewrite dyadic_raw_den in Hy1, Hy2.
      simpl Qnum in Hy1, Hy2.
      change (pow2d 8) with 1 in *. change (pow2n 8) with 256 in *.
      assert (0 < Zpos (Qden y)) by lia.
      assert (1 <= k) by lia.
      repeat split; nia.
Qed.

(** A float between [k] and [k + 1] has integer part [k] or [k + 1]. *)
Lemma trunc_between_wide (y : Q) (k : Z) :
  0 <= k ->
  (dyadic_raw (k * 2 ^ 21) (-21) <= y)%Q ->
  (y <= dyadic_raw ((k + 1) * 2 ^ 21) (-21))%Q ->
  exists v, trunc (Fin y) = Ok v /\ k <= v <= k + 1.
Proof.
  intros Hk H1 H2. unfold Qle in H1, H2. rewrite dyadic_raw_den in H1, H2.
  simpl Qnum in H1, H2. change (pow2d (-21)) with (2 ^ 21) in *.
  change (pow2n (-21)) with 1 in *.
  destruct y as [n d]. simpl in *.
  assert (Hd : 0 < Zpos d) by lia.
  assert (Hn : k * Zpos d <= n) by nia.
  assert (Hn2 : n <= (k + 1) * Zpos d) by nia.
  eexists. split; [reflexivity|].
  rewrite Z.quot_div_nonneg by nia. split.
  - apply Z.div_le_lower_bound; lia.
  - apply Z.div_le_upper_bound; lia.
Qed.

(** Seconds since the epoch, as the normalizer computes them, for any time
    stamp at or after the epoch: the whole seconds, or one more. *)
Lemma truediv_trunc_wide_nonneg (t : Z) :
  0 <= t ->
  t / 1000000000 <= 2 ^ 31 ->
  exists v, trunc (Np.timedelta_truediv t WriteOutnc.NS_PER_S) = Ok v
            /\ t / 1000000000 <= v <= t / 1000000000 + 1.
Proof.
  intros Ht Hk.
  destruct (Z.eq_dec t 0) as [->|Hnz].
  { exists 0. split; [reflexivity|]. change (0 / 1000000000) with 0. lia. }
  pose proof (Z.div_mod t 1000000000 ltac:(lia)) as Hdm.
  pose proof (Z.mod_pos_bound t 1000000000 ltac:(lia)) as Hm.
  set (k := t / 1000000000) in *.
  assert (Hk0 : 0 <= k) by (apply Z.div_pos; lia).
  destruct (of_Z_ns_wide t k) as (a & Ha & Hpos & Hlo & Hhi); try lia.
  unfold Np.timedelta_truediv. rewrite Ha, of_Z_NS_PER_S.
  unfold div. simpl (Qnum (inject_Z _) =? 0).
  destruct a as [an ad]. simpl in Hpos, Hlo, Hhi.
  set (x := ((an # ad) / inject_Z 1000000000)%Q).
  assert (Hxn : Qnum x = an * 1) by reflexivity.
  assert (Hxd : Zpos (Qden x) = Zpos ad * 1000000000) by reflexivity.
  destruct (round_between binary64 x (-21) (k * 2 ^ 21) ((k + 1) * 2 ^ 21))
    as (y & Hy & Hy1 & Hy2).
  - rewrite Hxn. lia.
  - etransitivity; [apply (expo_le_Q binary64 x 32)|].
    + rewrite Hxn. lia.
    + rewrite Hxn, Hxd. change (pow2d 32) with 1. change (pow2n 32) with (2 ^ 32).
      nia.
    + reflexivity.
  - unfold Qle. rewrite dyadic_raw_den. simpl Qnum at 1. rewrite Hxn, Hxd.
    change (pow2d (-21)) with (2 ^ 21). change (pow2n (-21)) with 1. nia.
  - unfold Qle. rewrite dyadic_raw_den. simpl Qnum at 2. rewrite Hxn, Hxd.
    change (pow2d (-21)) with (2 ^ 21). change (pow2n (-21)) with 1. nia.
  - change (pow2d (-21)) with (2 ^ 21). change (pow2n (-21)) with 1.
    assert (2 ^ 54 < 2 ^ emax binary64) by (apply Z.pow_lt_mono_r; simpl; lia).
    assert (0 < 2 ^ 21) by lia. nia.
  - rewrite Hy. now apply trunc_between_wide.
Qed.

(** On both sides of the epoch the seconds computed are within one of the
    whole seconds of [t]. *)
Lemma truediv_trunc_wide (t : Z) :
  - 2 ^ 31 <= Z.quot t 1000000000 <= 2 ^ 31 ->
  exists v, trunc (Np.timedelta_truediv t WriteOutnc.NS_PER_S) = Ok v
            /\ Z.quot t 1000000000 - 1 <= v <= Z.quot t 1000000000 + 1.
Proof.
  intros Hq. destruct (Z_le_gt_dec 0 t) as [Hpos|Hneg].
  - rewrite Z.quot_div_nonneg in * by lia.
    destruct (truediv_trunc_wide_nonneg t) as (v & Hv & Hb); try lia.
    exists v. split; [exact Hv|lia].
  - replace t with (- (- t)) in Hq |- * by lia.
    rewrite Z.quot_opp_l in Hq |- * by lia.
    rewrite Z.quot_div_nonneg in Hq |- * by lia.
    destruct (truediv_trunc_wide_nonneg (- t)) as (v & Hv & Hb); try lia.
    exists (- v). split; [|lia].
    rewrite truediv_opp. now apply trunc_neg.
Qed.

End EpochSeconds.

Section Calendar.

Import WriteOutnc Spec.

(** The two calendar conversions are inverse to each other on day
    numbers. *)
Lemma days_from_civil_from_days (z : Z) :
  let '(y, m, d) := civil_from_days z in days_from_civil y m d = z.
Proof.
  unfold civil_from_days, days_from_civil.
  set (zz := z + 719468).
  set (era := zz / 146097).
  set (doe := zz - era * 146097).
  assert (Hdoe : 0 <= doe <= 146096).
  { unfold doe, era. pose proof (Z.div_mod zz 146097 ltac:(lia)).
    pose proof (Z.mod_pos_bound zz 146097 ltac:(lia)). lia. }
  set (yoe := (doe - doe / 1460 + doe / 36524 - doe / 146096) / 365).
  assert (Hy : 0 <= yoe <= 399
               /\ 0 <= doe - (365 * yoe + yoe / 4 - yoe / 100) <= 365).
  { unfold yoe. clearbody doe. clear -Hdoe. Z.div_mod_to_equations. lia. }
  destruct Hy as [Hyoe Hdoy].
  set (doy := doe - (365 * yoe + yoe / 4 - yoe / 100)) in *.
  set (mp := (5 * doy + 2) / 153).
  assert (Hmp : 0 <= mp <= 11).
  { unfold mp. clearbody doy. clear -Hdoy. Z.div_mod_to_equations. lia. }
  assert (Hrel : doy = doe - (365 * yoe + yoe / 4 - yoe / 100)) by reflexivity.
  assert (Hdz : doe = z + 719468 - era * 146097) by reflexivity.
  clearbody mp doy yoe doe era.
  destruct (mp <? 10) eqn:E1; [apply Z.ltb_lt in E1 | apply Z.ltb_ge in E1].
  - replace (mp + 3 <=? 2) with false by (symmetry; apply Z.leb_gt; lia).
    replace (2 <? mp + 3) with true by (symmetry; apply Z.ltb_lt; lia).
    replace ((yoe + era * 400) / 400) with era
      by (Z.div_mod_to_equations; lia).
    Z.div_mod_to_equations. lia.
  - replace (mp - 9 <=? 2) with true by (symmetry; apply Z.leb_le; lia).
    replace (2 <? mp - 9) with false by (symmetry; apply Z.ltb_ge; lia).
    replace ((yoe + era * 400 + 1 - 1) / 400) with era
      by (Z.div_mod_to_equations; lia).
    Z.div_mod_to_equations. lia.
Qed.

(** [midnight64]: the start of the day of [s], in microseconds. *)
Lemma midnight64_eq (s : Z) :
  let dt := datetime_of_seconds s in
  datetime64_us_of_datetime
    {| year := year dt; month := month dt; day := day dt;
       hour := 0; minute := 0; second := 0 |}
  = s / 86400 * 86400 * 1000000.
Proof.
  cbv zeta. unfold datetime_of_seconds, datetime64_us_of_datetime.
  pose proof (days_from_civil_from_days (s / 86400)) as H.
  destruct (civil_from_days (s / 86400)) as [[y m] d]. simpl.
  rewrite H. lia.
Qed.

(** The date of [midnight] is the date of the scan, its time is zero. *)
Lemma utc_midnight_eq (t : Z) :
  let dt := utc_datetime t in
  utc_midnight t
  = {| year := year dt; month := month dt; day := day dt;
       hour := 0; minute := 0; second := 0 |}.
Proof.
  cbv zeta. unfold utc_midnight, utc_datetime, datetime_of_seconds, DAY_NS.
  replace (86400 * (t / (86400 * 1000000000)) / 86400)
    with (t / 1000000000 / 86400).
  2:{ rewrite Z.div_div by lia. rewrite (Z.mul_comm 86400 (t / _)).
      rewrite Z.div_mul by lia. f_equal; lia. }
  replace ((86400 * (t / (86400 * 1000000000))) mod 86400) with 0.
  2:{ rewrite Z.mul_comm. now rewrite Z.mod_mul by lia. }
  destruct (civil_from_days _) as [[y m] d]. reflexivity.
Qed.

Lemma strftime_scan (dt : datetime) :
  strftime "%Y-%m-%d %H:%M:%S 0:00" dt = scan_format dt.
Proof. reflexivity. Qed.

Lemma strftime_midnight (dt : datetime) :
  strftime "%Y-%m-%d 00:00:00 0:00" dt
  = scan_format {| year := year dt; month := month dt; day := day dt;
                   hour := 0; minute := 0; second := 0 |}.
Proof. reflexivity. Qed.

End Calendar.

Section TimeOfDay.

Import F64 WriteOutnc Spec.

(** Seconds since midnight: the double nearest to the exact quotient, in
    [0, 86400). *)
Lemma time_of_day (x : Z) :
  0 <= x < DAY_NS ->
  exists y, Np.timedelta_truediv x NS_PER_S = Fin y
    /\ (0 <= y)%Q /\ (y < 86400)%Q
    /\ Fin y = round binary64 (x # 1000000000).
Proof.
  unfold DAY_NS. intros [H0 H1].
  unfold Np.timedelta_truediv.
  rewrite of_Z_exact by lia. rewrite of_Z_NS_PER_S.
  unfold div. simpl (Qnum (inject_Z 1000000000) =? 0).
  assert (Ex : (inject_Z x / inject_Z 1000000000)%Q = x # 1000000000).
  { unfold Qdiv, Qmult, Qinv, inject_Z. simpl. now rewrite Z.mul_1_r. }
  rewrite Ex.
  destruct (Z.eq_dec x 0) as [->|Hx].
  { exists 0%Q. repeat split; try reflexivity. discriminate. }
  destruct (round_between binary64 (x # 1000000000) (-36) 0 (86400 * 2 ^ 36 - 1))
    as (y & Hy & Hy1 & Hy2).
  - simpl. lia.
  - etransitivity; [apply (expo_le_Q binary64 (x # 1000000000) 17)|];
      simpl Qnum; simpl Qden; try lia.
    + change (pow2d 17) with 1. change (pow2n 17) with (2 ^ 17). lia.
    + reflexivity.
  - unfold Qle. rewrite dyadic_raw_den. simpl Qnum. simpl Qden.
    change (pow2d (-36)) with (2 ^ 36). change (pow2n (-36)) with 1. lia.
  - unfold Qle. rewrite dyadic_raw_den. simpl Qnum. simpl Qden.
    change (pow2d (-36)) with (2 ^ 36). change (pow2n (-36)) with 1. lia.
  - change (pow2d (-36)) with (2 ^ 36). change (pow2n (-36)) with 1.
    assert (2 ^ 54 < 2 ^ emax binary64) by (apply Z.pow_lt_mono_r; simpl; lia).
    assert (0 < 2 ^ 36) by lia. nia.
  - exists y. split; [exact Hy|].
    unfold Qle in Hy1, Hy2. rewrite dyadic_raw_den in Hy1, Hy2.
    simpl Qnum in Hy1, Hy2.
    change (pow2d (-36)) with (2 ^ 36) in *. change (pow2n (-36)) with 1 in *.
    destruct y as [yn yd]. simpl in Hy1, Hy2.
    repeat split.
    + unfold Qle. simpl. lia.
    + unfold Qlt. simpl. lia.
    + now rewrite Hy.
Qed.

(** The difference of the time stamp and the midnight before it, computed
    on 64 bits. *)
Lemma since_midnight_ns (t : Z) :
  - 2 ^ 63 <= t < 2 ^ 63 ->
  let dt := datetime_of_seconds (t / NS_PER_S) in
  let midnight :=
    {| year := year dt; month := month dt; day := day dt;
       hour := 0; minute := 0; second := 0 |} in
  Np.wrap64 (t - Np.wrap64 (datetime64_us_of_datetime midnight * 1000))
  = t mod DAY_NS.
Proof.
  intros Ht. cbv zeta. rewrite midnight64_eq, wrap64_sub_wrap64.
  unfold NS_PER_S, DAY_NS. rewrite Z.div_div by lia.
  pose proof (Z.div_mod t (1000000000 * 86400) ltac:(lia)) as Hdm.
  pose proof (Z.mod_pos_bound t (1000000000 * 86400) ltac:(lia)) as Hm.
  replace (86400 * 1000000000) with (1000000000 * 86400) by lia.
  rewrite wrap64_small; lia.
Qed.

(** The epoch offset in seconds is a finite number of moderate size for
    every 64-bit time stamp. *)
Lemma truediv_finite_nonneg (t : Z) :
  0 <= t < 2 ^ 63 ->
  exists v, trunc (Np.timedelta_truediv t NS_PER_S) = Ok v /\ 0 <= v <= 2 ^ 34.
Proof.
  intros [H0 H1]. destruct (Z.eq_dec t 0) as [->|Hnz].
  { exists 0. split; [reflexivity | lia]. }
  unfold Np.timedelta_truediv, of_Z at 1.
  destruct (round_between binary64 (inject_Z t) 10 0 (2 ^ 53))
    as (a & Ha & Ha1 & Ha2).
  - simpl. lia.
  - etransitivity; [apply (expo_le_Q binary64 (inject_Z t) 63)|];
      simpl Qnum; simpl Qden; try lia.
    + change (pow2d 63) with 1. change (pow2n 63) with (2 ^ 63). lia.
    + reflexivity.
  - unfold Qle. rewrite dyadic_raw_den. simpl Qnum. simpl Qden.
    change (pow2d 10) with 1. change (pow2n 10) with (2 ^ 10). lia.
  - unfold Qle. rewrite dyadic_raw_den. simpl Qnum. simpl Qden.
    change (pow2d 10) with 1. change (pow2n 10) with (2 ^ 10). lia.
  - change (pow2d 10) with 1. change (pow2n 10) with (2 ^ 10).
    assert (2 ^ 64 < 2 ^ emax binary64) by (apply Z.pow_lt_mono_r; simpl; lia).
    lia.
  - rewrite Ha, of_Z_NS_PER_S.
    unfold Qle in Ha1, Ha2. rewrite dyadic_raw_den in Ha1, Ha2.
    simpl Qnum in Ha1, Ha2.
    change (pow2d 10) with 1 in *. change (pow2n 10) with (2 ^ 10) in *.
    destruct a as [an ad]. simpl in Ha1, Ha2.
    unfold div. simpl (Qnum (inject_Z 1000000000) =? 0).
    set (x := ((an # ad) / inject_Z 1000000000)%Q).
    assert (Hxn : Qnum x = an * 1) by reflexivity.
    assert (Hxd : Zpos (Qden x) = Zpos ad * 1000000000) by reflexivity.
    destruct (Z.eq_dec an 0) as [->|Han].
    { exists 0. split; [reflexivity | lia]. }
    destruct (round_between binary64 x (-19) 0 (2 ^ 53))
      as (y & Hy & Hy1 & Hy2).
    + rewrite Hxn. lia.
    + etransitivity; [apply (expo_le_Q binary64 x 34)|].
      * rewrite Hxn. lia.
      * rewrite Hxn, Hxd. change (pow2d 34) with 1.
        change (pow2n 34) with (2 ^ 34). nia.
      * reflexivity.
    + unfold Qle. rewrite dyadic_raw_den. simpl Qnum at 1. rewrite Hxn, Hxd.
      change (pow2d (-19)) with (2 ^ 19). change (pow2n (-19)) with 1. nia.
    + unfold Qle. rewrite dyadic_raw_den. simpl Qnum at 2. rewrite Hxn, Hxd.
      change (pow2d (-19)) with (2 ^ 19). change (pow2n (-19)) with 1. nia.
    + change (pow2d (-19)) with (2 ^ 19). change (pow2n (-19)) with 1.
      assert (2 ^ 54 < 2 ^ emax binary64) by (apply Z.pow_lt_mono_r; simpl; lia).
      assert (0 < 2 ^ 19) by lia. nia.
    + rewrite Hy. simpl. eexists. split; [reflexivity|].
      unfold Qle in Hy1, Hy2. rewrite dyadic_raw_den in Hy1, Hy2.
      simpl Qnum in Hy1, Hy2.
      change (pow2d (-19)) with (2 ^ 19) in *. change (pow2n (-19)) with 1 in *.
      destruct y as [yn yd]. simpl in *.
      assert (0 <= yn) by lia.
      rewrite Z.quot_div_nonneg by lia. split.
      * apply Z.div_pos; lia.
      * apply Z.div_le_upper_bound; nia.
Qed.

Lemma truediv_finite (t : Z) :
  - 2 ^ 63 < t < 2 ^ 63 ->
  exists v, trunc (Np.timedelta_truediv t NS_PER_S) = Ok v
            /\ - 2 ^ 34 <= v <= 2 ^ 34.
Proof.
  intros Ht. destruct (Z_le_gt_dec 0 t) as [Hp|Hn].
  - destruct (truediv_finite_nonneg t) as (v & Hv & Hb); [lia|].
    exists v. split; [exact Hv | lia].
  - destruct (truediv_finite_nonneg (- t)) as (v & Hv & Hb); [lia|].
    exists (- v). split; [|lia].
    replace t with (- (- t)) by lia. rewrite truediv_opp.
    now apply trunc_neg.
Qed.

End TimeOfDay.

Section Normalizer.

Import F64 WriteOutnc Spec.

(** The dictionary of the normalizer, for every 64-bit time stamp. *)
Lemma standardized_times_eq (t : Z) :
  - 2 ^ 63 < t < 2 ^ 63 ->
  exists v y,
    trunc (Np.timedelta_truediv t NS_PER_S) = Ok v
    /\ - 2 ^ 34 <= v <= 2 ^ 34
    /\ Np.timedelta_truediv (t mod DAY_NS) NS_PER_S = Fin y
    /\ standardized_times t
       = Ok [ ("base_time",
                [ ("value", ANumpy (Np.plain Np.int32 [] [Np.SInt (Np.wrap 32 v)]));
                  ("string", AStr (scan_format (utc_datetime t)));
                  ("units", AStr "seconds since 1970-1-1 0:00:00 0:00") ]);
              ("time_offset",
                [ ("value", ANumpy (Np.array1_float64 (Fin 0)));
                  ("units",
                   AStr ("seconds since " +:+ scan_format (utc_datetime t))) ]);
              ("time",
                [ ("value", ANumpy (Np.array1_float64 (Fin y)));
                  ("units",
                   AStr ("seconds since " +:+ scan_format (utc_midnight t)));
                  ("string", AStr (scan_format (utc_datetime t))) ]) ].
Proof.
  intros Ht.
  destruct (truediv_finite t Ht) as (v & Hv & Hvb).
  assert (Hm : 0 <= t mod DAY_NS < DAY_NS)
    by (apply Z.mod_pos_bound; reflexivity).
  destruct (time_of_day _ Hm) as (y & Hy & _).
  exists v, y. split; [exact Hv|]. split; [exact Hvb|]. split; [exact Hy|].
  unfold standardized_times.
  rewrite Z.sub_0_r, wrap64_small by lia. rewrite Hv.
  cbv beta iota zeta delta [Py.bind].
  rewrite since_midnight_ns by lia. rewrite Hy.
  unfold Np.np_int32.
  replace ((- 2 ^ 63 <=? v) && (v <? 2 ^ 63)) with true.
  2:{ symmetry. apply andb_true_iff. split; [apply Z.leb_le | apply Z.ltb_lt]; lia. }
  rewrite strftime_scan, strftime_midnight.
  pose proof (utc_midnight_eq t) as Hmid. cbv zeta in Hmid.
  unfold utc_datetime in *. unfold NS_PER_S. rewrite <- Hmid. reflexivity.
Qed.

Lemma all_below_spec (n : nat) (P : Z -> bool) :
  all_below n P = true -> forall z, 0 <= z < Z.of_nat n -> P z = true.
Proof.
  induction n as [|k IH]; intros H z Hz; [lia|].
  simpl in H. apply andb_true_iff in H as [Hk Hr].
  destruct (Z.eq_dec z (Z.of_nat k)) as [->|Hne]; [exact Hk|].
  apply IH; [exact Hr | lia].
Qed.

Lemma zero_pad_2_length (n : Z) :
  0 <= n < 100 -> String.length (zero_pad 2 n) = 2%nat.
Proof.
  intros H.
  assert (Hall : all_below 100
            (fun z => Nat.eqb (String.length (zero_pad 2 z)) 2) = true)
    by (vm_compute; reflexivity).
  now apply Nat.eqb_eq, (all_below_spec _ _ Hall n).
Qed.

(** Years of the 64-bit range have four digits. *)
Lemma zero_pad_4_length (n : Z) :
  1600 <= n <= 2400 -> String.length (zero_pad 4 n) = 4%nat.
Proof.
  intros H.
  assert (Hall : all_below 801
            (fun z => Nat.eqb (String.length (zero_pad 4 (1600 + z))) 4) = true)
    by (vm_compute; reflexivity).
  replace n with (1600 + (n - 1600)) by lia.
  apply Nat.eqb_eq, (all_below_spec _ _ Hall (n - 1600)). lia.
Qed.

(** The fields of the date and time of a 64-bit time stamp. *)
Lemma utc_datetime_fields (t : Z) :
  - 2 ^ 63 < t < 2 ^ 63 ->
  let dt := utc_datetime t in
  1600 <= year dt <= 2400 /\ 1 <= month dt <= 12 /\ 1 <= day dt <= 31
  /\ 0 <= hour dt <= 23 /\ 0 <= minute dt <= 59 /\ 0 <= second dt <= 59.
Proof.
  intros Ht. cbv zeta. unfold utc_datetime, datetime_of_seconds.
  set (s := t / 1000000000).
  assert (Hs : - 9223372037 <= s <= 9223372036).
  { unfold s. Z.div_mod_to_equations. lia. }
  clearbody s.
  unfold civil_from_days.
  set (z := s / 86400).
  assert (Hz : - 106752 <= z <= 106751).
  { unfold z. Z.div_mod_to_equations. lia. }
  set (zz := z + 719468).
  set (era := zz / 146097).
  set (doe := zz - era * 146097).
  assert (Hera : 4 <= era <= 5).
  { unfold era, zz. Z.div_mod_to_equations. lia. }
  assert (Hdoe : 0 <= doe <= 146096).
  { unfold doe, era. Z.div_mod_to_equations. lia. }
  set (yoe := (doe - doe / 1460 + doe / 36524 - doe / 146096) / 365).
  assert (Hy : 0 <= yoe <= 399
               /\ 0 <= doe - (365 * yoe + yoe / 4 - yoe / 100) <= 365).
  { unfold yoe. clearbody doe. clear -Hdoe. Z.div_mod_to_equations. lia. }
  destruct Hy as [Hyoe Hdoy].
  set (doy := doe - (365 * yoe + yoe / 4 - yoe / 100)) in *.
  set (mp := (5 * doy + 2) / 153).
  assert (Hmp : 0 <= mp <= 11).
  { unfold mp. clearbody doy. clear -Hdoy. Z.div_mod_to_equations. lia. }
  assert (Hd : 1 <= doy - (153 * mp + 2) / 5 + 1 <= 31).
  { unfold mp. clearbody doy. clear -Hdoy. Z.div_mod_to_equations. lia. }
  clearbody mp doy yoe era. simpl.
  repeat split;
    try (destruct (mp <? 10) eqn:E;
         [apply Z.ltb_lt in E | apply Z.ltb_ge in E];
         try destruct (_ <=? 2); lia);
    clear; Z.div_mod_to_equations; lia.
Qed.

Lemma string_length_app (a b : string) :
  String.length (a +:+ b) = (String.length a + String.length b)%nat.
Proof. induction a as [|c a IH]; simpl; [reflexivity | now rewrite IH]. Qed.

(** [YYYY-MM-DD HH:MM:SS 0:00] has 24 characters. *)
Lemma scan_format_length (dt : datetime) :
  1600 <= year dt <= 2400 -> 0 <= month dt < 100 -> 0 <= day dt < 100 ->
  0 <= hour dt < 100 -> 0 <= minute dt < 100 -> 0 <= second dt < 100 ->
  String.length (scan_format dt) = 24%nat.
Proof.
  intros. unfold scan_format.
  rewrite !string_length_app, zero_pad_4_length, !zero_pad_2_length by assumption.
  reflexivity.
Qed.

End Normalizer.

(** C3, as stated, fails. One nanosecond before 2023-11-14T22:13:21Z the
    offset from the epoch is 1700000000 whole seconds, which fits 32 bits,
    but the 64-bit float in which the seconds are computed has no room for
    the nanosecond and holds 1700000001, and that is what [base_time]
    gets. *)
Lemma C3_counterexample :
  exists times base,
    WriteOutnc.standardized_times 1700000000999999999 = Ok times
    /\ Dict.get "base_time" times = Some base
    /\ Dict.get "value" base
       = Some (WriteOutnc.ANumpy
                 (Np.plain Np.int32 [] [Np.SInt 1700000001]))
    /\ Z.quot 1700000000999999999 (10 ^ 9) = 1700000000
    /\ F64.trunc (Np.timedelta_truediv 1700000000999999999 WriteOutnc.NS_PER_S)
       = Ok 1700000001.
Proof.
  eexists; eexists; (split; [vm_compute; reflexivity|]);
    repeat split; reflexivity.
Qed.

(** C3, amended. For a time stamp [t], a 64-bit count of nanoseconds
    since the epoch, whenever the normalizer returns, [time.value] is the
    double nearest to the seconds between the start of the UTC day of [t]
    and [t], and lies in [0, 86400); and [base_time.value] is the
    whole-second offset of [t] from the epoch, truncated toward zero, if
    that offset fits 32 bits and [t] is not within the last microsecond
    before a whole second (the first after it, for a [t] before the epoch).
    The normalizer does return when the offset is strictly inside the range
    of 32 bits: the integer it hands to [numpy.int32] is then within one of
    the offset and fits. *)
Theorem C3_standardized_time_values (t : Z) :
  - 2 ^ 63 < t < 2 ^ 63 ->
  (forall times,
     WriteOutnc.standardized_times t = Ok times ->
     exists base time_ b y,
       Dict.get "base_time" times = Some base
       /\ Dict.get "value" base
          = Some (WriteOutnc.ANumpy (Np.plain Np.int32 [] [Np.SInt b]))
       /\ Dict.get "time" times = Some time_
       /\ Dict.get "value" time_
          = Some (WriteOutnc.ANumpy
                    (Np.plain Np.float64 [1%nat] [Np.SFloat (F64.Fin y)]))
       /\ (0 <= y)%Q /\ (y < 86400)%Q
       /\ F64.Fin y
          = F64.round F64.binary64 ((t mod Spec.DAY_NS) # 1000000000)
       /\ (- 2 ^ 31 <= Z.quot t 1000000000 < 2 ^ 31 ->
           Z.abs (Z.rem t 1000000000) <= 999999000 ->
           b = Z.quot t 1000000000))
  /\ (- 2 ^ 31 < Z.quot t 1000000000 < 2 ^ 31 - 1 ->
      exists times base v,
        WriteOutnc.standardized_times t = Ok times
        /\ F64.trunc (Np.timedelta_truediv t WriteOutnc.NS_PER_S) = Ok v
        /\ - 2 ^ 31 <= v < 2 ^ 31
        /\ Z.quot t 1000000000 - 1 <= v <= Z.quot t 1000000000 + 1
        /\ Dict.get "base_time" times = Some base
        /\ Dict.get "value" base
           = Some (WriteOutnc.ANumpy (Np.plain Np.int32 [] [Np.SInt v]))).
Proof.
  intros Ht.
  destruct (standardized_times_eq t Ht) as (v & y & Hv & Hvb & Hy & Heq).
  assert (Hm : 0 <= t mod Spec.DAY_NS < Spec.DAY_NS)
    by (apply Z.mod_pos_bound; reflexivity).
  destruct (time_of_day _ Hm) as (y' & Hy' & Hy0 & Hy1 & Hyr).
  rewrite Hy in Hy'. inversion Hy'; subst y'.
  split.
  - intros times Hti. rewrite Heq in Hti. injection Hti as <-.
    do 4 eexists.
    split; [reflexivity|]. split; [reflexivity|].
    split; [reflexivity|]. split; [reflexivity|].
    split; [exact Hy0|]. split; [exact Hy1|]. split; [exact Hyr|].
    intros Hq Hr.
    rewrite truediv_trunc in Hv by lia. inversion Hv; subst v.
    apply wrap_small; lia.
  - intros Hq.
    destruct (truediv_trunc_wide t) as (v' & Hv' & Hb'); [lia|].
    rewrite Hv in Hv'. injection Hv' as <-.
    do 3 eexists. split; [exact Heq|]. split; [exact Hv|].
    split; [lia|]. split; [exact Hb'|]. split; [reflexivity|].
    cbn [Dict.get]. simpl. rewrite wrap_small by lia. reflexivity.
Qed.

(** At 2024-01-15T03:20:00Z: 1705288800 seconds since the epoch, 12000
    seconds since midnight. *)
Lemma C3_standardized_time_values_witness :
  exists times base time_,
    WriteOutnc.standardized_times Sample.t_scan = Ok times
    /\ Dict.get "base_time" times = Some base
    /\ Dict.get "value" base
       = Some (WriteOutnc.ANumpy (Np.plain Np.int32 [] [Np.SInt 1705288800]))
    /\ Dict.get "time" times = Some time_
    /\ Dict.get "value" time_
       = Some (WriteOutnc.ANumpy
                 (Np.plain Np.float64 [1%nat] [Np.SFloat (F64.Fin 12000)])).
Proof.
  destruct (C3_standardized_time_values Sample.t_scan) as [Hall Hret].
  - vm_compute. split; reflexivity.
  - destruct Hret as (times & _ & _ & Ht & _).
    + vm_compute. split; reflexivity.
    + destruct (Hall times Ht)
        as (base & time_ & b & y & Hb & Hbv & Htm & Htv & _ & _ & Hy & Hq).
      exists times, base, time_.
      split; [exact Ht|]. split; [exact Hb|]. split.
      * rewrite Hbv, Hq;
          [ reflexivity
          | vm_compute; split; [discriminate | reflexivity]
          | vm_compute; discriminate ].
      * split; [exact Htm|]. rewrite Htv, Hy. vm_compute. reflexivity.
Defined.

(** C4: for a time stamp [t], a 64-bit count of nanoseconds since the
    epoch, whenever the normalizer returns, [time_offset] is the
    one-element array [[0.0]] with the units [seconds since] the date and
    time of [t], and [time] is a one-element array with the units
    [seconds since] the midnight of the day of [t]; both are written as
    [YYYY-MM-DD HH:MM:SS 0:00], 24 characters, and the midnight has the
    date of [t] and the time 00:00:00. The normalizer does return when the
    whole-second offset of [t] from the epoch is strictly inside the range
    of 32 bits, the integer handed to [numpy.int32] then fitting. *)
Theorem C4_time_offset_and_time_units (t : Z) :
  - 2 ^ 63 < t < 2 ^ 63 ->
  (forall times,
     WriteOutnc.standardized_times t = Ok times ->
     exists b x,
       Dict.get "base_time" times
       = Some [ ("value", WriteOutnc.ANumpy b);
                ("string", WriteOutnc.AStr (Spec.scan_format (Spec.utc_datetime t)));
                ("units", WriteOutnc.AStr "seconds since 1970-1-1 0:00:00 0:00") ]
       /\ Dict.get "time_offset" times
          = Some [ ("value",
                    WriteOutnc.ANumpy
                      (Np.plain Np.float64 [1%nat] [Np.SFloat (F64.Fin 0)]));
                   ("units",
                    WriteOutnc.AStr
                      ("seconds since "
                       +:+ Spec.scan_format (Spec.utc_datetime t))) ]
       /\ Dict.get "time" times
          = Some [ ("value",
                    WriteOutnc.ANumpy (Np.plain Np.float64 [1%nat] [Np.SFloat x]));
                   ("units",
                    WriteOutnc.AStr
                      ("seconds since "
                       +:+ Spec.scan_format (Spec.utc_midnight t)));
                   ("string",
                    WriteOutnc.AStr (Spec.scan_format (Spec.utc_datetime t))) ])
  /\ (- 2 ^ 31 < Z.quot t 1000000000 < 2 ^ 31 - 1 ->
      exists times v,
        WriteOutnc.standardized_times t = Ok times
        /\ F64.trunc (Np.timedelta_truediv t WriteOutnc.NS_PER_S) = Ok v
        /\ - 2 ^ 31 <= v < 2 ^ 31)
  /\ Spec.utc_midnight t
     = {| WriteOutnc.year := WriteOutnc.year (Spec.utc_datetime t);
          WriteOutnc.month := WriteOutnc.month (Spec.utc_datetime t);
          WriteOutnc.day := WriteOutnc.day (Spec.utc_datetime t);
          WriteOutnc.hour := 0; WriteOutnc.minute := 0;
          WriteOutnc.second := 0 |}
  /\ Spec.scan_format (Spec.utc_midnight t)
     = WriteOutnc.zero_pad 4 (WriteOutnc.year (Spec.utc_datetime t)) +:+ "-"
       +:+ WriteOutnc.zero_pad 2 (WriteOutnc.month (Spec.utc_datetime t)) +:+ "-"
       +:+ WriteOutnc.zero_pad 2 (WriteOutnc.day (Spec.utc_datetime t))
       +:+ " 00:00:00 0:00"
  /\ String.length (Spec.scan_format (Spec.utc_datetime t)) = 24%nat
  /\ String.length (Spec.scan_format (Spec.utc_midnight t)) = 24%nat.
Proof.
  intros Ht.
  destruct (standardized_times_eq t Ht) as (v & y & Hv & _ & _ & Heq).
  pose proof (utc_midnight_eq t) as Hmid. cbv zeta in Hmid.
  pose proof (utc_datetime_fields t Ht) as Hf. cbv zeta in Hf.
  split.
  { intros times Hti. rewrite Heq in Hti. injection Hti as <-.
    do 2 eexists.
    split; [reflexivity|]. split; reflexivity. }
  split.
  { intros Hq.
    destruct (truediv_trunc_wide t) as (v' & Hv' & Hb'); [lia|].
    rewrite Hv in Hv'. injection Hv' as <-.
    do 2 eexists. split; [exact Heq|]. split; [exact Hv|]. lia. }
  split; [exact Hmid|]. split; [now rewrite Hmid|]. split.
  - apply scan_format_length; lia.
  - rewrite Hmid.
    apply scan_format_length;
      cbn [WriteOutnc.year WriteOutnc.month WriteOutnc.day WriteOutnc.hour
           WriteOutnc.minute WriteOutnc.second]; lia.
Qed.

(** The scenario of the specification: for [t] = 2024-01-15T03:20:00Z,
    [time.value] is [[12000.0]] and [time.units] is
    [seconds since 2024-01-15 00:00:00 0:00]; [time_offset] counts from the
    scan time itself. *)
Lemma C4_time_offset_and_time_units_witness :
  exists times,
    WriteOutnc.standardized_times Sample.t_scan = Ok times
    /\ Dict.get "time_offset" times
       = Some [ ("value",
                 WriteOutnc.ANumpy
                   (Np.plain Np.float64 [1%nat] [Np.SFloat (F64.Fin 0)]));
                ("units",
                 WriteOutnc.AStr "seconds since 2024-01-15 03:20:00 0:00") ]
    /\ Dict.get "time" times
       = Some [ ("value",
                 WriteOutnc.ANumpy
                   (Np.plain Np.float64 [1%nat] [Np.SFloat (F64.Fin 12000)]));
                ("units",
                 WriteOutnc.AStr "seconds since 2024-01-15 00:00:00 0:00");
                ("string", WriteOutnc.AStr "2024-01-15 03:20:00 0:00") ]
    /\ Dict.get "base_time" times
       = Some [ ("value",
                 WriteOutnc.ANumpy (Np.plain Np.int32 [] [Np.SInt 1705288800]));
                ("string", WriteOutnc.AStr "2024-01-15 03:20:00 0:00");
                ("units", WriteOutnc.AStr "seconds since 1970-1-1 0:00:00 0:00") ].
Proof.
  destruct (C4_time_offset_and_time_units Sample.t_scan) as (_ & Hret & _).
  - vm_compute. split; reflexivity.
  - destruct Hret as (times & v & Ht & _).
    + vm_compute. split; reflexivity.
    + exists times. split; [exact Ht|].
      vm_compute in Ht. injection Ht as Ht. subst times.
      repeat split; reflexivity.
Defined.

(** * Batching, tallying and the category tables *)

Section ChunkedFacts.
Context {A : Type}.
Import RunHpDask.

Lemma chunked_from_concat (seq buf : list A) (size : Z) :
  concat (chunked_from buf seq size) = (buf ++ seq)%list.
Proof.
  revert buf; induction seq as [|item rest IH]; intros buf; simpl.
  - destruct buf; simpl; [reflexivity|]. now rewrite !app_nil_r.
  - destruct (Z.of_nat (length (buf ++ [item])) =? size).
    + simpl. rewrite IH. simpl. now rewrite <- app_assoc.
    + rewrite IH. now rewrite <- app_assoc.
Qed.

Lemma chunked_from_nonempty (seq buf : list A) (size : Z) :
  Forall (fun c => c <> []) (chunked_from buf seq size).
Proof.
  revert buf; induction seq as [|item rest IH]; intros buf; simpl.
  - destruct buf; constructor; [discriminate|constructor].
  - destruct (Z.of_nat (length (buf ++ [item])) =? size).
    + constructor; [|apply IH]. destruct buf; discriminate.
    + apply IH.
Qed.

Lemma chunked_from_sizes (seq buf : list A) (size : Z) :
  0 < size -> Z.of_nat (length buf) < size ->
  Forall (fun c => Z.of_nat (length c) = size)
    (removelast (chunked_from buf seq size))
  /\ Forall (fun c => 0 < Z.of_nat (length c) <= size)
       (chunked_from buf seq size).
Proof.
  intros Hs; revert buf; induction seq as [|item rest IH]; intros buf Hb; simpl.
  - destruct buf as [|b buf']; simpl; split; constructor; try constructor.
    all: simpl in *; lia.
  - destruct (Z.of_nat (length (buf ++ [item])) =? size) eqn:E.
    + apply Z.eqb_eq in E.
      destruct (IH [] ltac:(simpl; lia)) as [H1 H2].
      split; [|constructor; [lia|exact H2]].
      destruct (chunked_from [] rest size) eqn:Ec; [constructor|].
      change (removelast ((buf ++ [item])%list :: l :: l0))
        with ((buf ++ [item])%list :: removelast (l :: l0)).
      constructor; assumption.
    + apply Z.eqb_neq in E. apply IH.
      rewrite length_app in *. simpl in *. lia.
Qed.

Lemma chunked_from_single (seq buf : list A) (size : Z) :
  (size <= Z.of_nat (length buf) \/ Z.of_nat (length (buf ++ seq)) < size) ->
  (buf ++ seq)%list <> [] ->
  chunked_from buf seq size = [(buf ++ seq)%list].
Proof.
  revert buf; induction seq as [|item rest IH]; intros buf Hs Hne; simpl.
  - rewrite app_nil_r in *. destruct buf; [contradiction|reflexivity].
  - assert (Hlen : Z.of_nat (length (buf ++ [item])) = Z.of_nat (length buf) + 1)
      by (rewrite length_app; simpl; lia).
    destruct (Z.of_nat (length (buf ++ [item])) =? size) eqn:E.
    + apply Z.eqb_eq in E. exfalso.
      rewrite length_app in Hs. simpl in Hs. lia.
    + rewrite IH.
      * now rewrite <- app_assoc.
      * rewrite <- app_assoc. simpl.
        destruct Hs as [Hs|Hs]; [left; lia|right; exact Hs].
      * destruct buf; discriminate.
Qed.

End ChunkedFacts.

Section TallyFacts.
Import RunHpDask.

Lemma record_outcome_ok (t : tally) (o : future_outcome) :
  tally_ok t -> tally_ok (record_outcome t o).
Proof.
  intros (Hd & Hg & Hs).
  destruct o as [[name|]|e]; unfold tally_ok; simpl;
    rewrite List.filter_app, !length_app; simpl; lia.
Qed.

Lemma fold_record_ok (os : list future_outcome) (t : tally) :
  tally_ok t -> tally_ok (fold_left record_outcome os t).
Proof.
  revert t; induction os as [|o os IH]; intros t Ht; simpl; [exact Ht|].
  apply IH, record_outcome_ok, Ht.
Qed.

Lemma fold_record_length (os : list future_outcome) (t : tally) :
  length (results (fold_left record_outcome os t))
  = (length (results t) + length os)%nat.
Proof.
  revert t; induction os as [|o os IH]; intros t; simpl; [lia|].
  rewrite IH. destruct o as [res|e]; simpl; rewrite length_app; simpl; lia.
Qed.

Lemma fold_record_good (os : list future_outcome) (t : tally) :
  good (fold_left record_outcome os t)
  = good t + Z.of_nat (length (List.filter succeeded os)).
Proof.
  revert t; induction os as [|o os IH]; intros t; simpl; [lia|].
  rewrite IH. destruct o as [[name|]|e]; simpl; lia.
Qed.

End TallyFacts.

Section BatchFacts.
Import RunHpDask.
Variable run : string -> future_outcome.
Variable completion : list string -> list string.
Hypothesis completion_perm : forall l, Permutation (completion l) l.

Lemma count_perm {B : Type} (f : B -> bool) (l l' : list B) :
  Permutation l l' -> length (List.filter f l) = length (List.filter f l').
Proof.
  induction 1; simpl; try congruence.
  - destruct (f x); simpl; congruence.
  - destruct (f x), (f y); reflexivity.
Qed.

Lemma process_batch_good (t : tally) (batch : list string) :
  good (process_batch run completion t batch)
  = good t + Z.of_nat (length (List.filter succeeded (map run batch))).
Proof.
  unfold process_batch. rewrite fold_record_good.
  rewrite (count_perm succeeded (map run (completion batch)) (map run batch));
    [reflexivity|].
  apply Permutation_map, completion_perm.
Qed.

Lemma process_batch_length (t : tally) (batch : list string) :
  length (results (process_batch run completion t batch))
  = (length (results t) + length batch)%nat.
Proof.
  unfold process_batch. rewrite fold_record_length, length_map.
  now rewrite (Permutation_length (completion_perm batch)).
Qed.

Lemma fold_batches (chunks : list (list string)) (t : tally) :
  tally_ok t ->
  let t' := fold_left (process_batch run completion) chunks t in
  tally_ok t'
  /\ length (results t') = (length (results t) + length (concat chunks))%nat
  /\ good t'
     = good t
       + Z.of_nat (length (List.filter succeeded (map run (concat chunks)))).
Proof.
  revert t; induction chunks as [|c cs IH]; intros t Ht; simpl.
  - repeat split; try apply Ht; lia.
  - destruct (IH (process_batch run completion t c)) as (H1 & H2 & H3).
    { apply fold_record_ok, Ht. }
    split; [exact H1|]. split.
    + rewrite H2, process_batch_length, length_app. lia.
    + rewrite H3, process_batch_good, map_app, List.filter_app, length_app. lia.
Qed.

End BatchFacts.

(** X1. The chunks that [chunked] yields are a partition of the sequence:
    put one after the other they give the sequence back, in order, and no
    chunk is empty, whatever the size asked for. *)
Theorem chunked_partition {A : Type} (seq : list A) (size : Z) :
  concat (RunHpDask.chunked seq size) = seq
  /\ Forall (fun c => c <> []) (RunHpDask.chunked seq size).
Proof.
  split.
  - unfold RunHpDask.chunked. now rewrite chunked_from_concat.
  - apply chunked_from_nonempty.
Qed.

(** X2. For a positive size, every chunk but the last one has exactly
    [size] items, and every chunk, the last one too, has between one and
    [size] items. *)
Theorem chunked_sizes {A : Type} (seq : list A) (size : Z) :
  0 < size ->
  Forall (fun c => Z.of_nat (length c) = size)
    (removelast (RunHpDask.chunked seq size))
  /\ Forall (fun c => 0 < Z.of_nat (length c) <= size)
       (RunHpDask.chunked seq size).
Proof.
  intros Hs. apply chunked_from_sizes; simpl; lia.
Qed.

Lemma chunked_sizes_witness :
  RunHpDask.chunked ["a"; "b"; "c"] 2 = [["a"; "b"]; ["c"]]
  /\ Forall (fun c => Z.of_nat (length c) = 2)
       (removelast (RunHpDask.chunked ["a"; "b"; "c"] 2))
  /\ Forall (fun c => 0 < Z.of_nat (length c) <= 2)
       (RunHpDask.chunked ["a"; "b"; "c"] 2).
Proof.
  split; [reflexivity|].
  apply (chunked_sizes ["a"; "b"; "c"] 2). lia.
Defined.

(** X3. A size that is zero or negative, or larger than the number of
    items, gives a single chunk that holds every item: the test
    [len(buf) == size] never succeeds. *)
Theorem chunked_one_chunk {A : Type} (seq : list A) (size : Z) :
  seq <> [] ->
  size <= 0 \/ Z.of_nat (length seq) < size ->
  RunHpDask.chunked seq size = [seq].
Proof.
  intros Hne Hs. unfold RunHpDask.chunked.
  rewrite chunked_from_single; [reflexivity| |exact Hne].
  simpl. destruct Hs; [left|right]; lia.
Qed.

Lemma chunked_one_chunk_witness :
  RunHpDask.chunked ["a"; "b"; "c"] 0 = [["a"; "b"; "c"]].
Proof.
  apply (chunked_one_chunk ["a"; "b"; "c"] 0); [discriminate|left; lia].
Defined.

(** X4. When [as_completed] yields each future of a batch once, in any
    order, [batch_process_dask] returns one result per file, its counters
    satisfy [done = len(files)] and [good + bad = done], [good] is the
    number of files whose future returned an output name, whatever the batch
    size and the order of completion, and the summary that [main] computes
    from the results again gives the same [good] and [bad]. *)
Theorem batch_tally (run : string -> RunHpDask.future_outcome)
    (completion : list string -> list string)
    (files : list string) (batch_size : Z) :
  (forall l, Permutation (completion l) l) ->
  let t := RunHpDask.batch_loop run completion files batch_size in
  length (RunHpDask.batch_process_dask run completion files batch_size)
  = length files
  /\ RunHpDask.done t = Z.of_nat (length files)
  /\ RunHpDask.good t + RunHpDask.bad t = RunHpDask.done t
  /\ RunHpDask.good t
     = Z.of_nat (length (List.filter RunHpDask.succeeded (map run files)))
  /\ RunHpDask.summary (RunHpDask.results t)
     = (RunHpDask.good t, RunHpDask.bad t).
Proof.
  intros Hperm t.
  assert (H0 : RunHpDask.tally_ok RunHpDask.tally_init)
    by (repeat split; reflexivity).
  destruct (fold_batches run completion Hperm
              (RunHpDask.chunked files batch_size) RunHpDask.tally_init H0)
    as (Hok & Hlen & Hgood).
  fold (RunHpDask.batch_loop run completion files batch_size) in Hok, Hlen, Hgood.
  fold t in Hok, Hlen, Hgood.
  unfold RunHpDask.chunked in Hlen, Hgood.
  rewrite chunked_from_concat in Hlen, Hgood. simpl in Hlen, Hgood.
  destruct Hok as (Hd & Hg & Hs).
  unfold RunHpDask.batch_process_dask. fold t.
  repeat split.
  - exact Hlen.
  - rewrite Hd, Hlen. reflexivity.
  - exact Hs.
  - exact Hgood.
  - unfold RunHpDask.summary. rewrite <- Hg. f_equal. lia.
Qed.

Lemma batch_tally_witness :
  RunHpDask.batch_process_dask SampleRun.run SampleRun.completion
    SampleRun.files 2 = [None; Some "a_hp.nc"; None]
  /\ RunHpDask.good
       (RunHpDask.batch_loop SampleRun.run SampleRun.completion
          SampleRun.files 2) = 1
  /\ RunHpDask.summary
       (RunHpDask.batch_process_dask SampleRun.run SampleRun.completion
          SampleRun.files 2) = (1, 2).
Proof.
  destruct (batch_tally SampleRun.run SampleRun.completion SampleRun.files 2)
    as (_ & _ & _ & Hg & Hs).
  - intros l. symmetry. apply Permutation_rev.
  - split; [reflexivity|]. split; [exact Hg|]. exact Hs.
Defined.

(** * The category tables, the field filter and the metadata update *)

Section IndexFacts.
Import HpProcessing.

Lemma index_ok (table : list Z) (i v : Z) :
  index table i = Ok v ->
  In v table /\ - Z.of_nat (length table) <= i < Z.of_nat (length table).
Proof.
  unfold index.
  destruct ((- Z.of_nat (length table) <=? i) && (i <? Z.of_nat (length table)))
    eqn:E; [|discriminate].
  destruct (nth_error table _) eqn:En; [|discriminate].
  intros H; injection H as <-. apply andb_true_iff in E.
  destruct E as [E1 E2]. apply Z.leb_le in E1. apply Z.ltb_lt in E2.
  split; [eapply nth_error_In, En|lia].
Qed.

Lemma index_in_range (table : list Z) (i : Z) :
  - Z.of_nat (length table) <= i < Z.of_nat (length table) ->
  exists v, index table i = Ok v.
Proof.
  intros Hi. unfold index.
  replace ((- Z.of_nat (length table) <=? i) && (i <? Z.of_nat (length table)))
    with true
    by (symmetry; apply andb_true_iff;
        split; [apply Z.leb_le|apply Z.ltb_lt]; lia).
  destruct (nth_error table _) eqn:En; [eauto|].
  apply nth_error_None in En. destruct (i <? 0) eqn:E; lia.
Qed.

Lemma index_out_of_range (table : list Z) (i : Z) :
  ~ (- Z.of_nat (length table) <= i < Z.of_nat (length table)) ->
  index table i = Raise (IndexError lib_msg).
Proof.
  intros Hi. unfold index.
  destruct ((- Z.of_nat (length table) <=? i) && (i <? Z.of_nat (length table)))
    eqn:E; [|reflexivity].
  apply andb_true_iff in E. destruct E as [E1 E2].
  apply Z.leb_le in E1. apply Z.ltb_lt in E2. lia.
Qed.

Lemma try_all_ok {B C : Type} (f : B -> result C) (l : list B) (out : list C) :
  try_all f l = Ok out -> Forall2 (fun x y => f x = Ok y) l out.
Proof.
  revert out; induction l as [|x xs IH]; intros out; simpl.
  - intros H; injection H as <-. constructor.
  - destruct (f x) eqn:Ex; [|discriminate].
    destruct (try_all f xs) eqn:Exs; [|discriminate].
    intros H; injection H as <-. constructor; [exact Ex|now apply IH].
Qed.

Lemma try_all_total {B C : Type} (f : B -> result C) (l : list B) :
  Forall (fun x => exists y, f x = Ok y) l -> exists out, try_all f l = Ok out.
Proof.
  induction 1 as [|x xs [y Hy] _ [out IH]]; simpl; [eauto|].
  rewrite Hy, IH. eauto.
Qed.

Lemma try_all_raise {B C : Type} (f : B -> result C) (l : list B) (e : exn) :
  try_all f l = Raise e -> exists x, In x l /\ f x = Raise e.
Proof.
  induction l as [|x xs IH]; simpl; [discriminate|].
  destruct (f x) eqn:Ex.
  - destruct (try_all f xs) eqn:Exs; [discriminate|].
    intros H; injection H as <-. destruct (IH eq_refl) as (y & Hy & Hf). eauto.
  - intros H; injection H as <-. eauto.
Qed.

End IndexFacts.

(** The three tables of the module. *)
Lemma tables_in_range (table : list Z) :
  In table [HpProcessing.csu_summer_to_hp; HpProcessing.csu_winter_to_hp;
            HpProcessing.pyart_to_hp] ->
  Forall (fun v => HpProcessing.valid_min <= v <= HpProcessing.valid_max) table
  /\ nth_error table 0 = Some 0.
Proof.
  intros [<-|[<-|[<-|[]]]]; split; try reflexivity;
    repeat constructor; unfold HpProcessing.valid_min, HpProcessing.valid_max; lia.
Qed.

(** X5. Whatever categories the classification library returns, when the
    lookup in one of the three tables succeeds there is one HydroPhase
    category per input category, each between the [valid_min] 0 and the
    [valid_max] 4 that [add_classification_field] declares, and the library's
    category 0 is always mapped to 0. *)
Theorem classified_values_valid (table scores out : list Z) :
  In table [HpProcessing.csu_summer_to_hp; HpProcessing.csu_winter_to_hp;
            HpProcessing.pyart_to_hp] ->
  HpProcessing.take table scores = Ok out ->
  length out = length scores
  /\ Forall (fun v => HpProcessing.valid_min <= v <= HpProcessing.valid_max) out
  /\ Forall2 (fun s v => s = 0 -> v = 0) scores out.
Proof.
  intros Ht H. apply try_all_ok in H.
  destruct (tables_in_range table Ht) as [Hr H0].
  split; [symmetry; eapply Forall2_length, H|].
  split.
  - induction H as [|s v ss vs Hsv _ IH]; constructor; [|exact IH].
    apply index_ok in Hsv. destruct Hsv as [Hin _].
    rewrite List.Forall_forall in Hr. apply Hr, Hin.
  - induction H as [|s v ss vs Hsv _ IH]; constructor; [|exact IH].
    intros ->. unfold HpProcessing.index in Hsv.
    destruct table as [|t0 tr]; [discriminate|].
    simpl in H0. injection H0 as ->.
    assert (E : (- Z.of_nat (length (0 :: tr)) <=? 0)
                && (0 <? Z.of_nat (length (0 :: tr))) = true).
    { apply andb_true_iff. simpl length.
      split; [apply Z.leb_le|apply Z.ltb_lt]; lia. }
    rewrite E in Hsv. simpl in Hsv. congruence.
Qed.

Lemma classified_values_valid_witness :
  HpProcessing.classify_summer [0; 5; 10; -1] = Ok [0; 4; 1; 1]
  /\ Forall (fun v => HpProcessing.valid_min <= v <= HpProcessing.valid_max)
       [0; 4; 1; 1].
Proof.
  split; [reflexivity|].
  apply (classified_values_valid HpProcessing.csu_summer_to_hp
           [0; 5; 10; -1] [0; 4; 1; 1]); [left; reflexivity|reflexivity].
Defined.

(** X6. The lookup [table[scores]] succeeds exactly when every category
    [s] satisfies [-n <= s < n] for a table of [n] entries (a negative
    category counts from the end of the table and is not rejected); otherwise
    it raises IndexError. *)
Theorem take_succeeds_iff_in_range (table scores : list Z) :
  match HpProcessing.take table scores with
  | Ok out =>
      Forall (fun s => - Z.of_nat (length table) <= s < Z.of_nat (length table))
        scores
  | Raise e =>
      e = IndexError lib_msg
      /\ ~ Forall (fun s => - Z.of_nat (length table) <= s
                            < Z.of_nat (length table)) scores
  end.
Proof.
  unfold HpProcessing.take.
  destruct (try_all (HpProcessing.index table) scores) as [out|e] eqn:E.
  - apply try_all_ok in E.
    induction E as [|s v ss vs Hsv _ IH]; constructor; [|exact IH].
    apply index_ok in Hsv. apply Hsv.
  - split.
    + apply try_all_raise in E. destruct E as (s & _ & Hs).
      unfold HpProcessing.index in Hs.
      destruct (_ && _) in Hs; [destruct (nth_error _ _) in Hs|];
        congruence.
    + intros Hall.
      destruct (try_all_total (HpProcessing.index table) scores) as [out Hout].
      * eapply List.Forall_impl; [|exact Hall].
        intros s Hs. now apply index_in_range.
      * congruence.
Qed.

Section FilterFacts.
Context {V : Type}.

Lemma set_keys_in (k : string) (v : V) (d : list (string * V)) (x : string) :
  In x (Dict.keys (Dict.set k v d)) <-> x = k \/ In x (Dict.keys d).
Proof.
  induction d as [|[k' v'] d IH]; simpl.
  - intuition.
  - destruct (String.eqb_spec k k') as [->|Hne]; simpl; [intuition|].
    rewrite IH. intuition.
Qed.

Lemma set_keys_nodup (k : string) (v : V) (d : list (string * V)) :
  List.NoDup (Dict.keys d) -> List.NoDup (Dict.keys (Dict.set k v d)).
Proof.
  induction d as [|[k' v'] d IH]; simpl; intros Hd.
  - constructor; [intros []|constructor].
  - destruct (String.eqb_spec k k') as [->|Hne]; simpl; [exact Hd|].
    inversion Hd as [|? ? Hnin Hd']; subst.
    constructor; [|now apply IH].
    rewrite set_keys_in. intros [->|Hin]; [congruence|contradiction].
Qed.

Lemma filter_fields_fold (fields : list (string * V)) (names : list string)
    (acc : list (string * V)) (k : string) :
  Dict.get k
    (fold_left (fun acc k => match Dict.get k fields with
                             | Some v => Dict.set k v acc
                             | None => acc
                             end) names acc)
  = if existsb (String.eqb k) names
    then match Dict.get k fields with
         | Some v => Some v
         | None => Dict.get k acc
         end
    else Dict.get k acc.
Proof.
  revert acc; induction names as [|n ns IH]; intros acc; simpl; [reflexivity|].
  rewrite IH. destruct (String.eqb_spec k n) as [->|Hkn]; simpl.
  - destruct (Dict.get n fields) as [v|] eqn:En.
    + rewrite get_set_same. now destruct (existsb _ ns).
    + now destruct (existsb _ ns).
  - destruct (Dict.get n fields) as [v|] eqn:En; [|reflexivity].
    rewrite get_set_other by congruence. reflexivity.
Qed.

Lemma filter_fields_keys_fold (fields : list (string * V)) (names : list string)
    (acc : list (string * V)) :
  List.NoDup (Dict.keys acc) ->
  List.NoDup (Dict.keys
    (fold_left (fun acc k => match Dict.get k fields with
                             | Some v => Dict.set k v acc
                             | None => acc
                             end) names acc)).
Proof.
  revert acc; induction names as [|n ns IH]; intros acc Hacc; simpl; [exact Hacc|].
  apply IH. destruct (Dict.get n fields); [|exact Hacc].
  now apply set_keys_nodup.
Qed.

End FilterFacts.

(** X7. After [filter_fields], looking a name up among the fields of the
    radar gives the field it had before when the name is in the list
    [config['filter_fields']], and nothing otherwise: listed fields keep
    their value, every other field is dropped, a listed name that the radar
    does not have is passed over without an error, and no name is kept
    twice. *)
Theorem filter_fields_lookup {V : Type} (fields : list (string * V))
    (names : list string) (k : string) :
  Dict.get k (HpProcessing.filter_fields fields names)
  = (if existsb (String.eqb k) names then Dict.get k fields else None)
  /\ List.NoDup (Dict.keys (HpProcessing.filter_fields fields names)).
Proof.
  split.
  - unfold HpProcessing.filter_fields. rewrite filter_fields_fold. simpl.
    destruct (existsb _ names); [|reflexivity]. now destruct (Dict.get k fields).
  - apply filter_fields_keys_fold. constructor.
Qed.

(** X8. With the dictionary [CONFIG] of the module [config], which has no
    key [radar_name], [update_metadata] raises KeyError for that key for
    every dataset; the attribute [field_names] has been set on the dataset by
    then and no other attribute has been touched. *)
Theorem update_metadata_shipped_config (argv data_vars : list string)
    (attrs : list (string * WriteOutnc.cfg_value)) :
  HpProcessing.update_metadata argv data_vars attrs Config.CONFIG
  = (Dict.set "field_names" (WriteOutnc.CStr (PyStr.join ", " data_vars)) attrs,
     Raise (KeyError "radar_name")).
Proof.
  unfold HpProcessing.update_metadata.
  unfold HpProcessing.set_key at 2.
  assert (E : Config.CONFIG !! "radar_name" = None) by (vm_compute; reflexivity).
  unfold HpProcessing.copy_key at 11. rewrite E. reflexivity.
Qed.

(** * The schema parser *)

Section ParserFacts.
Import PyStr WriteOutnc SchemaText.

Lemma py_int_error (s : string) (e : exn) :
  py_int s = Raise e -> e = ValueError lib_msg.
Proof.
  unfold py_int. destruct (sign (strip s)) as [neg body].
  destruct (digits body) as [[v cnt] r].
  destruct r; [destruct (0 <? cnt)|]; congruence.
Qed.

Lemma py_float_error (s : string) (e : exn) :
  PyFloat.py_float s = Raise e -> e = ValueError lib_msg.
Proof.
  unfold PyFloat.py_float. destruct (sign (strip s)) as [neg body].
  destruct (String.eqb _ "nan"); [discriminate|].
  destruct (_ || _); [discriminate|].
  destruct (digits body) as [[ip ic] r1].
  destruct (match r1 with String "." r => digits r | _ => (0, 0, r1) end)
    as [[fp fc] r2].
  destruct (ic + fc =? 0); [congruence|].
  destruct (PyFloat.exponent r2); congruence.
Qed.

Lemma try_all_error {B C : Type} (f : B -> result C) (l : list B) (e e0 : exn) :
  (forall x e', f x = Raise e' -> e' = e0) ->
  try_all f l = Raise e -> e = e0.
Proof.
  intros Hf H. apply try_all_raise in H. destruct H as (x & _ & Hx).
  eapply Hf, Hx.
Qed.

Lemma parse_attribute_value_error (key value : string) (e : exn) :
  _parse_attribute_value key value = Raise e -> e = ValueError lib_msg.
Proof.
  unfold _parse_attribute_value.
  destruct (contains_char ":" key); [|discriminate].
  destruct (rsplit1 ":" key) as [[attr_name type_hint]|]; [|discriminate].
  repeat match goal with
  | |- (if ?b then _ else _) = _ -> _ => destruct b
  | |- Py.bind ?r _ = _ -> _ =>
      let E := fresh "E" in destruct r eqn:E; simpl
  end; try discriminate; intros H; injection H as <-.
  all: try (eapply py_float_error; eassumption).
  all: try (eapply py_int_error; eassumption).
  eapply try_all_error; [|eassumption].
  intros x e'. apply py_int_error.
Qed.

Lemma parse_lines_app (l1 l2 : list string) (st : parser_state) :
  parse_lines st (l1 ++ l2)
  = try st' <- parse_lines st l1; parse_lines st' l2.
Proof.
  revert st; induction l1 as [|raw l1 IH]; intros st; simpl; [reflexivity|].
  destruct (parse_line st raw); simpl; [apply IH|reflexivity].
Qed.

Lemma set_keeps_mem {V : Type} (k k' : string) (v : V) (d : list (string * V)) :
  Dict.mem k d = true -> Dict.mem k (Dict.set k' v d) = true.
Proof.
  unfold Dict.mem. intros H.
  destruct (String.eqb_spec k k') as [->|Hne].
  - now rewrite get_set_same.
  - now rewrite get_set_other.
Qed.

(** Splitting [parse_line] into its branches. *)
Ltac parse_line_cases :=
  unfold parse_line;
  repeat match goal with
  | |- context [if ?b then _ else _] =>
      let E := fresh "E" in destruct b eqn:E
  | |- context [match ?x with Some _ => _ | None => _ end] =>
      let E := fresh "E" in destruct x eqn:E
  | |- context [let '(_, _) := ?x in _] =>
      let E := fresh "E" in destruct x eqn:E
  | |- context [Py.bind ?r _] =>
      let E := fresh "E" in destruct r eqn:E; simpl Py.bind
  end.

Lemma set_attr_cases (st : parser_state) (cv k : string) (v : attr_value) :
  Dict.mem cv (st_variables st) = true ->
  exists spec, Dict.get cv (st_variables st) = Some spec
  /\ set_attr st cv k v
     = Ok {| st_dims := st_dims st;
             st_variables :=
               Dict.set cv {| dtype := dtype spec; dims := dims spec;
                              attrs := Dict.set k v (attrs spec) |}
                 (st_variables st);
             st_globals := st_globals st;
             current_var := current_var st;
             in_globals := in_globals st |}.
Proof.
  unfold Dict.mem, set_attr. destruct (Dict.get cv (st_variables st)) as [spec|];
    [eauto|discriminate].
Qed.

Lemma current_name_some (st : parser_state) (cv : string) :
  current_name st = Some cv -> current_var st = Some cv.
Proof.
  unfold current_name. destruct (current_var st) as [[|c s]|]; congruence.
Qed.

Lemma parse_line_declared (st st' : parser_state) (raw : string) :
  current_declared st -> parse_line st raw = Ok st' -> current_declared st'.
Proof.
  intros Hd. revert st'. parse_line_cases; intros st' H;
    try discriminate; try (injection H as <-);
    try exact Hd; try exact I;
    try (unfold current_declared; simpl; unfold Dict.mem;
         now rewrite get_set_same).
  all: match goal with
  | Hc : current_name ?s = Some ?cv, H : set_attr ?s ?cv ?k ?v = Ok _ |- _ =>
      apply current_name_some in Hc;
      unfold current_declared in Hd; rewrite Hc in Hd;
      destruct (set_attr_cases s cv k v Hd) as (spec & Hg & Hs);
      rewrite Hs in H; injection H as <-;
      unfold current_declared; simpl; rewrite Hc;
      now apply set_keeps_mem
  end.
Qed.

Lemma parse_line_error (st : parser_state) (raw : string) (e : exn) :
  current_declared st -> parse_line st raw = Raise e -> e = ValueError lib_msg.
Proof.
  intros Hd. parse_line_cases; intros H; try discriminate;
    try (injection H as <-).
  all: try (eapply py_int_error; eassumption).
  all: try (eapply parse_attribute_value_error; eassumption).
  all: match goal with
  | Hc : current_name ?s = Some ?cv, H : set_attr ?s ?cv ?k ?v = Raise _ |- _ =>
      apply current_name_some in Hc;
      unfold current_declared in Hd; rewrite Hc in Hd;
      destruct (set_attr_cases s cv k v Hd) as (spec & Hg & Hs);
      rewrite Hs in H; discriminate
  end.
Qed.

Lemma parse_lines_error (lines : list string) (st : parser_state) (e : exn) :
  current_declared st -> parse_lines st lines = Raise e -> e = ValueError lib_msg.
Proof.
  revert st; induction lines as [|raw rest IH]; intros st Hd; simpl;
    [discriminate|].
  destruct (parse_line st raw) as [st'|e'] eqn:E; simpl.
  - apply IH. eapply parse_line_declared; eassumption.
  - intros H; injection H as <-. eapply parse_line_error; eassumption.
Qed.

Lemma set_forall {V : Type} (P : string * V -> Prop) (k : string) (v : V)
    (d : list (string * V)) :
  Forall P d -> P (k, v) -> Forall P (Dict.set k v d).
Proof.
  intros Hd Hkv. induction Hd as [|[k' v'] d Hx Hd IH]; simpl.
  - constructor; [exact Hkv|constructor].
  - destruct (String.eqb k k'); constructor; auto.
Qed.

Lemma get_forall {V : Type} (P : string * V -> Prop) (k : string) (v : V)
    (d : list (string * V)) :
  Forall P d -> Dict.get k d = Some v -> exists k', P (k', v).
Proof.
  induction 1 as [|[k' v'] d Hx Hd IH]; simpl; [discriminate|].
  destruct (String.eqb k k'); [|exact IH].
  intros H; injection H as ->. eauto.
Qed.

(** The parser state as the schema that [_parse_dod] returns from it. *)
Lemma parse_line_unique (st st' : parser_state) (raw : string) :
  unique_names {| dimensions := st_dims st; variables := st_variables st;
                  globals := st_globals st |} ->
  parse_line st raw = Ok st' ->
  unique_names {| dimensions := st_dims st'; variables := st_variables st';
                  globals := st_globals st' |}.
Proof.
  intros (Hd & Hv & Hg & Ha). unfold unique_names in *. simpl in *.
  revert st'. parse_line_cases; intros st' H;
    try discriminate; try (injection H as <-); simpl;
    try (repeat split; assumption).
  all: try (repeat split;
            first [assumption | now apply set_keys_nodup
                  | apply set_forall; [assumption|simpl; constructor]]).
  all: match goal with
  | H : set_attr ?s ?cv ?k ?v = Ok _ |- _ =>
      unfold set_attr in H;
      destruct (Dict.get cv (st_variables s)) as [spec|] eqn:Eg;
        [|discriminate];
      injection H as <-; simpl;
      repeat split; try assumption; try (now apply set_keys_nodup);
      apply set_forall; [assumption|simpl];
      apply set_keys_nodup;
      destruct (get_forall _ _ _ _ Ha Eg) as [k' Hk']; exact Hk'
  end.
Qed.

Lemma parse_lines_unique (lines : list string) (st st' : parser_state) :
  unique_names {| dimensions := st_dims st; variables := st_variables st;
                  globals := st_globals st |} ->
  parse_lines st lines = Ok st' ->
  unique_names {| dimensions := st_dims st'; variables := st_variables st';
                  globals := st_globals st' |}.
Proof.
  revert st; induction lines as [|raw rest IH]; intros st Hu; simpl.
  - intros H; injection H as <-. exact Hu.
  - destruct (parse_line st raw) as [st1|e] eqn:E; simpl; [|discriminate].
    apply IH. eapply parse_line_unique; eassumption.
Qed.

Lemma parse_dod_unique (lines : list string) (d : dod) :
  _parse_dod lines = Ok d -> unique_names d.
Proof.
  unfold _parse_dod.
  destruct (parse_lines parser_init lines) as [st|e] eqn:E; simpl; [|discriminate].
  intros H; injection H as <-.
  eapply parse_lines_unique; [|exact E].
  repeat split; simpl; constructor.
Qed.

(** ** Lines that are passed over *)

Lemma rstrip_blank (s : string) : is_blank s = true -> rstrip_by is_space s = EmptyString.
Proof.
  induction s as [|c r IH]; simpl; [reflexivity|].
  intros H. apply andb_true_iff in H. destruct H as [Hc Hr].
  rewrite (IH Hr), Hc. reflexivity.
Qed.

Lemma parse_line_blank (st : parser_state) (raw : string) :
  is_blank raw = true -> parse_line st raw = Ok st.
Proof.
  intros H. unfold parse_line, normalize, PyText.rstrip.
  rewrite (rstrip_blank raw H). reflexivity.
Qed.

Lemma rstrip_empty_blank (s : string) :
  rstrip_by is_space s = EmptyString -> is_blank s = true.
Proof.
  induction s as [|c r IH]; simpl; [reflexivity|].
  destruct (rstrip_by is_space r) eqn:E; [|discriminate].
  destruct (is_space c); [|discriminate]. intros _. now apply IH.
Qed.

Lemma blank_not_comment (s : string) : is_blank s = true -> is_comment s = false.
Proof.
  induction s as [|c r IH]; simpl; [reflexivity|].
  intros H. apply andb_true_iff in H. destruct H as [Hc Hr].
  rewrite Hc. now apply IH.
Qed.

Lemma is_comment_rstrip (s : string) :
  is_comment (rstrip_by is_space s) = is_comment s.
Proof.
  induction s as [|c r IH]; simpl; [reflexivity|].
  destruct (rstrip_by is_space r) as [|c' r'] eqn:E.
  - destruct (is_space c) eqn:Ec; simpl; rewrite ?Ec; [|reflexivity].
    symmetry. apply blank_not_comment, rstrip_empty_blank, E.
  - simpl in *. destruct (is_space c); [exact IH|reflexivity].
Qed.

Lemma is_space_tab (c : ascii) :
  is_space (if Ascii.eqb PyText.tab c then " "%char else c) = is_space c.
Proof.
  destruct (Ascii.eqb_spec PyText.tab c) as [<-|]; reflexivity.
Qed.

Lemma tab_not_hash (c : ascii) :
  Ascii.eqb (if Ascii.eqb PyText.tab c then " "%char else c) "#" = Ascii.eqb c "#".
Proof.
  destruct (Ascii.eqb_spec PyText.tab c) as [<-|]; reflexivity.
Qed.

Lemma is_comment_replace (s : string) :
  is_comment (PyText.replace_char PyText.tab " " s) = is_comment s.
Proof.
  induction s as [|c r IH]; [reflexivity|].
  cbn [PyText.replace_char is_comment].
  rewrite is_space_tab, IH, tab_not_hash. reflexivity.
Qed.

Lemma is_comment_normalize (raw : string) :
  is_comment (normalize raw) = is_comment raw.
Proof.
  unfold normalize, PyText.rstrip.
  now rewrite is_comment_replace, is_comment_rstrip.
Qed.

Lemma prefix_hash (c : ascii) (r : string) :
  String.prefix "#" (String c r) = Ascii.eqb c "#".
Proof.
  cbn [String.prefix].
  destruct (ascii_dec "#"%char c) as [<-|Hne].
  - now destruct r.
  - symmetry. apply Ascii.eqb_neq. congruence.
Qed.

Lemma space_not_hash (c : ascii) : is_space c = true -> Ascii.eqb c "#" = false.
Proof.
  intros H. apply Ascii.eqb_neq. intros ->. discriminate.
Qed.

Lemma prefix_hash_rstrip (s : string) :
  String.prefix "#" (rstrip_by is_space s) = String.prefix "#" s.
Proof.
  destruct s as [|c r]; [reflexivity|].
  cbn [rstrip_by].
  destruct (rstrip_by is_space r) as [|c' r'] eqn:E.
  - destruct (is_space c) eqn:Ec.
    + rewrite prefix_hash, (space_not_hash c Ec). reflexivity.
    + now rewrite !prefix_hash.
  - now rewrite !prefix_hash.
Qed.

Lemma prefix_hash_lstrip (s : string) :
  String.prefix "#" (lstrip_by is_space s) = is_comment s.
Proof.
  induction s as [|c r IH]; [reflexivity|].
  cbn [lstrip_by is_comment].
  destruct (is_space c) eqn:Ec; [exact IH|]. apply prefix_hash.
Qed.

Lemma prefix_hash_strip (s : string) :
  String.prefix "#" (strip s) = is_comment s.
Proof.
  unfold strip, strip_by. now rewrite prefix_hash_rstrip, prefix_hash_lstrip.
Qed.

Lemma comment_test (raw : string) :
  String.prefix "#" (strip (normalize raw)) = is_comment raw.
Proof.
  now rewrite prefix_hash_strip, is_comment_normalize.
Qed.

Lemma lstrip_length (s : string) :
  (String.length (lstrip_by is_space s) <= String.length s)%nat.
Proof.
  induction s as [|c r IH]; simpl; [lia|].
  destruct (is_space c); simpl; lia.
Qed.

Lemma indent_of_leading (s : string) : PyText.indent_of s = leading_space s.
Proof.
  unfold PyText.indent_of, PyText.lstrip.
  induction s as [|c r IH]; simpl; [reflexivity|].
  destruct (is_space c).
  - rewrite <- IH. pose proof (lstrip_length r). lia.
  - simpl. lia.
Qed.

Lemma leading_space_replace (s : string) :
  leading_space (PyText.replace_char PyText.tab " " s) = leading_space s.
Proof.
  induction s as [|c r IH]; [reflexivity|].
  cbn [PyText.replace_char leading_space].
  rewrite is_space_tab, IH. reflexivity.
Qed.

Lemma leading_space_rstrip (s : string) :
  is_blank s = false -> leading_space (rstrip_by is_space s) = leading_space s.
Proof.
  induction s as [|c r IH]; simpl; [discriminate|].
  intros H. destruct (is_space c) eqn:Ec; simpl in H.
  - destruct (rstrip_by is_space r) as [|c' r'] eqn:E.
    + apply rstrip_empty_blank in E. congruence.
    + change (leading_space (String c (String c' r')))
        with (if is_space c then S (leading_space (String c' r')) else O).
      rewrite Ec. f_equal. now apply IH.
  - destruct (rstrip_by is_space r); simpl; now rewrite Ec.
Qed.

Lemma indent_test (raw : string) :
  is_blank raw = false ->
  PyText.indent_of (normalize raw) = leading_space raw.
Proof.
  intros H. unfold normalize, PyText.rstrip.
  now rewrite indent_of_leading, leading_space_replace, leading_space_rstrip.
Qed.

Lemma parse_line_odd_indent (st : parser_state) (raw : string) :
  is_comment raw = false ->
  ~ In (leading_space raw) [0; 2; 4]%nat ->
  parse_line st raw = Ok st.
Proof.
  intros Hc Hi. destruct (is_blank raw) eqn:Hb; [now apply parse_line_blank|].
  unfold parse_line. rewrite comment_test, Hc, (indent_test raw Hb).
  destruct (String.eqb _ EmptyString); [reflexivity|].
  simpl in Hi.
  destruct (Nat.eqb_spec (leading_space raw) 0) as [E0|_]; [lia|].
  destruct (Nat.eqb_spec (leading_space raw) 4) as [E4|_]; [lia|].
  destruct (Nat.eqb_spec (leading_space raw) 2) as [E2|_]; [lia|].
  rewrite !andb_false_r. reflexivity.
Qed.

(** ** The region of the global attributes *)

Lemma parse_line_in_globals (st : parser_state) (raw : string) :
  in_globals st = true -> current_var st = None ->
  exists st', parse_line st raw = Ok st'
    /\ st_dims st' = st_dims st /\ st_variables st' = st_variables st
    /\ in_globals st' = true /\ current_var st' = None.
Proof.
  intros Hg Hc. unfold parse_line, current_name. rewrite Hg, Hc. simpl.
  repeat match goal with
  | |- context [if ?b then _ else _] => destruct b
  | |- context [match ?x with Some _ => _ | None => _ end] => destruct x
  | |- context [let '(_, _) := ?x in _] => destruct x
  end; eexists; (split; [reflexivity|]); simpl; auto.
Qed.

Lemma parse_lines_in_globals (lines : list string) (st : parser_state) :
  in_globals st = true -> current_var st = None ->
  exists st', parse_lines st lines = Ok st'
    /\ st_dims st' = st_dims st /\ st_variables st' = st_variables st.
Proof.
  revert st; induction lines as [|raw rest IH]; intros st Hg Hc; simpl.
  - eauto.
  - destruct (parse_line_in_globals st raw Hg Hc)
      as (st1 & -> & Hd & Hv & Hg1 & Hc1). simpl.
    destruct (IH st1 Hg1 Hc1) as (st' & -> & Hd' & Hv').
    exists st'. repeat split; congruence.
Qed.

Lemma parse_line_comment (st : parser_state) (raw : string) :
  is_comment raw = true -> parse_line st raw = Ok (clear_current st true).
Proof.
  intros Hc. unfold parse_line. rewrite comment_test, Hc.
  destruct (String.eqb _ EmptyString) eqn:E; [|reflexivity].
  exfalso. apply String.eqb_eq in E.
  pose proof (comment_test raw) as Ht. rewrite E, Hc in Ht. discriminate.
Qed.

Lemma parse_line_no_comment (st st' : parser_state) (raw : string) :
  in_globals st = false -> is_comment raw = false ->
  parse_line st raw = Ok st' ->
  in_globals st' = false /\ st_globals st' = st_globals st.
Proof.
  intros Hg Hc. unfold parse_line. rewrite comment_test, Hc, Hg. simpl.
  repeat match goal with
  | |- context [if ?b then _ else _] => destruct b
  | |- context [match ?x with Some _ => _ | None => _ end] => destruct x
  | |- context [let '(_, _) := ?x in _] => destruct x
  | |- context [Py.bind ?r _] => destruct r; simpl Py.bind
  end; intros H; try discriminate; try (injection H as <-); auto.
  all: unfold set_attr in H;
    match type of H with
    | match ?g with _ => _ end = _ => destruct g; [|discriminate]
    end; injection H as <-; auto.
Qed.

Lemma parse_lines_no_comment (lines : list string) (st st' : parser_state) :
  in_globals st = false ->
  Forall (fun raw => is_comment raw = false) lines ->
  parse_lines st lines = Ok st' ->
  st_globals st' = st_globals st.
Proof.
  intros Hg Hall. revert st Hg.
  induction Hall as [|raw rest Hc _ IH]; intros st Hg; simpl.
  - intros H; injection H as <-. reflexivity.
  - destruct (parse_line st raw) as [st1|e] eqn:E; simpl; [|discriminate].
    destruct (parse_line_no_comment st st1 raw Hg Hc E) as [Hg1 Hs].
    intros H. rewrite <- Hs. now apply IH.
Qed.

(** ** The two patterns for a variable declaration *)

Lemma scalar_decl_is_var_decl (line name dtype_ : string) :
  PyText.match_scalar_decl line = Some (name, dtype_) ->
  PyText.match_var_decl line = Some (name, EmptyString, dtype_).
Proof.
  unfold PyText.match_scalar_decl, PyText.match_var_decl.
  destruct (PyText.span_word line) as [w r].
  destruct w as [|c w]; [discriminate|].
  destruct r as [|c' r]; [discriminate|].
  destruct (Ascii.eqb_spec c' "(") as [->|Hne].
  - destruct (PyText.close_and_type r) as [t|] eqn:E; [|discriminate].
    intros H; injection H as <- <-.
    destruct r as [|c2 r2]; [discriminate|].
    simpl. simpl in E. rewrite E. reflexivity.
  - intros H. exfalso. revert H.
    destruct c' as [[] [] [] [] [] [] [] []]; try discriminate.
    now elim Hne.
Qed.

End ParserFacts.

(** * Properties of the schema parser *)

(** X9. The only error that [_parse_dod] raises on the lines of a schema is
    the ValueError of [int] and [float] for a dimension size or a typed
    attribute value that is not a number: the variable whose attributes are
    assigned is always a declared one, so there is no KeyError. *)
Theorem parse_dod_only_value_error (lines : list string) (e : exn) :
  WriteOutnc._parse_dod lines = Raise e -> e = ValueError lib_msg.
Proof.
  unfold WriteOutnc._parse_dod.
  destruct (WriteOutnc.parse_lines WriteOutnc.parser_init lines) as [st|e']
    eqn:E; simpl; [discriminate|].
  intros H; injection H as <-.
  eapply parse_lines_error; [|exact E]. exact I.
Qed.

Lemma parse_dod_only_value_error_witness :
  WriteOutnc._parse_dod [SampleText.bad_dimension] = Raise (ValueError lib_msg)
  /\ ValueError lib_msg = ValueError lib_msg.
Proof.
  split; [reflexivity|].
  apply (parse_dod_only_value_error [SampleText.bad_dimension]
           (ValueError lib_msg)).
  reflexivity.
Defined.

(** X10. In a text in ASCII, a line of white space only, and a line that
    is not a comment and whose indentation is not 0, 2 or 4 characters, are
    passed over wherever they stand: the schema parsed from the text with
    the line is the one parsed from the text without it, and so is the
    error. *)
Theorem parse_dod_ignores_line (before after : list string) (raw : string) :
  Spec.all_ascii (before ++ raw :: after) = true ->
  SchemaText.is_blank raw = true
  \/ (SchemaText.is_comment raw = false
      /\ ~ In (SchemaText.leading_space raw) [0; 2; 4]%nat) ->
  WriteOutnc._parse_dod (before ++ raw :: after)
  = WriteOutnc._parse_dod (before ++ after).
Proof.
  intros _ H.
  assert (Hl : forall st, WriteOutnc.parse_line st raw = Ok st).
  { intros st. destruct H as [Hb|[Hc Hi]].
    - now apply parse_line_blank.
    - now apply parse_line_odd_indent. }
  unfold WriteOutnc._parse_dod. rewrite !parse_lines_app.
  destruct (WriteOutnc.parse_lines WriteOutnc.parser_init before) as [st|e];
    simpl; [|reflexivity].
  now rewrite Hl.
Qed.

Lemma parse_dod_ignores_line_witness :
  WriteOutnc._parse_dod
    (SampleText.declarations ++ SampleText.odd_line :: [SampleText.comment])
  = WriteOutnc._parse_dod (SampleText.declarations ++ [SampleText.comment]).
Proof.
  apply (parse_dod_ignores_line SampleText.declarations [SampleText.comment]
           SampleText.odd_line).
  - vm_compute. reflexivity.
  - right. split; [reflexivity|].
    vm_compute. intros [H|[H|[H|[]]]]; discriminate.
Defined.

(** X11. From the first comment line on (a line whose first character
    after the indentation is [#]) nothing is declared and nothing fails: the
    dimensions and the variables, with their attributes, are those of the
    text before that line, and an error is raised exactly when the text
    before that line raises it. *)
Theorem parse_dod_after_comment (before after : list string) (c : string) :
  SchemaText.is_comment c = true ->
  match WriteOutnc._parse_dod before with
  | Raise e => WriteOutnc._parse_dod (before ++ c :: after) = Raise e
  | Ok d0 =>
      exists d, WriteOutnc._parse_dod (before ++ c :: after) = Ok d
        /\ WriteOutnc.dimensions d = WriteOutnc.dimensions d0
        /\ WriteOutnc.variables d = WriteOutnc.variables d0
  end.
Proof.
  intros Hc. unfold WriteOutnc._parse_dod. rewrite parse_lines_app.
  destruct (WriteOutnc.parse_lines WriteOutnc.parser_init before) as [st|e];
    simpl; [|reflexivity].
  rewrite (parse_line_comment st c Hc). simpl.
  destruct (parse_lines_in_globals after (WriteOutnc.clear_current st true)
              eq_refl eq_refl) as (st' & -> & Hd & Hv).
  simpl. eexists. split; [reflexivity|]. simpl. split; assumption.
Qed.

Lemma parse_dod_after_comment_witness :
  exists d,
    WriteOutnc._parse_dod
      (SampleText.declarations ++ SampleText.comment :: SampleText.global_lines)
    = Ok d
    /\ Dict.get "x" (WriteOutnc.dimensions d) = Some (Some 10)
    /\ Dict.keys (WriteOutnc.variables d) = ["base_time"; "refl"]
    /\ WriteOutnc.globals d = [("title", "HydroPhase"); ("doi", EmptyString)].
Proof.
  pose proof (parse_dod_after_comment SampleText.declarations
                SampleText.global_lines SampleText.comment eq_refl) as H.
  destruct (WriteOutnc._parse_dod SampleText.declarations) as [d0|e] eqn:E0;
    [|vm_compute in E0; discriminate].
  destruct H as (d & Hd & _). exists d. split; [exact Hd|].
  vm_compute in Hd. injection Hd as <-. repeat split; reflexivity.
Defined.

(** X12. Global attributes are read only after a comment line: a text in
    ASCII without one that parses gives a schema without global
    attributes. *)
Theorem parse_dod_no_comment_no_globals (lines : list string)
    (d : WriteOutnc.dod) :
  Spec.all_ascii lines = true ->
  Forall (fun raw => SchemaText.is_comment raw = false) lines ->
  WriteOutnc._parse_dod lines = Ok d ->
  WriteOutnc.globals d = [].
Proof.
  intros _ Hall. unfold WriteOutnc._parse_dod.
  destruct (WriteOutnc.parse_lines WriteOutnc.parser_init lines) as [st|e]
    eqn:E; simpl; [|discriminate].
  intros H; injection H as <-. simpl.
  apply (parse_lines_no_comment lines WriteOutnc.parser_init st eq_refl Hall E).
Qed.

Lemma parse_dod_no_comment_no_globals_witness :
  exists d,
    WriteOutnc._parse_dod (SampleText.declarations ++ SampleText.global_lines)
    = Ok d
    /\ WriteOutnc.globals d = []
    /\ Dict.get "x" (WriteOutnc.dimensions d) = Some (Some 20).
Proof.
  destruct (WriteOutnc._parse_dod
              (SampleText.declarations ++ SampleText.global_lines))
    as [d|e] eqn:E; [|vm_compute in E; discriminate].
  exists d. split; [reflexivity|]. split.
  - apply (parse_dod_no_comment_no_globals
             (SampleText.declarations ++ SampleText.global_lines) d);
      [vm_compute; reflexivity| |exact E].
    repeat constructor.
  - vm_compute in E. injection E as <-. reflexivity.
Defined.

(** X13. Whenever the pattern for a declaration without dimensions,
    [^(\w+)\(\):(\w+)], matches a line, the general pattern
    [^(\w+)\((.*?)\):(\w+)], which is tried first, matches it too, with the
    same name and type and an empty text for the dimensions: the second
    pattern never decides what is declared. *)
Theorem scalar_pattern_subsumed (line : string) :
  match PyText.match_scalar_decl line with
  | Some (name, dtype_) =>
      PyText.match_var_decl line = Some (name, EmptyString, dtype_)
  | None => True
  end.
Proof.
  destruct (PyText.match_scalar_decl line) as [[name dtype_]|] eqn:E; [|exact I].
  now apply scalar_decl_is_var_decl.
Qed.

(** * The time attributes of the schema *)

Section TimeAttrFacts.
Import WriteOutnc WriterFacts.

Lemma fill_time_attrs_as_map (times : list (string * list (string * attr_value)))
    (name : string) (meta attrs_ : list (string * attr_value)) :
  Dict.get name times = Some meta ->
  fill_time_attrs meta attrs_
  = map (fun kv => (fst kv, time_attr_after times name kv)) attrs_.
Proof.
  intros H. unfold fill_time_attrs. apply map_ext. intros [k v].
  unfold time_attr_after. simpl. rewrite H.
  destruct (is_empty_str v); [|reflexivity].
  now destruct (Dict.get k meta).
Qed.

Lemma no_time_attrs_as_map (times : list (string * list (string * attr_value)))
    (name : string) (attrs_ : list (string * attr_value)) :
  Dict.get name times = None ->
  attrs_ = map (fun kv => (fst kv, time_attr_after times name kv)) attrs_.
Proof.
  intros H. rewrite <- (map_id attrs_) at 1. apply map_ext. intros [k v].
  unfold time_attr_after. simpl. rewrite H. now destruct (is_empty_str v).
Qed.

End TimeAttrFacts.

Lemma update_time_attributes_closed (d d' : WriteOutnc.dod)
    (ds : WriteOutnc.xr_dataset) :
  WriteOutnc._update_dod_time_attributes d ds = Ok d' ->
  exists times,
    WriteOutnc._get_standardized_times ds = Ok times
    /\ WriteOutnc.dimensions d' = WriteOutnc.dimensions d
    /\ WriteOutnc.globals d' = WriteOutnc.globals d
    /\ WriteOutnc.variables d'
       = map (WriterFacts.time_var_after times) (WriteOutnc.variables d).
Proof.
  unfold WriteOutnc._update_dod_time_attributes.
  destruct (WriteOutnc._get_standardized_times ds) as [times|e] eqn:Et;
    simpl; [|discriminate].
  intros H; injection H as <-. exists times. split; [reflexivity|].
  unfold WriteOutnc._get_standardized_times in Et.
  destruct (WriteOutnc.first_time ds) as [t|]; simpl in Et; [|discriminate].
  apply standardized_times_shape in Et as (b & x & s & u & ->).
  cbn [fold_left WriteOutnc.dimensions WriteOutnc.globals WriteOutnc.variables
       fst snd].
  split; [reflexivity|]. split; [reflexivity|].
  rewrite !map_map. apply map_ext. intros [n [dt dm at_]].
  unfold WriterFacts.time_var_after.
  cbn [fst snd WriteOutnc.dtype WriteOutnc.dims WriteOutnc.attrs].
  destruct (String.eqb "base_time" n) eqn:E1;
    cbn [fst snd WriteOutnc.dtype WriteOutnc.dims WriteOutnc.attrs];
    destruct (String.eqb "time_offset" n) eqn:E2;
    cbn [fst snd WriteOutnc.dtype WriteOutnc.dims WriteOutnc.attrs];
    destruct (String.eqb "time" n) eqn:E3;
    cbn [fst snd WriteOutnc.dtype WriteOutnc.dims WriteOutnc.attrs];
    try (apply String.eqb_eq in E1; apply String.eqb_eq in E2; congruence);
    try (apply String.eqb_eq in E1; apply String.eqb_eq in E3; congruence);
    try (apply String.eqb_eq in E2; apply String.eqb_eq in E3; congruence);
    f_equal; f_equal;
    first [apply fill_time_attrs_as_map | apply no_time_attrs_as_map];
    cbn [Dict.get];
    rewrite (String.eqb_sym n "base_time"), E1,
      ?(String.eqb_sym n "time_offset"), ?E2,
      ?(String.eqb_sym n "time"), ?E3; reflexivity.
Qed.

(** X14. [_update_dod_time_attributes] keeps the dimensions, the global
    attributes and the names, order, types and dimensions of the variables,
    and the names and order of their attributes. An attribute that has a
    value is never overwritten; an attribute whose value is the empty text
    gets the standardized entry of its name ([value], [string] or [units])
    when its variable is [base_time], [time_offset] or [time], and stays
    empty otherwise. *)
Theorem time_attributes_fill_blanks_only (d d' : WriteOutnc.dod)
    (ds : WriteOutnc.xr_dataset) :
  WriteOutnc._update_dod_time_attributes d ds = Ok d' ->
  exists times,
    WriteOutnc._get_standardized_times ds = Ok times
    /\ WriteOutnc.dimensions d' = WriteOutnc.dimensions d
    /\ WriteOutnc.globals d' = WriteOutnc.globals d
    /\ WriteOutnc.variables d'
       = map (WriterFacts.time_var_after times) (WriteOutnc.variables d).
Proof.
  apply update_time_attributes_closed.
Qed.

Lemma time_attributes_fill_blanks_only_witness :
  exists d',
    WriteOutnc._update_dod_time_attributes Sample.schema Sample.ds = Ok d'
    /\ Dict.get "time" (WriteOutnc.variables d')
       = Some {| WriteOutnc.dtype := "double"; WriteOutnc.dims := ["time"];
                 WriteOutnc.attrs :=
                   [("units",
                     WriteOutnc.AStr "seconds since 2024-01-15 00:00:00 0:00")] |}
    /\ Dict.get "refl" (WriteOutnc.variables d')
       = Dict.get "refl" (WriteOutnc.variables Sample.schema).
Proof.
  destruct (WriteOutnc._update_dod_time_attributes Sample.schema Sample.ds)
    as [d'|e] eqn:E; [|vm_compute in E; discriminate].
  exists d'. split; [reflexivity|].
  destruct (time_attributes_fill_blanks_only Sample.schema d' Sample.ds E)
    as (times & Ht & _ & _ & Hv).
  rewrite Hv. vm_compute in Ht. injection Ht as <-.
  split; vm_compute; reflexivity.
Defined.

(** * The structural pass as a function of the schema *)

Section DictAppend.
Context {V : Type}.

Lemma get_none_not_in (k : string) (d : list (string * V)) :
  Dict.get k d = None <-> ~ In k (Dict.keys d).
Proof.
  induction d as [|[k' v'] d IH]; simpl; [tauto|].
  destruct (String.eqb_spec k k') as [->|Hne].
  - split; [discriminate|]. intros H. exfalso. apply H. now left.
  - rewrite IH. split; intros H; [intros [E|E]; [congruence|tauto]|tauto].
Qed.

Lemma set_absent (k : string) (v : V) (d : list (string * V)) :
  Dict.get k d = None -> Dict.set k v d = (d ++ [(k, v)])%list.
Proof.
  induction d as [|[k' v'] d IH]; simpl; [reflexivity|].
  destruct (String.eqb k k'); [discriminate|]. intros H. now rewrite IH.
Qed.

Lemma get_app_none (k : string) (d1 d2 : list (string * V)) :
  Dict.get k (d1 ++ d2) = None <-> Dict.get k d1 = None /\ Dict.get k d2 = None.
Proof.
  rewrite !get_none_not_in. unfold Dict.keys. rewrite map_app, in_app_iff. tauto.
Qed.

Lemma fold_set_append (l acc : list (string * V)) :
  List.NoDup (Dict.keys l) ->
  (forall k, In k (Dict.keys l) -> Dict.get k acc = None) ->
  fold_left (fun acc kv => Dict.set (fst kv) (snd kv) acc) l acc
  = (acc ++ l)%list.
Proof.
  revert acc; induction l as [|[k v] l IH]; intros acc Hnd Hacc; simpl.
  - now rewrite app_nil_r.
  - inversion Hnd as [|? ? Hnin Hnd']; subst.
    rewrite set_absent by (apply Hacc; now left).
    rewrite IH; [now rewrite <- app_assoc|exact Hnd'|].
    intros k' Hk'. apply get_app_none. split.
    + apply Hacc. now right.
    + simpl. destruct (String.eqb_spec k' k) as [->|]; [contradiction|reflexivity].
Qed.

Lemma pop_keys_incl (k : string) (d : list (string * V)) (x : string) :
  In x (Dict.keys (snd (Dict.pop k d))) -> In x (Dict.keys d).
Proof.
  induction d as [|[k' v'] d IH]; simpl; [tauto|].
  destruct (String.eqb k k'); simpl; [tauto|].
  destruct (Dict.pop k d) as [o r]. simpl in *. tauto.
Qed.

Lemma pop_nodup (k : string) (d : list (string * V)) :
  List.NoDup (Dict.keys d) -> List.NoDup (Dict.keys (snd (Dict.pop k d))).
Proof.
  induction d as [|[k' v'] d IH]; simpl; intros Hd; [constructor|].
  inversion Hd as [|? ? Hnin Hd']; subst.
  destruct (String.eqb k k'); simpl; [exact Hd'|].
  pose proof (pop_keys_incl k d k') as Hincl.
  destruct (Dict.pop k d) as [o r]. simpl in *.
  constructor; [tauto|now apply IH].
Qed.

Lemma pop_fst_get (k : string) (d : list (string * V)) :
  fst (Dict.pop k d) = Dict.get k d.
Proof.
  induction d as [|[k' v'] d IH]; simpl; [reflexivity|].
  destruct (String.eqb k k'); [reflexivity|].
  destruct (Dict.pop k d) as [o r]. exact IH.
Qed.

End DictAppend.

Section StructureFacts.
Import WriteOutnc WriterFacts SchemaText.
Implicit Types (nc : NetCDF.dataset attr_value).

Lemma fold_createDimension (l : list (string * option Z)) nc :
  fold_left (fun nc ds => NetCDF.createDimension (fst ds) (snd ds) nc) l nc
  = {| NetCDF.dims :=
         fold_left (fun acc kv => Dict.set (fst kv) (snd kv) acc) l (NetCDF.dims nc);
       NetCDF.attrs := NetCDF.attrs nc;
       NetCDF.variables := NetCDF.variables nc;
       NetCDF.isopen := NetCDF.isopen nc |}.
Proof.
  revert nc; induction l as [|[k v] l IH]; intros nc; simpl.
  - now destruct nc.
  - now rewrite IH.
Qed.

Lemma fold_setncattr (l : list (string * string)) nc :
  fold_left (fun nc g => NetCDF.setncattr (fst g) (snd g) nc) l nc
  = {| NetCDF.dims := NetCDF.dims nc;
       NetCDF.attrs :=
         fold_left (fun acc kv => Dict.set (fst kv) (snd kv) acc) l (NetCDF.attrs nc);
       NetCDF.variables := NetCDF.variables nc;
       NetCDF.isopen := NetCDF.isopen nc |}.
Proof.
  revert nc; induction l as [|[k v] l IH]; intros nc; simpl.
  - now destruct nc.
  - now rewrite IH.
Qed.

(** Attaching attributes to the variable created last. *)
Lemma fold_setvarattr_last (varname : string) (l : list (string * attr_value))
    (vs : list (string * NetCDF.variable attr_value))
    (x : NetCDF.variable attr_value) (dm : list (string * option Z))
    (at_ : list (string * string)) (o : bool) :
  Dict.get varname vs = None ->
  fold_left (fun nc kv => NetCDF.setvarattr varname (fst kv) (snd kv) nc) l
    {| NetCDF.dims := dm; NetCDF.attrs := at_;
       NetCDF.variables := (vs ++ [(varname, x)])%list; NetCDF.isopen := o |}
  = {| NetCDF.dims := dm; NetCDF.attrs := at_;
       NetCDF.variables :=
         (vs ++ [(varname,
                  {| NetCDF.var_dtype := NetCDF.var_dtype x;
                     NetCDF.var_dims := NetCDF.var_dims x;
                     NetCDF.var_fill := NetCDF.var_fill x;
                     NetCDF.var_attrs :=
                       fold_left (fun acc kv => Dict.set (fst kv) (snd kv) acc) l
                         (NetCDF.var_attrs x);
                     NetCDF.var_data := NetCDF.var_data x |})])%list;
       NetCDF.isopen := o |}.
Proof.
  intros Hvs. revert x; induction l as [|[k v] l IH]; intros x; simpl.
  - now destruct x.
  - unfold NetCDF.setvarattr at 2, NetCDF.update_variable. simpl.
    rewrite map_app. simpl. rewrite String.eqb_refl. simpl.
    replace (map _ vs) with vs.
    + rewrite IH. reflexivity.
    + rewrite <- (map_id vs) at 1. apply map_ext_in. intros [k' v'] Hin. simpl.
      destruct (String.eqb_spec varname k') as [->|]; [|reflexivity].
      exfalso. apply get_none_not_in in Hvs. apply Hvs.
      apply in_map_iff. exists (k', v'). auto.
Qed.

Lemma attr_truthy_plain (f : attr_value) :
  (forall a, f <> ANumpy a) -> exists b, attr_truthy f = Ok b.
Proof.
  destruct f; simpl; eauto. intros H. now elim (H a).
Qed.

Lemma create_variable_from_closed nc (varname : string) (vinfo : var_spec) :
  Dict.get varname (NetCDF.variables nc) = None ->
  List.NoDup (Dict.keys (attrs vinfo)) ->
  plain_fill vinfo ->
  create_variable_from nc varname vinfo
  = Ok {| NetCDF.dims := NetCDF.dims nc; NetCDF.attrs := NetCDF.attrs nc;
          NetCDF.variables :=
            (NetCDF.variables nc ++ [(varname, created_variable vinfo)])%list;
          NetCDF.isopen := NetCDF.isopen nc |}.
Proof.
  intros Hnone Hnd Hplain. unfold create_variable_from, created_variable.
  pose proof (pop_fst_get "_FillValue" (attrs vinfo)) as Hfst.
  pose proof (pop_nodup "_FillValue" (attrs vinfo) Hnd) as Hnd'.
  destruct (Dict.pop "_FillValue" (attrs vinfo)) as [fill rest].
  simpl in Hfst, Hnd'.
  assert (Hfold : fold_left (fun acc kv => Dict.set (fst kv) (snd kv) acc) rest []
                  = rest).
  { rewrite fold_set_append; [reflexivity|exact Hnd'|reflexivity]. }
  destruct fill as [f|].
  - destruct (attr_truthy_plain f) as [b Hb].
    { intros a ->. apply (Hplain a). now symmetry. }
    rewrite Hb. simpl.
    destruct b; unfold NetCDF.createVariable; simpl;
      rewrite set_absent by exact Hnone;
      rewrite fold_setvarattr_last by exact Hnone; simpl;
      rewrite Hfold; reflexivity.
  - simpl. unfold NetCDF.createVariable; simpl.
    rewrite set_absent by exact Hnone.
    rewrite fold_setvarattr_last by exact Hnone. simpl.
    rewrite Hfold. reflexivity.
Qed.

Lemma create_variables_closed (vars : list (string * var_spec)) :
  forall nc,
  List.NoDup (Dict.keys vars) ->
  (forall k, In k (Dict.keys vars) -> Dict.get k (NetCDF.variables nc) = None) ->
  Forall (fun nv => List.NoDup (Dict.keys (attrs (snd nv)))) vars ->
  Forall (fun nv => plain_fill (snd nv)) vars ->
  create_variables nc vars
  = ({| NetCDF.dims := NetCDF.dims nc; NetCDF.attrs := NetCDF.attrs nc;
        NetCDF.variables :=
          (NetCDF.variables nc
           ++ map (fun nv => (fst nv, created_variable (snd nv))) vars)%list;
        NetCDF.isopen := NetCDF.isopen nc |}, Ok tt).
Proof.
  induction vars as [|[n v] vars IH]; intros nc Hnd Hdis Ha Hp; simpl.
  - rewrite app_nil_r. now destruct nc.
  - inversion Hnd as [|? ? Hnin Hnd']; subst.
    inversion Ha as [|? ? Ha1 Ha']; subst.
    inversion Hp as [|? ? Hp1 Hp']; subst.
    rewrite create_variable_from_closed; try assumption.
    2:{ apply Hdis. now left. }
    rewrite IH; try assumption.
    + simpl. now rewrite <- app_assoc.
    + intros k Hk. simpl. apply get_app_none. split.
      * apply Hdis. now right.
      * simpl. destruct (String.eqb_spec k n) as [->|]; [contradiction|reflexivity].
Qed.

End StructureFacts.

Lemma create_nc_structure_closed (d : WriteOutnc.dod) :
  SchemaText.unique_names d ->
  Forall (fun nv => WriterFacts.plain_fill (snd nv)) (WriteOutnc.variables d) ->
  WriteOutnc._create_nc_structure d
  = ({| NetCDF.dims := WriteOutnc.dimensions d;
        NetCDF.attrs := WriteOutnc.globals d;
        NetCDF.variables :=
          map (fun nv => (fst nv, WriterFacts.created_variable (snd nv)))
            (WriteOutnc.variables d);
        NetCDF.isopen := true |}, Ok tt).
Proof.
  intros (Hd & Hv & Hg & Ha) Hp. unfold WriteOutnc._create_nc_structure.
  rewrite fold_createDimension, fold_setncattr. simpl.
  rewrite create_variables_closed; try assumption; [|reflexivity].
  simpl. rewrite !fold_set_append; try assumption; reflexivity.
Qed.

(** X15. For a schema in which no name occurs twice in a name space (as
    the parser returns it) and no fill value is a numpy array, whenever the
    structural pass returns, the file it leaves open mirrors the schema: the
    same dimensions and global attributes, one variable per schema
    variable, in schema order, with the declared type and dimensions, no
    data yet, the attributes of the schema without [_FillValue], and a fill
    value bound at creation exactly when [_FillValue] is truthy. *)
Theorem structure_mirrors_schema (d : WriteOutnc.dod)
    (nc : WriteOutnc.nc_dataset) :
  SchemaText.unique_names d ->
  Forall (fun nv => WriterFacts.plain_fill (snd nv)) (WriteOutnc.variables d) ->
  WriteOutnc._create_nc_structure d = (nc, Ok tt) ->
  nc = {| NetCDF.dims := WriteOutnc.dimensions d;
          NetCDF.attrs := WriteOutnc.globals d;
          NetCDF.variables :=
            map (fun nv => (fst nv, WriterFacts.created_variable (snd nv)))
              (WriteOutnc.variables d);
          NetCDF.isopen := true |}.
Proof.
  intros Hu Hp Hc. rewrite (create_nc_structure_closed d Hu Hp) in Hc.
  now injection Hc as <-.
Qed.

Lemma structure_mirrors_schema_witness :
  snd (WriteOutnc._create_nc_structure Sample.schema) = Ok tt
  /\ Dict.keys (NetCDF.variables (fst (WriteOutnc._create_nc_structure Sample.schema)))
     = ["base_time"; "time_offset"; "time"; "refl"; "hp_fhc"; "scan_start"].
Proof.
  split; [reflexivity|].
  rewrite (structure_mirrors_schema Sample.schema
             (fst (WriteOutnc._create_nc_structure Sample.schema))).
  - reflexivity.
  - unfold SchemaText.unique_names. simpl.
    repeat split; repeat constructor; simpl; intuition discriminate.
  - repeat constructor; intros a; simpl; discriminate.
  - reflexivity.
Defined.

(** * The value pass writes data only *)

Section DataOnly.
Import WriteOutnc WriterFacts.
Implicit Types (nc : NetCDF.dataset attr_value).

Lemma structure_of_assign (name : string) (a : Np.ndarray) nc :
  structure_of (NetCDF.assign name a nc) = structure_of nc.
Proof.
  unfold structure_of, NetCDF.assign, NetCDF.update_variable. simpl.
  rewrite map_map. f_equal. apply map_ext. intros [k v]. simpl.
  now destruct (String.eqb name k).
Qed.

Lemma structure_of_close nc : structure_of (NetCDF.close nc) = structure_of nc.
Proof. reflexivity. Qed.

Lemma structure_of_write_mapped ds d nc (xr_name dod_name : string) nc' :
  write_mapped ds d nc xr_name dod_name = Ok nc' ->
  structure_of nc' = structure_of nc.
Proof.
  intros H. apply write_mapped_cases in H as [->|(_ & data & ->)];
    [reflexivity|apply structure_of_assign].
Qed.

Lemma structure_of_write_mapped_all ds d (mapping : list (string * string)) :
  forall nc, structure_of (fst (write_mapped_all ds d mapping nc)) = structure_of nc.
Proof.
  induction mapping as [|[x y] rest IH]; intros nc; simpl; [reflexivity|].
  destruct (write_mapped ds d nc x y) as [nc1|e] eqn:E; [|reflexivity].
  rewrite IH. eapply structure_of_write_mapped, E.
Qed.

Lemma structure_of_write_times
    (times : list (string * list (string * attr_value))) :
  forall nc, structure_of (fst (write_times times nc)) = structure_of nc.
Proof.
  induction times as [|[tn ti] rest IH]; intros nc; simpl; [reflexivity|].
  destruct (Dict.mem tn (NetCDF.variables nc)); [|apply IH].
  destruct (Dict.get "value" ti) as [[]|]; try reflexivity.
  rewrite IH. apply structure_of_assign.
Qed.

Lemma structure_of_write_radar ds (var attr : string) nc :
  structure_of (write_radar ds var attr nc) = structure_of nc.
Proof.
  unfold write_radar. destruct (Dict.mem var (NetCDF.variables nc));
    [|reflexivity].
  destruct (ds_attrs ds !! attr); apply structure_of_assign.
Qed.

Lemma structure_of_value_pass ds nc d (config : gmap string cfg_value) :
  structure_of (fst (_write_dataset_to_file ds nc d config)) = structure_of nc.
Proof.
  unfold _write_dataset_to_file.
  destruct (_get_standardized_times ds) as [times|e]; [|reflexivity].
  destruct (config !! "variable_mapping") as [[s|z|mapping|s]|];
    try reflexivity.
  pose proof (structure_of_write_mapped_all ds d mapping nc) as Hm.
  destruct (write_mapped_all ds d mapping nc) as [nc1 [u|e]]; cbn [fst] in Hm;
    [|exact Hm].
  pose proof (structure_of_write_times times nc1) as Ht.
  destruct (write_times times nc1) as [nc2 [u2|e]]; cbn [fst] in Ht;
    cbn [fst]; [|now rewrite Ht].
  rewrite structure_of_close, !structure_of_write_radar. now rewrite Ht.
Qed.

End DataOnly.

(** X16. The value pass writes data only: whatever the dataset, the schema
    and the configuration, and whether the pass returns or raises, the file
    it leaves has the dimensions, the global attributes and the variables it
    had before, each variable with the same name, position, type,
    dimensions, fill value and attributes; only the data of variables can
    differ. *)
Theorem value_pass_writes_data_only (ds : WriteOutnc.xr_dataset)
    (nc : WriteOutnc.nc_dataset) (d : WriteOutnc.dod)
    (config : gmap string WriteOutnc.cfg_value) :
  WriterFacts.structure_of (fst (WriteOutnc._write_dataset_to_file ds nc d config))
  = WriterFacts.structure_of nc.
Proof.
  apply structure_of_value_pass.
Qed.

(** * From the text of the schema to the file *)

Section TextToFile.
Import PyStr WriteOutnc WriterFacts SchemaText.

Lemma parse_attribute_value_plain (key value : string) (k : string)
    (v : attr_value) :
  _parse_attribute_value key value = Ok (k, v) -> forall a, v <> ANumpy a.
Proof.
  unfold _parse_attribute_value.
  destruct (contains_char ":" key);
    [|intros H; injection H as <- <-; discriminate].
  destruct (rsplit1 ":" key) as [[attr_name type_hint]|];
    [|intros H; injection H as <- <-; discriminate].
  repeat match goal with
  | |- (if ?b then _ else _) = _ -> _ => destruct b
  | |- Py.bind ?r _ = _ -> _ => destruct r; simpl
  end; try discriminate; intros H; injection H as <- <-; discriminate.
Qed.

(** Every attribute of every variable read so far is a plain value. *)
Lemma parse_line_plain (st st' : parser_state) (raw : string) :
  Forall (fun nv => plain_attrs (snd nv)) (st_variables st) ->
  parse_line st raw = Ok st' ->
  Forall (fun nv => plain_attrs (snd nv)) (st_variables st').
Proof.
  intros Hp. revert st'. unfold parse_line.
  repeat match goal with
  | |- context [if ?b then _ else _] => destruct b
  | |- context [match ?x with Some _ => _ | None => _ end] =>
      let E := fresh "E" in destruct x eqn:E
  | |- context [let '(_, _) := ?x in _] => destruct x
  | |- context [Py.bind ?r _] =>
      let E := fresh "E" in destruct r eqn:E; simpl Py.bind
  end; intros st' H; try discriminate; try (injection H as <-); simpl;
    try exact Hp;
    try (apply set_forall; [exact Hp|constructor]).
  all: unfold set_attr in H;
    match type of H with
    | match Dict.get ?cv ?vs with _ => _ end = _ =>
        destruct (Dict.get cv vs) as [spec|] eqn:Eg; [|discriminate]
    end;
    injection H as <-; simpl;
    apply set_forall; [exact Hp|];
    destruct (get_forall _ _ _ _ Hp Eg) as [k' Hk'];
    unfold plain_attrs in *; simpl in *;
    apply set_forall; [exact Hk'|]; simpl.
  all: first
    [ intros a0; discriminate
    | match goal with
      | Hv : _parse_attribute_value _ _ = Ok ?kv |- _ =>
          destruct kv as [k v]; eapply parse_attribute_value_plain; exact Hv
      end ].
Qed.

Lemma parse_lines_plain (lines : list string) (st st' : parser_state) :
  Forall (fun nv => plain_attrs (snd nv)) (st_variables st) ->
  parse_lines st lines = Ok st' ->
  Forall (fun nv => plain_attrs (snd nv)) (st_variables st').
Proof.
  revert st; induction lines as [|raw rest IH]; intros st Hp; simpl.
  - intros H; injection H as <-. exact Hp.
  - destruct (parse_line st raw) as [st1|e] eqn:E; simpl; [|discriminate].
    apply IH. eapply parse_line_plain; eassumption.
Qed.

Lemma parse_dod_plain (lines : list string) (d : dod) :
  _parse_dod lines = Ok d ->
  Forall (fun nv => plain_attrs (snd nv)) (variables d).
Proof.
  unfold _parse_dod.
  destruct (parse_lines parser_init lines) as [st|e] eqn:E; simpl; [|discriminate].
  intros H; injection H as <-. simpl.
  eapply parse_lines_plain; [|exact E]. constructor.
Qed.

Lemma get_in {V : Type} (k : string) (v : V) (d : list (string * V)) :
  Dict.get k d = Some v -> In (k, v) d.
Proof.
  induction d as [|[k' v'] d IH]; simpl; [discriminate|].
  destruct (String.eqb_spec k k') as [->|]; [|auto].
  intros H; injection H as ->. now left.
Qed.

Lemma time_var_after_keys
    (times : list (string * list (string * attr_value)))
    (vars : list (string * var_spec)) :
  Dict.keys (map (time_var_after times) vars) = Dict.keys vars.
Proof.
  unfold Dict.keys. rewrite map_map. reflexivity.
Qed.

Lemma resolve_item_keys (config : gmap string cfg_value)
    (items : list (string * string)) :
  Dict.keys (map (Spec.resolve_item config) items) = Dict.keys items.
Proof.
  unfold Dict.keys. rewrite map_map. apply map_ext. intros [k v].
  unfold Spec.resolve_item. simpl.
  destruct (String.eqb v EmptyString); [|reflexivity].
  now destruct (config !! k).
Qed.

(** The standardized entries have no fill value, so a plain fill value
    stays plain when the time attributes are filled. *)
Lemma time_var_after_plain_fill (b : Np.ndarray) (x : F64.float) (s u : string)
    (nv : string * var_spec) :
  plain_attrs (snd nv) ->
  plain_fill
    (snd (time_var_after
            [ ("base_time",
                [ ("value", ANumpy b); ("string", AStr s);
                  ("units", AStr "seconds since 1970-1-1 0:00:00 0:00") ]);
              ("time_offset",
                [ ("value", ANumpy (Np.array1_float64 (F64.Fin 0)));
                  ("units", AStr ("seconds since " +:+ s)) ]);
              ("time",
                [ ("value", ANumpy (Np.array1_float64 x));
                  ("units", AStr u); ("string", AStr s) ]) ] nv)).
Proof.
  destruct nv as [n [dt dm at_]]. unfold plain_attrs, plain_fill,
    time_var_after. simpl. intros Hp a Hget.
  apply get_in in Hget. apply in_map_iff in Hget.
  destruct Hget as ([k v] & Heq & Hin). simpl in Heq.
  injection Heq as Hk Hv. subst k.
  rewrite List.Forall_forall in Hp. specialize (Hp _ Hin). simpl in Hp.
  unfold time_attr_after in Hv. simpl in Hv.
  destruct (is_empty_str v); [|now apply (Hp a)].
  destruct (String.eqb n "base_time"); simpl in Hv; [now apply (Hp a)|].
  destruct (String.eqb n "time_offset"); simpl in Hv; [now apply (Hp a)|].
  destruct (String.eqb n "time"); simpl in Hv; now apply (Hp a).
Qed.

Lemma time_var_after_attr_keys
    (times : list (string * list (string * attr_value)))
    (nv : string * var_spec) :
  Dict.keys (attrs (snd (time_var_after times nv))) = Dict.keys (attrs (snd nv)).
Proof.
  unfold time_var_after, Dict.keys. simpl. rewrite map_map. reflexivity.
Qed.

End TextToFile.

Section TextToFileMain.
Import PyStr WriteOutnc WriterFacts SchemaText.

Lemma map_eq_Forall2 {B C D : Type} (f : B -> D) (g : C -> D)
    (l : list B) (l' : list C) :
  map f l = map g l' -> Forall2 (fun x y => f x = g y) l l'.
Proof.
  revert l'; induction l as [|x l IH]; intros [|y l'] H; simpl in H;
    try discriminate; constructor.
  - now injection H.
  - apply IH. now injection H.
Qed.

Lemma created_variable_type (vinfo : var_spec) :
  NetCDF.var_dtype (created_variable vinfo) = dtype vinfo
  /\ NetCDF.var_dims (created_variable vinfo) = dims vinfo.
Proof.
  unfold created_variable. destruct (Dict.pop "_FillValue" (attrs vinfo)).
  split; reflexivity.
Qed.

(** The file that [write_ds_to_nc] has opened, as far as the text of the
    schema determines it. *)
Lemma write_ds_to_nc_file (env : environ) (ds : xr_dataset)
    (lines : list string) (config : gmap string cfg_value) (nc : nc_dataset) :
  out_file (write_ds_to_nc env ds (_parse_dod lines) config) = Some nc ->
  exists d,
    _parse_dod lines = Ok d
    /\ NetCDF.dims nc = dimensions d
    /\ map (fun kv => (fst kv, NetCDF.var_dtype (snd kv), NetCDF.var_dims (snd kv)))
         (NetCDF.variables nc)
       = map (fun nv => (fst nv, dtype (snd nv), dims (snd nv))) (variables d)
    /\ Dict.get "fields" (NetCDF.attrs nc)
       = Some (join ", " (Dict.keys (variables d))).
Proof.
  unfold write_ds_to_nc.
  destruct (_parse_dod lines) as [d|e] eqn:Ep; [|discriminate].
  pose proof (parse_dod_unique lines d Ep) as (Hud & Huv & Hug & Hua).
  pose proof (parse_dod_plain lines d Ep) as Hplain.
  pose proof (returned_eq env d config) as Hr. cbv zeta in Hr.
  destruct (returned (_update_dod_globals env d config)) as [d1|e] eqn:Er;
    [|discriminate].
  destruct (_update_dod_time_attributes d1 ds) as [d2|e] eqn:Et;
    [|discriminate].
  destruct (Spec.unresolved_names _ (globals d)); [|discriminate].
  injection Hr as ->.
  destruct (update_time_attributes_closed _ _ _ Et) as (times & Hts & Hd2 & Hg2 & Hv2).
  simpl in Hd2, Hg2, Hv2.
  unfold _get_standardized_times in Hts.
  destruct (first_time ds) as [t|]; simpl in Hts; [|discriminate].
  apply standardized_times_shape in Hts as (b & x & s & u & Htimes).
  rewrite create_nc_structure_closed.
  2:{ unfold unique_names. rewrite Hd2, Hg2, Hv2.
      rewrite time_var_after_keys, resolve_item_keys.
      repeat split; try assumption.
      apply Forall_map. eapply List.Forall_impl; [|exact Hua].
      intros nv Hnv. now rewrite time_var_after_attr_keys. }
  2:{ rewrite Hv2, Htimes. apply Forall_map.
      eapply List.Forall_impl; [|exact Hplain].
      intros nv Hnv. now apply time_var_after_plain_fill. }
  cbv beta iota zeta.
  match goal with
  | |- context [_write_dataset_to_file ds ?nc1 d2 ?cfg] =>
      pose proof (structure_of_value_pass ds nc1 d2 cfg) as Hs;
      destruct (_write_dataset_to_file ds nc1 d2 cfg) as [nc' res]
  end.
  cbn [fst] in Hs. cbn [out_file]. intros H; injection H as ->.
  unfold structure_of in Hs. simpl in Hs.
  injection Hs as Hdims Hattrs Hvars.
  exists d. split; [reflexivity|]. split; [congruence|]. split.
  - transitivity
      (map (fun kv : string * NetCDF.variable attr_value =>
              (fst kv, NetCDF.var_dtype (snd kv), NetCDF.var_dims (snd kv)))
         (map (fun kv => (fst kv, without_data (snd kv))) (NetCDF.variables nc))).
    { rewrite map_map. reflexivity. }
    rewrite Hvars, Hv2, !map_map. apply map_ext. intros [n v]. simpl.
    destruct (created_variable_type
                {| dtype := dtype v; dims := dims v;
                   attrs := map (fun kv => (fst kv, time_attr_after times n kv))
                              (attrs v) |}) as [-> ->].
    reflexivity.
  - rewrite Hattrs, get_set_same. f_equal. f_equal.
    unfold Dict.keys. rewrite Hv2, !map_map. reflexivity.
Qed.

End TextToFileMain.

(** X17. Whenever [write_ds_to_nc] returns for a schema given by its text,
    in ASCII, the file it has written has the dimensions of the
    text, exactly the variables that the text declares, in the order of the
    text and with the declared types and dimensions, and a global attribute
    [fields] that lists their names separated by [", "]. *)
Theorem file_mirrors_schema_text (env : WriteOutnc.environ)
    (ds : WriteOutnc.xr_dataset) (lines : list string)
    (config : gmap string WriteOutnc.cfg_value) (nc : WriteOutnc.nc_dataset) :
  Spec.all_ascii lines = true ->
  WriteOutnc.out_result
    (WriteOutnc.write_ds_to_nc env ds (WriteOutnc._parse_dod lines) config)
  = Ok tt ->
  WriteOutnc.out_file
    (WriteOutnc.write_ds_to_nc env ds (WriteOutnc._parse_dod lines) config)
  = Some nc ->
  exists d,
    WriteOutnc._parse_dod lines = Ok d
    /\ NetCDF.dims nc = WriteOutnc.dimensions d
    /\ map (fun kv => (fst kv, NetCDF.var_dtype (snd kv), NetCDF.var_dims (snd kv)))
         (NetCDF.variables nc)
       = map (fun nv => (fst nv, WriteOutnc.dtype (snd nv), WriteOutnc.dims (snd nv)))
           (WriteOutnc.variables d)
    /\ Dict.get "fields" (NetCDF.attrs nc)
       = Some (PyStr.join ", " (Dict.keys (WriteOutnc.variables d))).
Proof.
  intros _ _. apply write_ds_to_nc_file.
Qed.

Lemma file_mirrors_schema_text_witness :
  exists nc,
    WriteOutnc.out_file
      (WriteOutnc.write_ds_to_nc Sample.env Sample.ds
         (WriteOutnc._parse_dod SampleWrite.lines) SampleWrite.config)
    = Some nc
    /\ Dict.keys (NetCDF.variables nc) = ["base_time"; "refl"]
    /\ Dict.get "fields" (NetCDF.attrs nc) = Some "base_time, refl".
Proof.
  destruct (WriteOutnc.out_file
              (WriteOutnc.write_ds_to_nc Sample.env Sample.ds
                 (WriteOutnc._parse_dod SampleWrite.lines) SampleWrite.config))
    as [nc|] eqn:E; [|vm_compute in E; discriminate].
  exists nc. split; [reflexivity|].
  destruct (file_mirrors_schema_text Sample.env Sample.ds SampleWrite.lines
              SampleWrite.config nc) as (d & Hp & _ & Hv & Hf);
    [vm_compute; reflexivity | vm_compute; reflexivity | exact E |].
  vm_compute in Hp. injection Hp as <-. split.
  - apply (f_equal (map (fun x => fst (fst x)))) in Hv.
    rewrite !map_map in Hv. exact Hv.
  - rewrite Hf. reflexivity.
Defined.

(** * What the value pass writes *)

Section ValueFacts.
Import WriteOutnc WriterFacts.
Import Spec.
Implicit Types (nc : NetCDF.dataset attr_value).

Lemma keys_write_radar ds (var attr : string) nc :
  Dict.keys (NetCDF.variables (write_radar ds var attr nc))
  = Dict.keys (NetCDF.variables nc).
Proof.
  unfold write_radar. destruct (Dict.mem var (NetCDF.variables nc));
    [|reflexivity].
  destruct (ds_attrs ds !! attr); apply keys_assign.
Qed.

Lemma mem_write_radar ds (var attr k : string) nc :
  Dict.mem k (NetCDF.variables (write_radar ds var attr nc))
  = Dict.mem k (NetCDF.variables nc).
Proof. apply mem_keys, keys_write_radar. Qed.

Lemma write_radar_same ds (var attr : string) nc :
  Dict.mem var (NetCDF.variables nc) = true ->
  exists v, Dict.get var (NetCDF.variables (write_radar ds var attr nc)) = Some v
    /\ NetCDF.var_data v
       = Some (match ds_attrs ds !! attr with
               | Some a => a
               | None => Np.scalar_float64 (F64.Fin 0)
               end).
Proof.
  intros Hm. unfold write_radar. rewrite Hm.
  destruct (ds_attrs ds !! attr); now apply get_assign_same.
Qed.

Lemma write_times_keys (times : list (string * list (string * attr_value))) :
  forall nc,
  Dict.keys (NetCDF.variables (fst (write_times times nc)))
  = Dict.keys (NetCDF.variables nc).
Proof.
  induction times as [|[tn ti] rest IH]; intros nc; simpl; [reflexivity|].
  destruct (Dict.mem tn (NetCDF.variables nc)); [|apply IH].
  destruct (Dict.get "value" ti) as [[]|]; try reflexivity.
  rewrite IH. apply keys_assign.
Qed.

Lemma radar_written ds nc d (config : gmap string cfg_value) nc'
    (var attr : string) :
  _write_dataset_to_file ds nc d config = (nc', Ok tt) ->
  In (var, attr) radar_metadata ->
  Dict.mem var (NetCDF.variables nc) = true ->
  exists v, Dict.get var (NetCDF.variables nc') = Some v
    /\ NetCDF.var_data v
       = Some (match ds_attrs ds !! attr with
               | Some a => a
               | None => Np.scalar_float64 (F64.Fin 0)
               end).
Proof.
  unfold _write_dataset_to_file.
  destruct (_get_standardized_times ds) as [times|e]; [|discriminate].
  destruct (config !! "variable_mapping") as [[s|z|mapping|s]|];
    try discriminate.
  destruct (write_mapped_all ds d mapping nc) as [nc1 [u|e]] eqn:Em;
    [|discriminate].
  pose proof (write_times_keys times nc1) as Hk2.
  destruct (write_times times nc1) as [nc2 [u2|e]] eqn:Et; [|discriminate].
  cbn [fst] in Hk2.
  intros H; injection H as <-. intros Hin Hm.
  assert (Hm2 : Dict.mem var (NetCDF.variables nc2) = true).
  { rewrite <- Hm. apply mem_keys. rewrite Hk2.
    now destruct (write_mapped_all_keys _ _ _ _ _ _ Em). }
  simpl NetCDF.variables.
  destruct Hin as [E|[E|[E|[]]]]; injection E as <- <-.
  - rewrite !write_radar_other by discriminate. now apply write_radar_same.
  - rewrite write_radar_other by discriminate. apply write_radar_same.
    now rewrite mem_write_radar.
  - apply write_radar_same. now rewrite !mem_write_radar.
Qed.

(** Rounding gives a number or an infinity. *)
Lemma round_not_nan (f : F64.format) (q : Q) : F64.is_nan (F64.round f q) = false.
Proof.
  unfold F64.round, F64.round_pos.
  destruct (Qnum q); [reflexivity| |];
    match goal with |- context [if ?b then _ else _] => destruct b end;
    reflexivity.
Qed.

Lemma cast_scalar_not_nan (t : Np.dtype) (x y : Np.scalar) :
  is_number x -> not_nan x -> Np.cast_scalar t x = Ok y ->
  is_number y /\ not_nan y.
Proof.
  unfold not_nan.
  destruct x as [z|[| |q]| | |]; simpl; intros Hn Hx; try contradiction;
    try discriminate;
    destruct t; simpl; intros H; injection H as <-; simpl;
    rewrite ?round_not_nan; auto.
Qed.

Lemma try_all_cast_not_nan (t : Np.dtype) (l l' : list Np.scalar) :
  Forall is_number l -> Forall not_nan l ->
  try_all (Np.cast_scalar t) l = Ok l' ->
  Forall is_number l' /\ Forall not_nan l'.
Proof.
  intros Hn Hx H. apply try_all_ok in H.
  induction H as [|x y xs ys Hxy _ IH].
  - split; constructor.
  - inversion Hn; subst. inversion Hx; subst.
    destruct (cast_scalar_not_nan t x y) as [Hy1 Hy2]; try assumption.
    destruct IH as [IH1 IH2]; try assumption.
    split; constructor; assumption.
Qed.

Lemma fill_masked_isnan (v : Np.scalar) (l : list Np.scalar) :
  not_nan v -> Forall not_nan (Np.fill_masked v l (map Np.scalar_isnan l)).
Proof.
  intros Hv. induction l as [|x l IH]; simpl; constructor; [|exact IH].
  destruct (Np.scalar_isnan x) eqn:E; [exact Hv|exact E].
Qed.

Lemma any_false_not_nan (l : list Np.scalar) :
  Np.any (map Np.scalar_isnan l) = false -> Forall not_nan l.
Proof.
  unfold Np.any. induction l as [|x l IH]; simpl; [constructor|].
  intros H. apply orb_false_iff in H as [Hx Hl]. constructor; auto.
Qed.

Lemma replace_nan_not_nan (f : Np.scalar) (a a' : Np.ndarray) :
  is_number f -> not_nan f -> Forall is_number (Np.flat a) ->
  replace_nan (Some f) a = Ok a' ->
  Forall is_number (Np.flat a') /\ Forall not_nan (Np.flat a')
  /\ Np.shape a' = Np.shape a /\ Np.adtype a' = Np.adtype a.
Proof.
  intros Hf Hx Hn. unfold replace_nan, Np.isnan.
  destruct (Np.adtype a) eqn:Ed; simpl; try discriminate.
  all: destruct (Np.any (map Np.scalar_isnan (Np.flat a))) eqn:Ea;
    intros H; injection H as <-; simpl;
    repeat split; auto;
    try (now apply fill_masked_numbers);
    try (now apply fill_masked_isnan);
    try (now apply any_false_not_nan).
Qed.

Lemma dtype_eqb_eq (a b : Np.dtype) : Np.dtype_eqb a b = true -> a = b.
Proof. destruct a, b; simpl; congruence. Qed.

Lemma convert_dtype_target d (dod_name : string) (a a' : Np.ndarray)
    (spec : var_spec) (t : Np.dtype) :
  Dict.get dod_name (variables d) = Some spec ->
  dtype_map (dtype spec) = Some t ->
  convert_dtype d dod_name a = Ok a' ->
  Np.adtype a' = t.
Proof.
  intros Hs Ht. unfold convert_dtype. rewrite Hs, Ht.
  destruct (Np.dtype_eqb (Np.adtype a) t) eqn:E; simpl.
  - intros H; injection H as <-. now apply dtype_eqb_eq.
  - unfold Np.astype. destruct (try_all _ _); simpl; [|discriminate].
    intros H; injection H as <-. reflexivity.
Qed.

Lemma convert_dtype_not_nan d (dod_name : string) (a a' : Np.ndarray) :
  Forall is_number (Np.flat a) -> Forall not_nan (Np.flat a) ->
  convert_dtype d dod_name a = Ok a' ->
  Forall not_nan (Np.flat a').
Proof.
  intros Hn Hx. unfold convert_dtype.
  destruct (Dict.get dod_name (variables d)) as [spec|];
    [|intros H; injection H as <-; exact Hx].
  destruct (dtype_map (dtype spec)) as [t|];
    [|intros H; injection H as <-; exact Hx].
  destruct (negb _); [|intros H; injection H as <-; exact Hx].
  unfold Np.astype.
  destruct (try_all (Np.cast_scalar t) (Np.flat a)) as [l|] eqn:E; simpl;
    [|discriminate].
  intros H; injection H as <-. simpl.
  now destruct (try_all_cast_not_nan t _ _ Hn Hx E).
Qed.

(** The steps of [write_mapped] for an entry that is written. *)
Lemma write_mapped_written ds d nc (xr_name dod_name : string) nc'
    (values : Np.ndarray) (var : NetCDF.variable attr_value) :
  data_vars ds !! xr_name = Some values ->
  Dict.get dod_name (NetCDF.variables nc) = Some var ->
  ~ In dod_name time_vars ->
  write_mapped ds d nc xr_name dod_name = Ok nc' ->
  exists filled replaced data v',
    match Np.mask values with
    | Some _ => Np.ma_filled values (NetCDF.var_fill var)
    | None => Ok values
    end = Ok filled
    /\ replace_nan (NetCDF.var_fill var) filled = Ok replaced
    /\ check_cftime xr_name replaced = Ok tt
    /\ convert_dtype d dod_name replaced = Ok data
    /\ Dict.get dod_name (NetCDF.variables nc') = Some v'
    /\ NetCDF.var_data v' = Some data.
Proof.
  intros Hv Hg Ht. unfold write_mapped. rewrite Hv, Hg.
  destruct (existsb (String.eqb dod_name) time_vars) eqn:Et.
  { exfalso. apply Ht. now apply in_time_vars. }
  destruct (match Np.mask values with
            | Some _ => Np.ma_filled values (NetCDF.var_fill var)
            | None => Ok values
            end) as [a0|] eqn:E0; cbn [Py.bind]; [|discriminate].
  destruct (replace_nan _ _) as [a1|] eqn:E1; cbn [Py.bind]; [|discriminate].
  destruct (check_cftime _ _) as [[]|] eqn:E2; cbn [Py.bind]; [|discriminate].
  destruct (convert_dtype _ _ _) as [a2|] eqn:E3; cbn [Py.bind]; [|discriminate].
  intros H; injection H as <-.
  destruct (get_assign_same dod_name a2 nc) as (v' & Hg' & Hd').
  { unfold Dict.mem. now rewrite Hg. }
  exists a0, a1, a2, v'. repeat split; assumption.
Qed.

Lemma ma_filled_numbers (a filled : Np.ndarray) (f : Np.scalar) :
  is_number f -> Forall is_number (Np.flat a) ->
  Np.ma_filled a (Some f) = Ok filled ->
  Forall is_number (Np.flat filled).
Proof.
  intros Hf Hn. unfold Np.ma_filled.
  destruct (Np.mask a); [|intros H; injection H as <-; exact Hn].
  cbv zeta. destruct (check_fill_number (Np.adtype a) f Hf) as (stored & -> & Hs).
  cbn [Py.bind]. intros H; injection H as <-. simpl.
  now apply fill_masked_numbers.
Qed.

Lemma ma_filled_shape (a filled : Np.ndarray) (fill : option Np.scalar) :
  Np.ma_filled a fill = Ok filled ->
  Np.shape filled = Np.shape a
  /\ length (Np.flat filled) = length (Np.flat a).
Proof.
  unfold Np.ma_filled.
  destruct (Np.mask a); [|intros H; injection H as <-; auto]. cbv zeta.
  destruct (Np.check_fill_value _ _); cbn [Py.bind]; [|discriminate].
  intros H; injection H as <-. simpl.
  split; [reflexivity|apply fill_masked_length].
Qed.

Lemma write_mapped_no_nan ds d nc (xr_name dod_name : string) nc'
    (values : Np.ndarray) (var : NetCDF.variable attr_value) (f : Np.scalar) :
  data_vars ds !! xr_name = Some values ->
  Dict.get dod_name (NetCDF.variables nc) = Some var ->
  ~ In dod_name time_vars ->
  NetCDF.var_fill var = Some f ->
  is_number f -> not_nan f ->
  Forall is_number (Np.flat values) ->
  write_mapped ds d nc xr_name dod_name = Ok nc' ->
  exists v' data,
    Dict.get dod_name (NetCDF.variables nc') = Some v'
    /\ NetCDF.var_data v' = Some data
    /\ Forall not_nan (Np.flat data).
Proof.
  intros Hv Hg Ht Hfill Hf Hx Hn Hw.
  destruct (write_mapped_written _ _ _ _ _ _ _ _ Hv Hg Ht Hw)
    as (filled & replaced & data & v' & Hfd & Hr & _ & Hc & Hg' & Hd').
  rewrite Hfill in *.
  assert (Hfn : Forall is_number (Np.flat filled)).
  { destruct (Np.mask values) eqn:Em; [|injection Hfd as <-; exact Hn].
    eapply ma_filled_numbers; eassumption. }
  destruct (replace_nan_not_nan f filled replaced Hf Hx Hfn Hr)
    as (Hrn & Hrx & _ & _).
  exists v', data. repeat split; try assumption.
  eapply convert_dtype_not_nan; eassumption.
Qed.

Lemma write_mapped_dtype ds d nc (xr_name dod_name : string) nc'
    (values : Np.ndarray) (var : NetCDF.variable attr_value)
    (spec : var_spec) (t : Np.dtype) :
  data_vars ds !! xr_name = Some values ->
  Dict.get dod_name (NetCDF.variables nc) = Some var ->
  ~ In dod_name time_vars ->
  Dict.get dod_name (variables d) = Some spec ->
  dtype_map (dtype spec) = Some t ->
  write_mapped ds d nc xr_name dod_name = Ok nc' ->
  exists v' data,
    Dict.get dod_name (NetCDF.variables nc') = Some v'
    /\ NetCDF.var_data v' = Some data
    /\ Np.adtype data = t
    /\ Np.shape data = Np.shape values
    /\ length (Np.flat data) = length (Np.flat values).
Proof.
  intros Hv Hg Ht Hs Hm Hw.
  destruct (write_mapped_written _ _ _ _ _ _ _ _ Hv Hg Ht Hw)
    as (filled & replaced & data & v' & Hfd & Hr & _ & Hc & Hg' & Hd').
  exists v', data. split; [exact Hg'|]. split; [exact Hd'|].
  split; [eapply convert_dtype_target; eassumption|].
  assert (Hf : Np.shape filled = Np.shape values
               /\ length (Np.flat filled) = length (Np.flat values)).
  { destruct (Np.mask values) eqn:Em; [|injection Hfd as <-; auto].
    eapply ma_filled_shape; eassumption. }
  assert (Hrep : Np.shape replaced = Np.shape filled
                 /\ length (Np.flat replaced) = length (Np.flat filled)).
  { revert Hr. unfold replace_nan.
    destruct (NetCDF.var_fill var); [|intros H; injection H as <-; auto].
    destruct (Np.isnan filled) as [nan|]; simpl; [|discriminate].
    destruct (Np.any nan); intros H; injection H as <-; simpl; auto.
    split; [reflexivity|apply fill_masked_length]. }
  assert (Hcv : Np.shape data = Np.shape replaced
                /\ length (Np.flat data) = length (Np.flat replaced)).
  { revert Hc. unfold convert_dtype. rewrite Hs, Hm.
    destruct (negb _); [|intros H; injection H as <-; auto].
    unfold Np.astype.
    destruct (try_all _ (Np.flat replaced)) as [l|] eqn:E; simpl; [|discriminate].
    intros H; injection H as <-. simpl. split; [reflexivity|].
    apply try_all_ok in E. symmetry. eapply Forall2_length, E. }
  destruct Hf, Hrep, Hcv. split; congruence.
Qed.

Lemma write_mapped_unsized ds d nc (xr_name dod_name : string)
    (values : Np.ndarray) (var : NetCDF.variable attr_value) :
  data_vars ds !! xr_name = Some values ->
  Dict.get dod_name (NetCDF.variables nc) = Some var ->
  ~ In dod_name time_vars ->
  Np.shape values = [] ->
  write_mapped ds d nc xr_name dod_name = Raise (TypeError lib_msg).
Proof.
  intros Hv Hg Ht Hsh. unfold write_mapped. rewrite Hv, Hg.
  destruct (existsb (String.eqb dod_name) time_vars) eqn:Et.
  { exfalso. apply Ht. now apply in_time_vars. }
  destruct (match Np.mask values with
            | Some _ => Np.ma_filled values (NetCDF.var_fill var)
            | None => Ok values
            end) as [filled|e0] eqn:E0; cbn [Py.bind].
  2:{ destruct (Np.mask values) as [m|] eqn:Em; [|discriminate].
      revert E0. unfold Np.ma_filled, Np.check_fill_value. rewrite Em. cbv zeta.
      destruct (Np.cast_scalar _ _); cbn [Py.bind]; [discriminate|].
      now intros H; injection H as <-. }
  assert (Hf : Np.shape filled = []).
  { rewrite <- Hsh. destruct (Np.mask values) eqn:Em; [|now injection E0 as <-].
    eapply ma_filled_shape; eassumption. }
  destruct (replace_nan (NetCDF.var_fill var) filled) as [a1|e] eqn:E1; simpl.
  - assert (Hs1 : Np.shape a1 = []).
    { revert E1. unfold replace_nan.
      destruct (NetCDF.var_fill var); [|intros H; injection H as <-; exact Hf].
      destruct (Np.isnan filled) as [nan|]; simpl; [|discriminate].
      destruct (Np.any nan); intros H; injection H as <-; exact Hf. }
    unfold check_cftime, Np.len. rewrite Hs1. reflexivity.
  - apply replace_nan_error in E1. now subst e.
Qed.

End ValueFacts.

(** X18. When the value pass returns, each of the variables [radar_lat],
    [radar_lon] and [radar_alt] that the file has holds the dataset
    attribute [origin_latitude], [origin_longitude] or [origin_altitude], or
    0.0 when the dataset has no such attribute, whatever the variable mapping
    wrote to the variable before. *)
Theorem radar_metadata_from_attributes (ds : WriteOutnc.xr_dataset)
    (nc nc' : WriteOutnc.nc_dataset) (d : WriteOutnc.dod)
    (config : gmap string WriteOutnc.cfg_value) (var attr : string) :
  WriteOutnc._write_dataset_to_file ds nc d config = (nc', Ok tt) ->
  In (var, attr) WriterFacts.radar_metadata ->
  Dict.mem var (NetCDF.variables nc) = true ->
  exists v, Dict.get var (NetCDF.variables nc') = Some v
    /\ NetCDF.var_data v
       = Some (match WriteOutnc.ds_attrs ds !! attr with
               | Some a => a
               | None => Np.scalar_float64 (F64.Fin 0)
               end).
Proof.
  apply radar_written.
Qed.

Lemma radar_metadata_from_attributes_witness :
  (exists nc1 v1,
     WriteOutnc.write_mapped SampleWrite.ds_lat SampleWrite.schema
       SampleWrite.container "radar_lat" "radar_lat" = Ok nc1
     /\ Dict.get "radar_lat" (NetCDF.variables nc1) = Some v1
     /\ NetCDF.var_data v1
        = Some (Np.plain Np.float32 [1%nat] [Sample.num 99]))
  /\ exists nc' v,
       WriteOutnc._write_dataset_to_file SampleWrite.ds_lat SampleWrite.container
         SampleWrite.schema SampleWrite.config_lat = (nc', Ok tt)
       /\ Dict.get "radar_lat" (NetCDF.variables nc') = Some v
       /\ NetCDF.var_data v = Some (Np.scalar_float64 (F64.Fin 38)).
Proof.
  split.
  - do 2 eexists. split; [vm_compute; reflexivity|].
    split; vm_compute; reflexivity.
  - destruct (WriteOutnc._write_dataset_to_file SampleWrite.ds_lat
                SampleWrite.container SampleWrite.schema SampleWrite.config_lat)
      as [nc' [[]|e]] eqn:E; [|vm_compute in E; discriminate].
    destruct (radar_metadata_from_attributes _ _ _ _ _
                "radar_lat" "origin_latitude" E)
      as (v & Hg & Hd); [left; reflexivity|reflexivity|].
    exists nc', v. split; [reflexivity|]. split; [exact Hg|exact Hd].
Defined.

(** X19. When a mapped array of numbers is written to a variable that has
    a fill value which is a number and not NaN, the data written holds no
    NaN: masked elements and NaN elements have been replaced by the fill
    value before the conversion to the declared type, and the conversion
    makes no NaN. *)
Theorem written_data_has_no_nan (ds : WriteOutnc.xr_dataset) (d : WriteOutnc.dod)
    (nc nc' : WriteOutnc.nc_dataset) (xr_name dod_name : string)
    (values : Np.ndarray) (var : NetCDF.variable WriteOutnc.attr_value)
    (f : Np.scalar) :
  WriteOutnc.data_vars ds !! xr_name = Some values ->
  Dict.get dod_name (NetCDF.variables nc) = Some var ->
  ~ In dod_name WriteOutnc.time_vars ->
  NetCDF.var_fill var = Some f ->
  Spec.is_number f -> WriterFacts.not_nan f ->
  Forall Spec.is_number (Np.flat values) ->
  WriteOutnc.write_mapped ds d nc xr_name dod_name = Ok nc' ->
  exists v' data,
    Dict.get dod_name (NetCDF.variables nc') = Some v'
    /\ NetCDF.var_data v' = Some data
    /\ Forall WriterFacts.not_nan (Np.flat data).
Proof.
  apply write_mapped_no_nan.
Qed.

Lemma written_data_has_no_nan_witness :
  exists nc' v' data,
    WriteOutnc.write_mapped SampleWrite.ds_nan SampleWrite.schema
      SampleWrite.container "corrected_reflectivity" "refl" = Ok nc'
    /\ Dict.get "refl" (NetCDF.variables nc') = Some v'
    /\ NetCDF.var_data v' = Some data
    /\ Np.flat data = [Sample.num 10; Sample.num (-9999); Sample.num 30]
    /\ Forall WriterFacts.not_nan (Np.flat data).
Proof.
  destruct (WriteOutnc.write_mapped SampleWrite.ds_nan SampleWrite.schema
              SampleWrite.container "corrected_reflectivity" "refl")
    as [nc'|e] eqn:E; [|vm_compute in E; discriminate].
  edestruct (written_data_has_no_nan SampleWrite.ds_nan SampleWrite.schema
               SampleWrite.container nc' "corrected_reflectivity" "refl")
    as (v' & data & Hg & Hd & Hn);
    [ vm_compute; reflexivity
    | vm_compute; reflexivity
    | vm_compute; intros [H|[H|[H|[]]]]; discriminate
    | vm_compute; reflexivity
    | exact I
    | reflexivity
    | repeat constructor
    | exact E
    | ].
  exists nc', v', data. split; [reflexivity|]. split; [exact Hg|].
  split; [exact Hd|]. split; [|exact Hn].
  vm_compute in E. injection E as <-.
  vm_compute in Hg. injection Hg as <-.
  vm_compute in Hd. injection Hd as <-. reflexivity.
Defined.

(** X20. When a mapped array is written to a variable whose declared type
    is one of [float], [double], [short], [int] and [byte], the data written
    has the numpy type float32, float64, int16, int32 or int8 of that name,
    and the shape and the number of elements of the array of the dataset. *)
Theorem written_data_has_declared_type (ds : WriteOutnc.xr_dataset)
    (d : WriteOutnc.dod) (nc nc' : WriteOutnc.nc_dataset)
    (xr_name dod_name : string) (values : Np.ndarray)
    (var : NetCDF.variable WriteOutnc.attr_value)
    (spec : WriteOutnc.var_spec) (t : Np.dtype) :
  WriteOutnc.data_vars ds !! xr_name = Some values ->
  Dict.get dod_name (NetCDF.variables nc) = Some var ->
  ~ In dod_name WriteOutnc.time_vars ->
  Dict.get dod_name (WriteOutnc.variables d) = Some spec ->
  WriteOutnc.dtype_map (WriteOutnc.dtype spec) = Some t ->
  WriteOutnc.write_mapped ds d nc xr_name dod_name = Ok nc' ->
  exists v' data,
    Dict.get dod_name (NetCDF.variables nc') = Some v'
    /\ NetCDF.var_data v' = Some data
    /\ Np.adtype data = t
    /\ Np.shape data = Np.shape values
    /\ length (Np.flat data) = length (Np.flat values).
Proof.
  apply write_mapped_dtype.
Qed.

Lemma written_data_has_declared_type_witness :
  exists nc' v' data,
    WriteOutnc.write_mapped Sample.ds Sample.schema Sample.container
      "hp_fhc_summer" "hp_fhc" = Ok nc'
    /\ Dict.get "hp_fhc" (NetCDF.variables nc') = Some v'
    /\ NetCDF.var_data v' = Some data
    /\ Np.adtype Sample.hp_masked = Np.int64
    /\ Np.adtype data = Np.int16.
Proof.
  destruct (WriteOutnc.write_mapped Sample.ds Sample.schema Sample.container
              "hp_fhc_summer" "hp_fhc") as [nc'|e] eqn:E;
    [|vm_compute in E; discriminate].
  edestruct (written_data_has_declared_type Sample.ds Sample.schema
               Sample.container nc' "hp_fhc_summer" "hp_fhc")
    as (v' & data & Hg & Hd & Ht & _);
    [ vm_compute; reflexivity
    | vm_compute; reflexivity
    | vm_compute; intros [H|[H|[H|[]]]]; discriminate
    | vm_compute; reflexivity
    | vm_compute; reflexivity
    | exact E
    | ].
  exists nc', v', data. repeat split; assumption.
Defined.

(** X21. A mapped variable without dimensions (a 0-d array, as a scalar
    latitude of the radar would be) cannot be written through the variable
    mapping: when the dataset and the file both have the entry and it is not
    a time variable, the step raises TypeError, from [len(data)] or, for an
    array of objects and a variable with a fill value, from [np.isnan]. *)
Theorem unsized_array_rejected (ds : WriteOutnc.xr_dataset) (d : WriteOutnc.dod)
    (nc : WriteOutnc.nc_dataset) (xr_name dod_name : string)
    (values : Np.ndarray) (var : NetCDF.variable WriteOutnc.attr_value) :
  WriteOutnc.data_vars ds !! xr_name = Some values ->
  Dict.get dod_name (NetCDF.variables nc) = Some var ->
  ~ In dod_name WriteOutnc.time_vars ->
  Np.shape values = [] ->
  WriteOutnc.write_mapped ds d nc xr_name dod_name = Raise (TypeError lib_msg).
Proof.
  apply write_mapped_unsized.
Qed.

Lemma unsized_array_rejected_witness :
  WriteOutnc.write_mapped SampleWrite.ds_scalar SampleWrite.schema
    SampleWrite.container "radar_lat" "radar_lat" = Raise (TypeError lib_msg).
Proof.
  eapply (unsized_array_rejected SampleWrite.ds_scalar SampleWrite.schema
            SampleWrite.container "radar_lat" "radar_lat").
  - vm_compute. reflexivity.
  - vm_compute. reflexivity.
  - vm_compute. intros [H|[H|[H|[]]]]; discriminate.
  - reflexivity.
Defined.

(** * The number of grid points *)

Section GridPoints.
Import F64 HpProcessing.

Lemma inject_Z_sub (a b : Z) : (inject_Z a - inject_Z b)%Q = inject_Z (a - b).
Proof.
  unfold Qminus, Qplus, Qopp, inject_Z. simpl. f_equal. ring.
Qed.

(** The quotient of two integers as doubles, cut to an integer, is their
    integer quotient when the dividend is below [2^32] and the divisor at
    most [2^21]: no rounding reaches the next integer. *)
Lemma div_trunc_exact (p q : Z) :
  0 <= p < 2 ^ 32 -> 0 < q <= 2 ^ 21 ->
  trunc (div (Fin (inject_Z p)) (Fin (inject_Z q))) = Ok (p / q).
Proof.
  intros Hp Hq.
  destruct (Z.eq_dec p 0) as [->|Hnz].
  { unfold div. simpl. destruct q; try lia. reflexivity. }
  pose proof (Z.div_mod p q ltac:(lia)) as Hdm.
  pose proof (Z.mod_pos_bound p q ltac:(lia)) as Hm.
  set (k := p / q) in *.
  assert (Hk0 : 0 <= k) by (apply Z.div_pos; lia).
  unfold div.
  assert (Hq0 : (Qnum (inject_Z q) =? 0) = false) by (apply Z.eqb_neq; simpl; lia).
  rewrite Hq0.
  set (x := (inject_Z p / inject_Z q)%Q).
  assert (Hxn : Qnum x = p * 1).
  { unfold x, Qdiv, Qmult, Qinv, inject_Z. simpl. destruct q; try lia. reflexivity. }
  assert (Hxd : Zpos (Qden x) = q).
  { unfold x, Qdiv, Qmult, Qinv, inject_Z. simpl. destruct q; try lia. reflexivity. }
  destruct (round_between binary64 x (-21) (k * 2 ^ 21) ((k + 1) * 2 ^ 21 - 1))
    as (y & Hy & Hy1 & Hy2).
  - rewrite Hxn. lia.
  - etransitivity; [apply (expo_le_Q binary64 x 32)|].
    + rewrite Hxn. lia.
    + rewrite Hxn, Hxd. change (pow2d 32) with 1. change (pow2n 32) with (2 ^ 32).
      nia.
    + reflexivity.
  - unfold Qle. rewrite dyadic_raw_den. simpl Qnum at 1. rewrite Hxn, Hxd.
    change (pow2d (-21)) with (2 ^ 21). change (pow2n (-21)) with 1. nia.
  - unfold Qle. rewrite dyadic_raw_den. simpl Qnum at 2. rewrite Hxn, Hxd.
    change (pow2d (-21)) with (2 ^ 21). change (pow2n (-21)) with 1. nia.
  - change (pow2d (-21)) with (2 ^ 21). change (pow2n (-21)) with 1.
    assert (2 ^ 54 < 2 ^ emax binary64) by (apply Z.pow_lt_mono_r; simpl; lia).
    assert (0 < 2 ^ 21) by lia. nia.
  - rewrite Hy. now apply trunc_between.
Qed.

Lemma compute_npoints_exact (lo hi res : Z) :
  - 2 ^ 31 <= lo -> lo <= hi -> hi < 2 ^ 31 -> 0 < res <= 2 ^ 21 ->
  compute_npoints (Fin (inject_Z lo), Fin (inject_Z hi)) res
  = Points ((hi - lo) / res).
Proof.
  intros Hlo Hle Hhi Hres. unfold compute_npoints, float_sub. cbn [fst snd].
  rewrite inject_Z_sub.
  assert (Hr : (res =? 0) = false) by (apply Z.eqb_neq; lia). rewrite Hr.
  fold (of_Z (hi - lo)).
  assert (H53 : 2 ^ 32 < 2 ^ 53) by (apply Z.pow_lt_mono_r; lia).
  rewrite !of_Z_exact by lia.
  rewrite div_trunc_exact by lia. reflexivity.
Qed.

End GridPoints.

(** X22. For integer-valued limits [lo <= hi] between [-2^31] and [2^31]
    and an integer resolution between 1 and [2^21], [compute_npoints]
    returns exactly the integer quotient of [hi - lo] by the resolution:
    neither the subtraction nor the division of doubles nor [int] loses or
    gains a point. *)
Theorem compute_npoints_is_exact (lo hi res : Z) :
  - 2 ^ 31 <= lo -> lo <= hi -> hi < 2 ^ 31 -> 0 < res <= 2 ^ 21 ->
  HpProcessing.compute_npoints (F64.Fin (inject_Z lo), F64.Fin (inject_Z hi)) res
  = HpProcessing.Points ((hi - lo) / res).
Proof.
  apply compute_npoints_exact.
Qed.

Lemma compute_npoints_is_exact_witness :
  HpProcessing.compute_npoints
    (F64.Fin (inject_Z (-20000)), F64.Fin (inject_Z 20000)) 250
  = HpProcessing.Points 160.
Proof.
  rewrite (compute_npoints_is_exact (-20000) 20000 250); [reflexivity|lia..].
Defined.

(** * Resolving the global attributes twice *)

Section ResolveTwice.
Import WriteOutnc Spec.

Lemma with_derived_lookup (env : environ) (config : gmap string cfg_value)
    (k : string) :
  with_derived env config !! k
  = if String.eqb k "history" then Some (CStr (history env))
    else if String.eqb k "command_line" then Some (CStr (command_line env))
    else config !! k.
Proof.
  unfold with_derived.
  destruct (String.eqb_spec k "history") as [->|H1].
  - apply lookup_insert_eq.
  - rewrite lookup_insert_ne by congruence.
    destruct (String.eqb_spec k "command_line") as [->|H2].
    + apply lookup_insert_eq.
    + now rewrite lookup_insert_ne by congruence.
Qed.

Lemma resolve_item_again (env env' : environ) (config : gmap string cfg_value)
    (kv : string * string) :
  command_line env' = command_line env ->
  unresolved (with_derived env config) kv = false ->
  resolve_item (with_derived env' (with_derived env config))
    (resolve_item (with_derived env config) kv)
  = resolve_item (with_derived env config) kv
  /\ unresolved (with_derived env' (with_derived env config))
       (resolve_item (with_derived env config) kv) = false.
Proof.
  intros Hcl Hu. destruct kv as [k v].
  set (cfg := with_derived env config) in *.
  set (cfg' := with_derived env' cfg).
  unfold unresolved in Hu. cbn [fst snd] in Hu.
  assert (Hr : resolve_item cfg (k, v)
               = if String.eqb v EmptyString
                 then match cfg !! k with
                      | Some c => (k, py_str c)
                      | None => (k, v)
                      end
                 else (k, v)) by reflexivity.
  rewrite Hr. clear Hr.
  destruct (String.eqb v EmptyString) eqn:Ev.
  - destruct (cfg !! k) as [c|] eqn:Ec; [|discriminate].
    unfold resolve_item, unresolved. cbn [fst snd].
    destruct (String.eqb (py_str c) EmptyString) eqn:Ep; [|auto].
    assert (Hc' : cfg' !! k = Some c).
    { unfold cfg'. rewrite with_derived_lookup.
      pose proof Ec as Ec0.
      unfold cfg in Ec0. rewrite with_derived_lookup in Ec0.
      destruct (String.eqb k "history").
      - injection Ec0 as <-. simpl in Ep. discriminate.
      - destruct (String.eqb k "command_line"); [|exact Ec].
        now rewrite Hcl. }
    rewrite Hc'. split; reflexivity.
  - unfold resolve_item, unresolved. cbn [fst snd]. rewrite Ev. auto.
Qed.

Lemma unresolved_names_forall (config : gmap string cfg_value)
    (items : list (string * string)) :
  unresolved_names config items = []
  <-> Forall (fun kv => unresolved config kv = false) items.
Proof.
  unfold unresolved_names. induction items as [|kv items IH]; simpl.
  - split; [constructor|reflexivity].
  - rewrite filter_cons. destruct (decide (unresolved config kv = true)) as [E|E].
    + split; [discriminate|]. intros H. inversion H; congruence.
    + rewrite IH. split.
      * intros H. constructor; [now destruct (unresolved config kv)|exact H].
      * intros H. now inversion H.
Qed.

Lemma resolve_twice (env env' : environ) (d d' : dod)
    (config : gmap string cfg_value) :
  command_line env' = command_line env ->
  returned (_update_dod_globals env d config) = Ok d' ->
  returned (_update_dod_globals env' d'
              (config_after (_update_dod_globals env d config))) = Ok d'.
Proof.
  intros Hcl H. rewrite config_after_eq.
  pose proof (returned_eq env d config) as H1. cbv zeta in H1.
  rewrite H in H1.
  destruct (unresolved_names (with_derived env config) (globals d)) eqn:Eu;
    [|discriminate].
  injection H1 as ->.
  pose proof (returned_eq env'
    {| dimensions := dimensions d; variables := variables d;
       globals := map (resolve_item (with_derived env config)) (globals d) |}
    (with_derived env config)) as H2.
  cbv zeta in H2. simpl in H2. rewrite H2. clear H2.
  apply unresolved_names_forall in Eu.
  assert (Hall : Forall (fun kv =>
            resolve_item (with_derived env' (with_derived env config))
              (resolve_item (with_derived env config) kv)
            = resolve_item (with_derived env config) kv
            /\ unresolved (with_derived env' (with_derived env config))
                 (resolve_item (with_derived env config) kv) = false)
          (globals d)).
  { eapply List.Forall_impl; [|exact Eu]. intros kv Hkv.
    now apply resolve_item_again. }
  replace (unresolved_names _ _) with (@nil string).
  - f_equal. f_equal. rewrite map_map. apply map_ext_in. intros kv Hin.
    rewrite List.Forall_forall in Hall. apply (Hall kv Hin).
  - symmetry. apply unresolved_names_forall. apply Forall_map.
    eapply List.Forall_impl; [|exact Hall]. intros kv [_ Hk]. exact Hk.
Qed.

End ResolveTwice.

(** X23. Resolving the global attributes a second time, on the schema and
    the configuration that the first call left and with the same command
    line, returns the same schema, also when the clock or the host name of
    the history entry have changed: attributes that were filled are not
    filled again. *)
Theorem resolve_globals_twice (env env' : WriteOutnc.environ)
    (d d' : WriteOutnc.dod) (config : gmap string WriteOutnc.cfg_value) :
  WriteOutnc.command_line env' = WriteOutnc.command_line env ->
  WriteOutnc.returned (WriteOutnc._update_dod_globals env d config) = Ok d' ->
  WriteOutnc.returned
    (WriteOutnc._update_dod_globals env' d'
       (WriteOutnc.config_after (WriteOutnc._update_dod_globals env d config)))
  = Ok d'.
Proof.
  apply resolve_twice.
Qed.

Lemma resolve_globals_twice_witness :
  exists d',
    WriteOutnc.returned
      (WriteOutnc._update_dod_globals Sample.env SampleWrite.schema_globals
         Sample.config) = Ok d'
    /\ WriteOutnc.globals d'
       = [("doi", "10.5439/2530631");
          ("history", "created on 2024-01-15 03:20:00 UTC on host");
          ("site_id", "guc")]
    /\ WriteOutnc.history SampleWrite.env_later
       = "created on 2024-01-15 04:20:00 UTC on other"
    /\ WriteOutnc.returned
         (WriteOutnc._update_dod_globals SampleWrite.env_later d'
            (WriteOutnc.config_after
               (WriteOutnc._update_dod_globals Sample.env
                  SampleWrite.schema_globals Sample.config))) = Ok d'.
Proof.
  destruct (WriteOutnc.returned
              (WriteOutnc._update_dod_globals Sample.env
                 SampleWrite.schema_globals Sample.config))
    as [d'|e] eqn:E; [|vm_compute in E; discriminate].
  exists d'. split; [reflexivity|]. split.
  - vm_compute in E. injection E as <-. reflexivity.
  - split; [vm_compute; reflexivity|].
    apply (resolve_globals_twice Sample.env SampleWrite.env_later
             SampleWrite.schema_globals d' Sample.config);
      [reflexivity|exact E].
Defined.

(** * Declarations that the parser accepts *)

Section Declarations.
Import PyStr PyText WriteOutnc SchemaText.

Lemma word_char (c : ascii) :
  is_word c = true ->
  is_space c = false /\ Ascii.eqb tab c = false /\ Ascii.eqb c "#" = false
  /\ Ascii.eqb c "(" = false /\ Ascii.eqb ")" c = false.
Proof.
  destruct c as [[] [] [] [] [] [] [] []]; vm_compute; intros H;
    try discriminate; repeat split; reflexivity.
Qed.

Lemma span_word_all (w : string) : all_word w = true -> span_word w = (w, EmptyString).
Proof.
  induction w as [|c w IH]; simpl; [reflexivity|].
  intros H. apply andb_true_iff in H as [Hc Hw].
  rewrite Hc, (IH Hw). reflexivity.
Qed.

Lemma span_word_paren (w r : string) :
  all_word w = true -> span_word (w +:+ String "(" r) = (w, String "(" r).
Proof.
  induction w as [|c w IH]; intros H.
  - reflexivity.
  - simpl in H. apply andb_true_iff in H as [Hc Hw].
    change (String c w +:+ String "(" r) with (String c (w +:+ String "(" r)).
    cbn [span_word]. rewrite Hc, (IH Hw). reflexivity.
Qed.

Lemma close_and_type_word (t : string) :
  is_name t = true -> close_and_type (String ")" (String ":" t)) = Some t.
Proof.
  unfold is_name. intros H. apply andb_true_iff in H as [Hne Hw].
  cbn [close_and_type]. rewrite (span_word_all t Hw). simpl.
  destruct t; [discriminate|reflexivity].
Qed.

Lemma close_and_type_other (c : ascii) (r : string) :
  Ascii.eqb ")" c = false -> close_and_type (String c r) = None.
Proof.
  intros H. unfold close_and_type.
  destruct c as [[] [] [] [] [] [] [] []]; try reflexivity. discriminate.
Qed.

Lemma lazy_dims_app (dims_ t : string) :
  contains_char ")" dims_ = false -> contains_char newline dims_ = false ->
  is_name t = true ->
  lazy_dims (dims_ +:+ String ")" (String ":" t)) = Some (dims_, t).
Proof.
  intros Hd Hnl Ht. induction dims_ as [|c r IH].
  - change (EmptyString +:+ String ")" (String ":" t))
      with (String ")" (String ":" t)).
    cbn [lazy_dims]. now rewrite close_and_type_word.
  - cbn [contains_char] in Hd, Hnl.
    apply orb_false_iff in Hd as [Hc Hr].
    apply orb_false_iff in Hnl as [Hcn Hrn].
    change (String c r +:+ String ")" (String ":" t))
      with (String c (r +:+ String ")" (String ":" t))).
    cbn [lazy_dims]. rewrite (close_and_type_other c _ Hc), (IH Hr Hrn).
    rewrite Ascii.eqb_sym, Hcn. reflexivity.
Qed.

Lemma match_var_decl_declaration (name dims_ t : string) :
  is_name name = true -> contains_char ")" dims_ = false ->
  contains_char newline dims_ = false -> is_name t = true ->
  match_var_decl (declaration name dims_ t) = Some (name, dims_, t).
Proof.
  intros Hn Hd Hnl Ht. unfold match_var_decl, declaration.
  unfold is_name in Hn. apply andb_true_iff in Hn as [Hne Hw].
  change ("(" +:+ dims_ +:+ "):" +:+ t)
    with (String "(" (dims_ +:+ String ")" (String ":" t))).
  rewrite (span_word_paren name _ Hw).
  destruct name as [|c name]; [discriminate|].
  now rewrite lazy_dims_app.
Qed.

Lemma app_nonempty (a s : string) : s <> EmptyString -> a +:+ s <> EmptyString.
Proof. intros Hs. destruct a; [exact Hs|discriminate]. Qed.

Lemma rstrip_keep_suffix (s : string) :
  s <> EmptyString -> rstrip_by is_space s = s ->
  forall a, rstrip_by is_space (a +:+ s) = a +:+ s.
Proof.
  intros Hs Hr a. induction a as [|c a IH]; [exact Hr|].
  change (String c a +:+ s) with (String c (a +:+ s)).
  cbn [rstrip_by]. rewrite IH.
  pose proof (app_nonempty a s Hs) as Hne.
  destruct (a +:+ s); [contradiction|reflexivity].
Qed.

Lemma rstrip_word (t : string) : all_word t = true -> rstrip_by is_space t = t.
Proof.
  induction t as [|c t IH]; simpl; [reflexivity|].
  intros H. apply andb_true_iff in H as [Hc Hw].
  rewrite (IH Hw). destruct (word_char c Hc) as (Hs & _).
  rewrite Hs. now destruct t.
Qed.

Lemma replace_no_tab (s : string) :
  contains_char tab s = false -> replace_char tab " " s = s.
Proof.
  induction s as [|c s IH]; [reflexivity|].
  cbn [contains_char replace_char]. intros H.
  apply orb_false_iff in H as [Hc Hs]. now rewrite Hc, (IH Hs).
Qed.

Lemma word_no_tab (w : string) : all_word w = true -> contains_char tab w = false.
Proof.
  induction w as [|c w IH]; [reflexivity|].
  cbn [all_word contains_char]. intros H.
  apply andb_true_iff in H as [Hc Hw].
  destruct (word_char c Hc) as (_ & Ht & _). now rewrite Ht, (IH Hw).
Qed.

Lemma normalize_declaration (name dims_ t : string) :
  is_name name = true -> contains_char tab dims_ = false -> is_name t = true ->
  normalize (declaration name dims_ t) = declaration name dims_ t.
Proof.
  intros Hn Hd Ht. unfold normalize, PyText.rstrip, declaration.
  unfold is_name in Hn, Ht.
  apply andb_true_iff in Hn as [Hne Hw]. apply andb_true_iff in Ht as [Hte Htw].
  assert (Htn : t <> EmptyString).
  { intros ->. vm_compute in Hte. discriminate. }
  assert (H1 : rstrip_by is_space ("):" +:+ t) = "):" +:+ t).
  { apply rstrip_keep_suffix; [exact Htn|now apply rstrip_word]. }
  assert (Hn1 : "):" +:+ t <> EmptyString) by (now apply app_nonempty).
  assert (Hn2 : dims_ +:+ "):" +:+ t <> EmptyString) by (now apply app_nonempty).
  assert (H2 : rstrip_by is_space (dims_ +:+ "):" +:+ t) = dims_ +:+ "):" +:+ t).
  { apply rstrip_keep_suffix; [exact Hn1|exact H1]. }
  assert (H3 : rstrip_by is_space ("(" +:+ dims_ +:+ "):" +:+ t)
               = "(" +:+ dims_ +:+ "):" +:+ t).
  { apply rstrip_keep_suffix; [exact Hn2|exact H2]. }
  rewrite rstrip_keep_suffix; [|now apply app_nonempty|exact H3].
  apply replace_no_tab. rewrite !contains_char_app.
  rewrite (word_no_tab name Hw), (word_no_tab t Htw), Hd. reflexivity.
Qed.

Lemma parse_line_decl (st : parser_state) (name dims_ t : string) :
  in_globals st = false ->
  is_name name = true -> is_name t = true ->
  contains_char ")" dims_ = false -> contains_char tab dims_ = false ->
  contains_char newline dims_ = false ->
  parse_line st (declaration name dims_ t)
  = Ok (declare_variable (clear_current st false) name t
          (if String.eqb dims_ EmptyString then []
           else map strip (split "," dims_))).
Proof.
  intros Hg Hn Ht Hp Htab Hnl. unfold parse_line.
  rewrite (normalize_declaration name dims_ t Hn Htab Ht).
  rewrite (match_var_decl_declaration name dims_ t Hn Hp Hnl Ht).
  rewrite prefix_hash_strip.
  pose proof Hn as Hn'. unfold is_name in Hn'.
  apply andb_true_iff in Hn' as [Hne Hw].
  destruct name as [|c name]; [discriminate|].
  simpl in Hw. apply andb_true_iff in Hw as [Hc Hw].
  destruct (word_char c Hc) as (Hs & _ & Hh & _).
  assert (Hcm : is_comment (declaration (String c name) dims_ t) = false).
  { unfold declaration.
    change (String c name +:+ "(" +:+ dims_ +:+ "):" +:+ t)
      with (String c (name +:+ "(" +:+ dims_ +:+ "):" +:+ t)).
    cbn [is_comment]. now rewrite Hs. }
  rewrite Hcm.
  assert (Hnb : String.eqb (strip (declaration (String c name) dims_ t))
                  EmptyString = false).
  { apply String.eqb_neq. intros E.
    assert (Hx : contains_char "(" (strip (declaration (String c name) dims_ t))
                 = true).
    { unfold strip, strip_by. apply rstrip_keeps; [reflexivity|].
      apply lstrip_keeps; [reflexivity|].
      unfold declaration. rewrite !contains_char_app. simpl.
      now rewrite orb_true_r. }
    rewrite E in Hx. discriminate. }
  rewrite Hnb.
  assert (Hi : indent_of (declaration (String c name) dims_ t) = O).
  { rewrite indent_of_leading. unfold declaration.
    change (String c name +:+ "(" +:+ dims_ +:+ "):" +:+ t)
      with (String c (name +:+ "(" +:+ dims_ +:+ "):" +:+ t)).
    cbn [leading_space]. now rewrite Hs. }
  rewrite Hi, Hg. cbn [negb andb Nat.eqb].
  assert (Hpar : contains_char "(" (declaration (String c name) dims_ t) = true).
  { unfold declaration. rewrite !contains_char_app. simpl.
    now rewrite orb_true_r. }
  rewrite Hpar. cbn [negb andb]. rewrite andb_false_r. cbn [andb].
  reflexivity.
Qed.

End Declarations.

(** X24. Outside the region of the global attributes, a line
    [name(dims):dtype] in ASCII in which [name] and [dtype] are non-empty
    runs of letters, digits and underscores and [dims] holds no closing
    parenthesis, no tab and no line feed declares the variable [name] of
    type [dtype]: it becomes the current variable, with no attributes, and
    its dimensions are the comma-separated parts of [dims], each without
    surrounding white space, or none when [dims] is empty. *)
Theorem parse_line_declares_variable (st : WriteOutnc.parser_state)
    (name dims_ dtype_ : string) :
  WriteOutnc.in_globals st = false ->
  Spec.is_ascii (SchemaText.declaration name dims_ dtype_) = true ->
  SchemaText.is_name name = true -> SchemaText.is_name dtype_ = true ->
  PyStr.contains_char ")" dims_ = false ->
  PyStr.contains_char PyText.tab dims_ = false ->
  PyStr.contains_char PyText.newline dims_ = false ->
  WriteOutnc.parse_line st (SchemaText.declaration name dims_ dtype_)
  = Ok (WriteOutnc.declare_variable (WriteOutnc.clear_current st false)
          name dtype_
          (if String.eqb dims_ EmptyString then []
           else map PyStr.strip (PyStr.split "," dims_))).
Proof.
  intros Hg _. now apply parse_line_decl.
Qed.

Lemma parse_line_declares_variable_witness :
  SchemaText.declaration "refl" "time, x" "float" = "refl(time, x):float"
  /\ WriteOutnc.parse_line WriteOutnc.parser_init
       (SchemaText.declaration "refl" "time, x" "float")
     = Ok {| WriteOutnc.st_dims := [];
             WriteOutnc.st_variables :=
               [("refl", {| WriteOutnc.dtype := "float";
                            WriteOutnc.dims := ["time"; "x"];
                            WriteOutnc.attrs := [] |})];
             WriteOutnc.st_globals := [];
             WriteOutnc.current_var := Some "refl";
             WriteOutnc.in_globals := false |}.
Proof.
  split; [reflexivity|].
  rewrite (parse_line_declares_variable WriteOutnc.parser_init
             "refl" "time, x" "float"); reflexivity.
Defined.
